(** * piserver: a shallow embedding of the print-job lifecycle

    The development follows the layout of the repository:

    - [PyStr]        the Python [str] and [re] operations the helpers rely on;
    - [cups_helper]  [utils/cups_helper.py], the spooler adapter;
    - [db_helper]    [utils/db_helper.py], the job store (one SQLite table);
    - [file_helper]  [utils/file_helper.py], extension and content checks;
    - [app]          [app.py], the request handlers that compose the above;
    - [cups_status], [db_queries], [file_sweep], [app_views]
                     the status of one job, the listings, the file sweep
                     and the queue view of the same files.

    Text is a sequence of code points below 256 (Rocq's [ascii]); the
    character classes are Python's on that range. Where Python raises,
    the embedding returns [None] or answers as Flask does. *)

From Stdlib Require Import ZArith QArith Lia Bool List Ascii String.
From Stdlib Require Import Numbers.DecimalString Numbers.DecimalPos.
From stdpp Require Import base gmap strings list sorting.
Import ListNotations.

Local Open Scope Z_scope.
Local Open Scope list_scope.

(** ** Python [str] and [re] *)

Module PyStr.

Definition chars := list ascii.

Definition code (c : ascii) : N := N_of_ascii c.

(** [str.isspace] on one code point, which is also [\s] of [re] for a
    [str] pattern: TAB..CR, FS..US, SPACE, NEL and NBSP. *)
Definition is_space (c : ascii) : bool :=
  let n := code c in
  ((9 <=? n) && (n <=? 13) || (28 <=? n) && (n <=? 32)
   || (n =? 133) || (n =? 160))%N.

Definition non_space (c : ascii) : bool := negb (is_space c).

(** [\d] of [re]: the decimal digits. Below 256 these are 0..9. *)
Definition is_digit (c : ascii) : bool :=
  let n := code c in ((48 <=? n) && (n <=? 57))%N.

(** [str.lower] on one code point: A..Z and the Latin-1 capitals
    (0xC0..0xDE without the multiplication sign) move up by 32. *)
Definition lower_char (c : ascii) : ascii :=
  let n := code c in
  if ((65 <=? n) && (n <=? 90)
      || (192 <=? n) && (n <=? 222) && negb (n =? 215))%N
  then ascii_of_N (n + 32) else c.

Fixpoint drop_while (p : ascii -> bool) (s : chars) : chars :=
  match s with
  | c :: s' => if p c then drop_while p s' else s
  | [] => []
  end.

Fixpoint take_while (p : ascii -> bool) (s : chars) : chars :=
  match s with
  | c :: s' => if p c then c :: take_while p s' else []
  | [] => []
  end.

(** [s.strip()] *)
Definition strip_chars (s : chars) : chars :=
  rev (drop_while is_space (rev (drop_while is_space s))).

(** [s.split()]: the maximal runs of non-blank characters. [cur] is the
    run being read, reversed. *)
Fixpoint split_ws_go (cur : chars) (s : chars) : list chars :=
  match s with
  | [] => match cur with [] => [] | _ => [rev cur] end
  | c :: s' =>
      if is_space c
      then match cur with
           | [] => split_ws_go [] s'
           | _ => rev cur :: split_ws_go [] s'
           end
      else split_ws_go (c :: cur) s'
  end.

Definition split_ws_chars (s : chars) : list chars := split_ws_go [] s.

(** [s.split(sep)] for a one-character separator: every separator cuts,
    so the result has one more piece than there are separators. *)
Fixpoint split_on_go (sep : ascii) (cur : chars) (s : chars) : list chars :=
  match s with
  | [] => [rev cur]
  | c :: s' =>
      if Ascii.eqb c sep
      then rev cur :: split_on_go sep [] s'
      else split_on_go sep (c :: cur) s'
  end.

Definition split_on_chars (sep : ascii) (s : chars) : list chars :=
  split_on_go sep [] s.

(** [sep in s] for a one-character [sep]. *)
Definition contains_char (sep : ascii) (s : chars) : bool :=
  existsb (Ascii.eqb sep) s.

(** [s.rsplit(sep, 1)[1]] when [sep] occurs in [s]: what follows its
    last occurrence. Without an occurrence the index is out of range. *)
Definition rsplit1_tail_chars (sep : ascii) (s : chars) : option chars :=
  if contains_char sep s
  then Some (rev (take_while (fun c => negb (Ascii.eqb c sep)) (rev s)))
  else None.

(** *** The fragment of [re] the helpers use

    A pattern is a sequence of atoms. [Plus] and [Group] are greedy
    one-or-more repetitions of a character class; [Group] also records
    what it matched as group 1. The matcher backtracks as [re] does:
    a repetition first takes all it can and then gives back one
    character at a time. *)

Inductive atom : Type :=
| Chr (c : ascii)
| Plus (cls : ascii -> bool)
| Group (cls : ascii -> bool)
| Eos.

(** Try [k], then [k-1], ... down to 1. *)
Fixpoint longest_first {A} (try : nat -> option A) (k : nat) : option A :=
  match k with
  | O => None
  | S k' =>
      match try k with
      | Some r => Some r
      | None => longest_first try k'
      end
  end.

Definition span (cls : ascii -> bool) (s : chars) : nat :=
  length (take_while cls s).

(** [$] without MULTILINE: at the end, or before a final newline. *)
Definition at_end (s : chars) : bool :=
  match s with
  | [] => true
  | [c] => Ascii.eqb c "010"
  | _ => false
  end.

(** Match [re] at the start of [s]; the result is the text of group 1
    (empty when the pattern has no group). *)
Fixpoint match_here (re : list atom) (s : chars) : option chars :=
  match re with
  | [] => Some []
  | Chr c :: re' =>
      match s with
      | x :: s' => if Ascii.eqb x c then match_here re' s' else None
      | [] => None
      end
  | Plus cls :: re' =>
      longest_first (fun k => match_here re' (skipn k s)) (span cls s)
  | Group cls :: re' =>
      longest_first
        (fun k => match match_here re' (skipn k s) with
                  | Some _ => Some (firstn k s)
                  | None => None
                  end)
        (span cls s)
  | Eos :: re' => if at_end s then match_here re' s else None
  end.

(** [re.search(re, s)]: the first position, from the left, where the
    pattern matches; [Some g] carries [match.group(1)]. *)
Fixpoint re_search (re : list atom) (s : chars) : option chars :=
  match match_here re s with
  | Some g => Some g
  | None =>
      match s with
      | [] => None
      | _ :: s' => re_search re s'
      end
  end.

Definition literal (s : string) : list atom :=
  map Chr (list_ascii_of_string s).

(** The same operations on [string]. *)
Definition strip (s : string) : string :=
  string_of_list_ascii (strip_chars (list_ascii_of_string s)).

Definition split_ws (s : string) : list string :=
  map string_of_list_ascii (split_ws_chars (list_ascii_of_string s)).

Definition split_on (sep : ascii) (s : string) : list string :=
  map string_of_list_ascii (split_on_chars sep (list_ascii_of_string s)).

Definition lower (s : string) : string :=
  string_of_list_ascii (map lower_char (list_ascii_of_string s)).

Definition contains (sep : ascii) (s : string) : bool :=
  contains_char sep (list_ascii_of_string s).

Definition rsplit1_tail (sep : ascii) (s : string) : option string :=
  option_map string_of_list_ascii
    (rsplit1_tail_chars sep (list_ascii_of_string s)).

Definition search_group1 (re : list atom) (s : string) : option string :=
  option_map string_of_list_ascii (re_search re (list_ascii_of_string s)).

(** [str(n)] for an [int]. *)
Definition str_of_int (n : Z) : string :=
  NilEmpty.string_of_int (Z.to_int n).

(** *** [int(s)] for a [str]

    The blanks [int] passes over are not those of [str.strip]: the
    separators FS..US are refused. *)
Definition is_int_space (c : ascii) : bool :=
  let n := code c in
  ((9 <=? n) && (n <=? 13) || (n =? 32) || (n =? 133) || (n =? 160))%N.

Definition is_digit_or_underscore (c : ascii) : bool :=
  is_digit c || Ascii.eqb c "_".

(** The value of a run of decimal digits. *)
Fixpoint digits_value (acc : Z) (s : chars) : option Z :=
  match s with
  | [] => Some acc
  | c :: s' =>
      if is_digit c
      then digits_value (10 * acc + Z.of_N (code c - 48)) s'
      else None
  end.

(** A run of digits and underscores is a number when it is not empty and
    every underscore stands between two digits. [after_digit] tells
    whether the character before was a digit. *)
Fixpoint well_grouped (after_digit : bool) (s : chars) : bool :=
  match s with
  | [] => after_digit
  | c :: s' =>
      if is_digit c then well_grouped true s'
      else after_digit && well_grouped false s'
  end.

(** [sys.get_int_max_str_digits()], which nothing in the repository
    changes. *)
Definition int_max_str_digits : nat := 4300.

(** [int(s)]: blanks, an optional sign, digits grouped by single
    underscores, blanks. Anything else, and a number of more than
    [int_max_str_digits] digits, raises ValueError ([None]). *)
Definition int_of_chars (s : chars) : option Z :=
  let s := drop_while is_int_space s in
  let negative := match s with "-"%char :: _ => true | _ => false end in
  let s := match s with
           | "-"%char :: s' => s'
           | "+"%char :: s' => s'
           | _ => s
           end in
  let body := take_while is_digit_or_underscore s in
  let rest := drop_while is_digit_or_underscore s in
  let digits := List.filter is_digit body in
  if well_grouped false body && forallb is_int_space rest
     && (length digits <=? int_max_str_digits)%nat
  then option_map (fun n => if negative then - n else n)
                  (digits_value 0 digits)
  else None.

Definition int_of_str (s : string) : option Z :=
  int_of_chars (list_ascii_of_string s).

End PyStr.

(** ** Child processes

    [subprocess.run] is the only door to the spooler. What a command does
    is the environment's business: the oracle answers the n-th command a
    request runs. The log keeps every command handed over, oldest first. *)

Module Subprocess.

Inductive outcome : Type :=
| Completed (returncode : Z) (stdout stderr : string)
| TimeoutExpired
| FileNotFoundError
| OtherException (text : string).

Definition oracle := nat -> list string -> outcome.

Definition log := list (list string).

Definition run (env : oracle) (cmd : list string) (l : log) : outcome * log :=
  (env (length l) cmd, l ++ [cmd]).

End Subprocess.

(** ** utils/cups_helper.py *)

Module cups_helper.
Import PyStr Subprocess.

(** [x or y] on text. *)
Definition or_else (x y : string) : string :=
  if String.eqb x "" then y else x.

(** r'request id is \S+-(\d+)' *)
Definition request_id_pattern : list atom :=
  literal "request id is " ++ [Plus non_space; Chr "-"; Group is_digit].

(** r'-(\d+)$' *)
Definition job_suffix_pattern : list atom :=
  [Chr "-"; Group is_digit; Eos].

(** The argument vector of [submit_print_job], built the way the
    source grows [cmd]. *)
Definition lp_command (filepath : string) (copies : Z) (duplex : bool)
  : list string :=
  let cmd := ["lp"] in
  let cmd := if 1 <? copies then cmd ++ ["-n"; str_of_int copies] else cmd in
  let cmd := if duplex
             then cmd ++ ["-o"; "sides=two-sided-long-edge"]
             else cmd ++ ["-o"; "sides=one-sided"] in
  cmd ++ [filepath].

Definition submit_result (result : outcome) : bool * string :=
  match result with
  | Completed returncode stdout stderr =>
      if returncode =? 0 then
        match search_group1 request_id_pattern stdout with
        | Some job_id => (true, job_id)
        | None => (true, strip stdout)
        end
      else (false, or_else (strip stderr) "Unknown error submitting print job")
  | TimeoutExpired => (false, "Print command timed out")
  | FileNotFoundError =>
      (false, "CUPS lp command not found. Is CUPS installed?")
  | OtherException e => (false, "Error submitting print job: " +:+ e)
  end.

Definition submit_print_job (env : oracle) (filepath : string) (copies : Z)
    (duplex : bool) (l : log) : (bool * string) * log :=
  let cmd := lp_command filepath copies duplex in
  let (result, l') := run env cmd l in
  (submit_result result, l').

Record QueueJob := {
  job_id : string;
  user : string;
  size : string;
  status : string;
  full_id : string
}.

(** One turn of the loop over the lines of [lpstat -o]: the entries it
    appends to [jobs]. *)
Definition queue_entry (line : string) : list QueueJob :=
  let parts := split_ws line in
  if (5 <=? length parts)%nat then
    match parts with
    | p0 :: p1 :: p2 :: _ =>
        let job_id :=
          match search_group1 job_suffix_pattern p0 with
          | Some g => g
          | None => p0
          end in
        [ {| job_id := job_id; user := p1; size := p2;
             status := "pending"; full_id := p0 |} ]
    | _ => []
    end
  else [].

Definition queue_result (result : outcome) : list QueueJob :=
  match result with
  | Completed returncode stdout _ =>
      if (returncode =? 0) && negb (String.eqb (strip stdout) "")
      then flat_map queue_entry (split_on "010" (strip stdout))
      else []
  | TimeoutExpired => []
  | FileNotFoundError => []
  | OtherException _ => []
  end.

Definition get_print_queue (env : oracle) (l : log)
  : list QueueJob * log :=
  let (result, l') := run env ["lpstat"; "-o"] l in
  (queue_result result, l').

Definition cancel_result (job_id : string) (result : outcome)
  : bool * string :=
  match result with
  | Completed returncode _ stderr =>
      if returncode =? 0
      then (true, "Job " +:+ job_id +:+ " cancelled successfully")
      else (false, or_else (strip stderr) "Failed to cancel job")
  | TimeoutExpired => (false, "Cancel command timed out")
  | FileNotFoundError => (false, "CUPS cancel command not found")
  | OtherException e => (false, "Error cancelling job: " +:+ e)
  end.

Definition cancel_print_job (env : oracle) (job_id : string) (l : log)
  : (bool * string) * log :=
  let (result, l') := run env ["cancel"; job_id] l in
  (cancel_result job_id result, l').

Definition check_cups_available (env : oracle) (l : log) : bool * log :=
  let (result, l') := run env ["lpstat"; "-r"] l in
  (match result with
   | Completed returncode _ _ => returncode =? 0
   | _ => false
   end, l').

End cups_helper.

(** ** utils/db_helper.py

    The table [print_jobs] is the list of its rows in rowid order, next to
    the AUTOINCREMENT counter SQLite keeps for it. Timestamps are points
    on one integer time line, counted in microseconds from [datetime.min]
    (0001-01-01 00:00:00); the store compares them as SQLite compares the
    ISO texts it holds, which agree in order. The database file is taken
    to be usable: no statement raises. What can raise is the arithmetic
    on dates that comes before a statement: [None] stands for Python's
    OverflowError. *)

Module db_helper.

Record PrintJob := {
  id : Z;
  job_id : string;
  filename : string;
  original_filename : string;
  filepath : string;
  file_size_mb : Q;
  copies : Z;
  duplex : bool;
  status : string;
  submitted_at : Z;
  completed_at : option Z;
  error_message : option string
}.

Record Store := {
  rows : list PrintJob;
  sqlite_sequence : Z
}.

(** [datetime.max], the last microsecond of the year 9999. *)
Definition datetime_max : Z := 315537897599999999.

Definition is_datetime (t : Z) : bool := (0 <=? t) && (t <=? datetime_max).

(** [timedelta(days=d)], in microseconds. More than 999999999 days either
    way is OverflowError. *)
Definition timedelta_days (d : Z) : option Z :=
  if Z.abs d <=? 999999999 then Some (d * 86400000000) else None.

(** [t - delta] for a datetime [t]: OverflowError when the result is not
    a datetime of the years 1 to 9999. *)
Definition datetime_sub (t delta : Z) : option Z :=
  if is_datetime (t - delta) then Some (t - delta) else None.

(** [datetime.now() - timedelta(days=days)] *)
Definition days_ago (now days : Z) : option Z :=
  match timedelta_days days with
  | Some delta => datetime_sub now delta
  | None => None
  end.

(** AUTOINCREMENT: one more than the largest rowid the table has held. *)
Definition next_rowid (s : Store) : Z :=
  Z.max (sqlite_sequence s) (fold_right Z.max 0 (map id (rows s))) + 1.

(** INSERT ... VALUES (?, ?, ?, ?, ?, ?, ?, 'pending'); the columns the
    statement leaves out take their defaults. Returns [lastrowid]. *)
Definition add_print_job (current_timestamp : Z)
    (jid fname original fpath : string) (size_mb : Q)
    (ncopies : Z) (dup : bool) (s : Store) : Z * Store :=
  let rowid := next_rowid s in
  let row := {| id := rowid; job_id := jid; filename := fname;
                original_filename := original; filepath := fpath;
                file_size_mb := size_mb; copies := ncopies; duplex := dup;
                status := "pending"; submitted_at := current_timestamp;
                completed_at := None; error_message := None |} in
  (rowid, {| rows := rows s ++ [row]; sqlite_sequence := rowid |}).

(** SET status = ?, completed_at = CURRENT_TIMESTAMP *)
Definition set_completed (current_timestamp : Z) (new_status : string)
    (r : PrintJob) : PrintJob :=
  {| id := id r; job_id := job_id r; filename := filename r;
     original_filename := original_filename r; filepath := filepath r;
     file_size_mb := file_size_mb r; copies := copies r;
     duplex := duplex r; status := new_status;
     submitted_at := submitted_at r;
     completed_at := Some current_timestamp;
     error_message := error_message r |}.

(** SET status = ?, error_message = ? *)
Definition set_status_error (new_status : string) (msg : option string)
    (r : PrintJob) : PrintJob :=
  {| id := id r; job_id := job_id r; filename := filename r;
     original_filename := original_filename r; filepath := filepath r;
     file_size_mb := file_size_mb r; copies := copies r;
     duplex := duplex r; status := new_status;
     submitted_at := submitted_at r;
     completed_at := completed_at r;
     error_message := msg |}.

(** UPDATE print_jobs SET ... WHERE job_id = ? *)
Definition update_where_job_id (jid : string) (f : PrintJob -> PrintJob)
    (s : Store) : Store :=
  {| rows := map (fun r => if String.eqb (job_id r) jid then f r else r)
                 (rows s);
     sqlite_sequence := sqlite_sequence s |}.

Definition update_job_status (current_timestamp : Z) (jid new_status : string)
    (msg : option string) (s : Store) : Store :=
  if String.eqb new_status "completed"
  then update_where_job_id jid (set_completed current_timestamp new_status) s
  else update_where_job_id jid (set_status_error new_status msg) s.

(** SELECT * ... WHERE job_id = ?, then [fetchone]: the index on
    [job_id] hands out the matching rows in rowid order. *)
Definition get_job_by_id (jid : string) (s : Store) : option PrintJob :=
  find (fun r => String.eqb (job_id r) jid) (rows s).

(** DELETE FROM print_jobs WHERE submitted_at < ?, with [rowcount]. *)
Definition delete_before (cutoff_date : Z) (s : Store) : Z * Store :=
  let stale := fun r => submitted_at r <? cutoff_date in
  let deleted := List.filter stale (rows s) in
  (Z.of_nat (length deleted),
   {| rows := List.filter (fun r => negb (stale r)) (rows s);
      sqlite_sequence := sqlite_sequence s |}).

(** The cutoff is computed before the statement runs: when it is out of
    range the call raises OverflowError and the table is as it was. *)
Definition delete_old_records (now days : Z) (s : Store)
  : option Z * Store :=
  match days_ago now days with
  | None => (None, s)
  | Some cutoff_date =>
      let (rowcount, s') := delete_before cutoff_date s in
      (Some rowcount, s')
  end.

End db_helper.

(** ** utils/file_helper.py

    The disk is a finite map from paths to the bytes of regular files. *)

Module file_helper.
Import PyStr.

(** [Config.ALLOWED_EXTENSIONS] *)
Definition ALLOWED_EXTENSIONS : list string :=
  ["pdf"; "txt"; "jpg"; "jpeg"; "png"].

Definition allowed_file (filename : string) : bool :=
  contains "." filename &&
  match rsplit1_tail "." filename with
  | Some ext => existsb (String.eqb (lower ext)) ALLOWED_EXTENSIONS
  | None => false
  end.

Definition mime_map : gmap string string :=
  <["pdf" := "application/pdf"]>
  (<["txt" := "text/plain"]>
  (<["jpg" := "image/jpeg"]>
  (<["jpeg" := "image/jpeg"]>
  (<["png" := "image/png"]> ∅)))).

(** [magic] is libmagic's verdict on a file's bytes, [None] when it
    raises; reading a path that is not on disk raises as well. Every
    exception ends in [False]. *)
Definition validate_file_content (magic : string -> option string)
    (disk : gmap string string) (filepath expected_extension : string)
  : bool :=
  match disk !! filepath with
  | None => false
  | Some bytes =>
      match magic bytes with
      | None => false
      | Some file_mime =>
          match mime_map !! lower expected_extension with
          | None => false
          | Some expected_mime =>
              if String.eqb expected_mime "" then false
              else String.eqb file_mime expected_mime
          end
      end
  end.

(** [str.rfind] for one character, -1 when absent. *)
Fixpoint rfind_go (c : ascii) (i : Z) (last : Z) (s : chars) : Z :=
  match s with
  | [] => last
  | x :: s' => rfind_go c (i + 1) (if Ascii.eqb x c then i else last) s'
  end.

Definition rfind (c : ascii) (s : chars) : Z := rfind_go c 0 (-1) s.

(** [os.path.splitext]: cut before the last dot of the last path
    component, unless that component has nothing but dots before it. *)
Definition splitext (p : string) : string * string :=
  let s := list_ascii_of_string p in
  let sepIndex := rfind "/" s in
  let dotIndex := rfind "." s in
  if sepIndex <? dotIndex then
    let lead := firstn (Z.to_nat (dotIndex - (sepIndex + 1)))
                       (skipn (Z.to_nat (sepIndex + 1)) s) in
    if existsb (fun c => negb (Ascii.eqb c ".")) lead
    then (string_of_list_ascii (firstn (Z.to_nat dotIndex) s),
          string_of_list_ascii (skipn (Z.to_nat dotIndex) s))
    else (p, "")
  else (p, "").

(** [timestamp] is [datetime.now().strftime('%Y%m%d_%H%M%S')]. *)
Definition get_safe_filename (secure_filename : string -> string)
    (timestamp : string) (filename : string) : string :=
  let safe_name := secure_filename filename in
  let (name, ext) := splitext safe_name in
  timestamp +:+ "_" +:+ name +:+ ext.

Definition get_file_size_mb (disk : gmap string string) (filepath : string)
  : Q :=
  match disk !! filepath with
  | Some bytes => Qmake (Z.of_nat (String.length bytes)) 1048576
  | None => 0%Q
  end.

End file_helper.

(** ** app.py

    A handler runs in a world made of the disk, the job store and the log
    of the commands it has spawned. What the handler cannot decide itself
    comes from the environment: the spooler's answers, libmagic's verdict,
    werkzeug's [secure_filename], the two clocks and whether a write
    fails. Clock reads and writes are numbered by [ticks]. Removing a file
    that is on disk is taken to succeed. *)

Module app.
Import PyStr Subprocess.

Record FileStorage := {
  filename : string;
  stream : string
}.

(** [entity_too_large]: werkzeug refuses the body as larger than
    MAX_CONTENT_LENGTH allows, so the first read of [request.files]
    raises RequestEntityTooLarge. *)
Record Request := {
  entity_too_large : bool;
  files : list FileStorage;          (* request.files.getlist('files') *)
  form_copies : option string;       (* request.form.get('copies') *)
  form_duplex : option string        (* request.form.get('duplex') *)
}.

Record Env := {
  subprocess : oracle;
  magic : string -> option string;
  secure_filename : string -> string;
  strftime_now : nat -> string;
  CURRENT_TIMESTAMP : nat -> Z;
  save_error : nat -> string -> option string;
  UPLOAD_FOLDER : string;
  allowed_iter : list string
}.

Record World := {
  disk : gmap string string;
  db : db_helper.Store;
  spawned : log;
  ticks : nat
}.

Definition set_disk (d : gmap string string) (w : World) : World :=
  {| disk := d; db := db w; spawned := spawned w; ticks := ticks w |}.

Definition set_db (s : db_helper.Store) (w : World) : World :=
  {| disk := disk w; db := s; spawned := spawned w; ticks := ticks w |}.

Definition set_spawned (l : log) (w : World) : World :=
  {| disk := disk w; db := db w; spawned := l; ticks := ticks w |}.

Definition tick (w : World) : World :=
  {| disk := disk w; db := db w; spawned := spawned w;
     ticks := S (ticks w) |}.

(** [os.remove] *)
Definition os_remove (path : string) (w : World) : World :=
  set_disk (delete path (disk w)) w.

(** [os.path.exists], for the regular files the disk holds. *)
Definition os_path_exists (path : string) (w : World) : bool :=
  match disk w !! path with Some _ => true | None => false end.

(** [os.path.join] of two components. *)
Definition os_path_join (a b : string) : string :=
  match b with
  | String "/" _ => b
  | _ =>
      if String.eqb a "" then b
      else match rev (list_ascii_of_string a) with
           | "/"%char :: _ => a +:+ b
           | _ => a +:+ "/" +:+ b
           end
  end.

Inductive FileResult : Type :=
| Printed (fname job_id message : string)
| Failed (fname error : string).

Definition succeeded (r : FileResult) : bool :=
  match r with Printed _ _ _ => true | Failed _ _ => false end.

(** The JSON bodies. [Unhandled] stands for an exception that leaves the
    handler and has no handler of its own, which Flask answers with
    status 500. *)
Inductive Body : Type :=
| Error (error : string)
| UploadResults (success : bool) (results : list FileResult)
| Message (message : string)
| Submitted (job_id message : string)
| Unhandled.

Definition Response := (Body * Z)%type.

(** The [except Exception as e] arm of the upload loop. *)
Definition upload_except (filepath original_filename e : string)
    (w : World) : World * list FileResult :=
  let w := if os_path_exists filepath w then os_remove filepath w else w in
  (w, [Failed original_filename ("Error processing file: " +:+ e)]).

(** One turn of [for file in files]: the world after it and what it
    appends to [results]. *)
Definition process_file (E : Env) (copies : Z) (duplex : bool)
    (w : World) (file : FileStorage) : World * list FileResult :=
  if String.eqb (filename file) "" then (w, [])
  else if negb (file_helper.allowed_file (filename file)) then
    (w, [Failed (filename file)
           ("File type not allowed. Allowed types: "
            +:+ String.concat ", " (allowed_iter E))])
  else
    let original_filename := filename file in
    let safe_name :=
      file_helper.get_safe_filename (secure_filename E)
        (strftime_now E (ticks w)) (filename file) in
    let w := tick w in
    let filepath := os_path_join (UPLOAD_FOLDER E) safe_name in
    match save_error E (ticks w) filepath with
    | Some e => upload_except filepath original_filename e (tick w)
    | None =>
        let w := tick (set_disk (<[filepath := stream file]> (disk w)) w) in
        match rsplit1_tail "." original_filename with
        | None =>
            upload_except filepath original_filename
              "list index out of range" w
        | Some ext =>
            let extension := lower ext in
            if negb (file_helper.validate_file_content (magic E) (disk w)
                       filepath extension)
            then
              (os_remove filepath w,
               [Failed original_filename
                  "File content does not match extension"])
            else
              let file_size_mb :=
                file_helper.get_file_size_mb (disk w) filepath in
              let (r, l') :=
                cups_helper.submit_print_job (subprocess E) filepath
                  copies duplex (spawned w) in
              let w := set_spawned l' w in
              let (success, message) := r in
              if success then
                let job_id := message in
                let (_, db') :=
                  db_helper.add_print_job (CURRENT_TIMESTAMP E (ticks w))
                    job_id safe_name original_filename filepath
                    file_size_mb copies duplex (db w) in
                (tick (set_db db' w),
                 [Printed original_filename job_id
                    ("Print job submitted (Job ID: " +:+ job_id +:+ ")")])
              else
                (os_remove filepath w, [Failed original_filename message])
        end
    end.

Definition upload_loop (E : Env) (copies : Z) (duplex : bool)
    (w : World) (fs : list FileStorage) : World * list FileResult :=
  fold_left
    (fun (acc : World * list FileResult) file =>
       let (w1, results) := acc in
       let (w2, r) := process_file E copies duplex w1 file in
       (w2, results ++ r))
    fs (w, []).

(** [int(request.form.get('copies', 1))] *)
Definition copies_of (req : Request) : option Z :=
  match form_copies req with
  | None => Some 1
  | Some s => int_of_str s
  end.

(** [request.form.get('duplex', 'false').lower() == 'true'] *)
Definition duplex_of (req : Request) : bool :=
  String.eqb
    (lower (match form_duplex req with Some s => s | None => "false" end))
    "true".

(** [@app.errorhandler(413)], with MAX_CONTENT_LENGTH at 20 MB. *)
Definition request_entity_too_large : Response :=
  (Error "File too large. Maximum size is 20 MB", 413).

(** POST /api/upload *)
Definition upload_files (E : Env) (req : Request) (w : World)
  : Response * World :=
  let (available, l') :=
    cups_helper.check_cups_available (subprocess E) (spawned w) in
  let w := set_spawned l' w in
  if negb available then
    ((Error "Print server is not available. Please contact administrator.",
      503), w)
  else if entity_too_large req then (request_entity_too_large, w)
  else
    match files req with
    | [] => ((Error "No files provided", 400), w)
    | fs =>
        if forallb (fun f => String.eqb (filename f) "") fs then
          ((Error "No files selected", 400), w)
        else
          match copies_of req with
          | None => ((Unhandled, 500), w)
          | Some copies =>
              let duplex := duplex_of req in
              if (copies <? 1) || (10 <? copies) then
                ((Error "Number of copies must be between 1 and 10", 400),
                 w)
              else
                let (w', results) := upload_loop E copies duplex w fs in
                ((UploadResults (existsb succeeded results) results, 200),
                 w')
          end
    end.

(** POST /api/cancel/<job_id> *)
Definition cancel_job (E : Env) (job_id : string) (w : World)
  : Response * World :=
  let (r, l') :=
    cups_helper.cancel_print_job (subprocess E) job_id (spawned w) in
  let w := set_spawned l' w in
  let (success, message) := r in
  if success then
    let db' :=
      db_helper.update_job_status (CURRENT_TIMESTAMP E (ticks w))
        job_id "cancelled" None (db w) in
    ((Message message, 200), tick (set_db db' w))
  else ((Error message, 400), w).

(** POST /api/reprint/<job_id> *)
Definition reprint_job (E : Env) (job_id : string) (w : World)
  : Response * World :=
  match db_helper.get_job_by_id job_id (db w) with
  | None => ((Error "Job not found", 404), w)
  | Some job =>
      if negb (os_path_exists (db_helper.filepath job) w) then
        ((Error "File no longer available", 404), w)
      else
        let (r, l') :=
          cups_helper.submit_print_job (subprocess E)
            (db_helper.filepath job) (db_helper.copies job)
            (db_helper.duplex job) (spawned w) in
        let w := set_spawned l' w in
        let (success, message) := r in
        if success then
          let new_job_id := message in
          let (_, db') :=
            db_helper.add_print_job (CURRENT_TIMESTAMP E (ticks w))
              new_job_id (db_helper.filename job)
              (db_helper.original_filename job) (db_helper.filepath job)
              (db_helper.file_size_mb job) (db_helper.copies job)
              (db_helper.duplex job) (db w) in
          ((Submitted new_job_id
              ("Reprint submitted (Job ID: " +:+ new_job_id +:+ ")"), 200),
           tick (set_db db' w))
        else ((Error message, 400), w)
  end.

End app.

(** ** The spec's phrases about text

    What it means, for a text, to contain confirmation text of the form
    "request id is <printer>-<digits>", or to end in "-<digits>". These
    follow the spec's wording, not the matcher, and the properties below
    compare the two. *)

Module Wording.
Import PyStr.

Definition all_chars (p : ascii -> bool) (s : string) : Prop :=
  List.Forall (fun c => p c = true) (list_ascii_of_string s).

(** [stdout] contains "request id is <printer>-<digits>". *)
Definition names_request_id (stdout digits : string) : Prop :=
  exists pre printer post : string,
    stdout = pre +:+ "request id is " +:+ printer +:+ "-" +:+ digits +:+ post
    /\ printer <> "" /\ all_chars non_space printer
    /\ digits <> "" /\ all_chars is_digit digits.

(** An occurrence of the confirmation in [stdout]: after [pre] come
    "request id is ", a printer name without blanks, a dash and digits. *)
Definition request_id_at (stdout pre printer digits post : string) : Prop :=
  stdout = pre +:+ "request id is " +:+ printer +:+ "-" +:+ digits +:+ post
  /\ printer <> "" /\ all_chars non_space printer
  /\ digits <> "" /\ all_chars is_digit digits.

(** [s] is empty or begins with something that is not a digit. *)
Definition no_digit_ahead (s : string) : Prop :=
  match s with
  | EmptyString => True
  | String c _ => is_digit c = false
  end.

(** The occurrence a search from the left reports: the first one in the
    text; among those that start there, the one with the longest printer
    name; and all the digits that follow its dash. *)
Definition first_request_id (stdout digits : string) : Prop :=
  exists pre printer post : string,
    request_id_at stdout pre printer digits post
    /\ no_digit_ahead post
    /\ forall pre' printer' digits' post' : string,
         request_id_at stdout pre' printer' digits' post' ->
         (String.length pre <= String.length pre')%nat
         /\ (String.length pre' = String.length pre ->
             (String.length printer' <= String.length printer)%nat).

(** [s] is empty or begins with a blank. *)
Definition ends_or_blank (s : string) : Prop :=
  match s with
  | EmptyString => True
  | String c _ => is_space c = true
  end.

(** [token] is "<printer>-<digits>". *)
Definition has_job_suffix (token digits : string) : Prop :=
  exists printer : string,
    token = printer +:+ "-" +:+ digits
    /\ digits <> "" /\ all_chars is_digit digits.

(** [returncode == 0] *)
Definition exit_ok (result : Subprocess.outcome) : bool :=
  match result with
  | Subprocess.Completed returncode _ _ => returncode =? 0
  | _ => false
  end.

End Wording.

(** ** Sample data

    A store with one job whose file is still on disk, and three spoolers:
    one that accepts, one that rejects every submission, one whose
    scheduler is down. *)

Module Samples.
Import Subprocess.

Definition report_path : string :=
  "/srv/piserver/print/20251112_103000_report.pdf".

Definition day : Z := 86400000000.

(** 12 November 2025, 12:00, on the time line. *)
Definition noon_2025 : Z := 739566 * day + 43200000000.

Definition job_at (rowid : Z) (jid : string) (submitted : Z)
  : db_helper.PrintJob :=
  {| db_helper.id := rowid; db_helper.job_id := jid;
     db_helper.filename := "20251112_103000_report.pdf";
     db_helper.original_filename := "report.pdf";
     db_helper.filepath := report_path;
     db_helper.file_size_mb := Qmake 8 1048576;
     db_helper.copies := 2; db_helper.duplex := true;
     db_helper.status := "pending";
     db_helper.submitted_at := submitted;
     db_helper.completed_at := None;
     db_helper.error_message := None |}.

Definition report_job : db_helper.PrintJob := job_at 1 "42" (20 * day).

Definition one_job_store : db_helper.Store :=
  {| db_helper.rows := [report_job]; db_helper.sqlite_sequence := 1 |}.

(** Three jobs: submitted before, exactly at, and after day 3. *)
Definition three_job_store : db_helper.Store :=
  {| db_helper.rows := [job_at 1 "41" (3 * day - 1); job_at 2 "42" (3 * day);
                        job_at 3 "42" (3 * day + 1)];
     db_helper.sqlite_sequence := 3 |}.

Definition one_job_world : app.World :=
  {| app.disk := {[ report_path := "%PDF-1.4" ]};
     app.db := one_job_store;
     app.spawned := [];
     app.ticks := 0 |}.

Definition lp_confirmation : string :=
  "request id is HP_LaserJet-43 (1 file(s))" +:+ String "010" "".

Definition spooler_accepts : oracle :=
  fun _ cmd =>
    match cmd with
    | "lp"%string :: _ => Completed 0 lp_confirmation ""
    | _ => Completed 0 "scheduler is running" ""
    end.

Definition spooler_rejects : oracle :=
  fun _ cmd =>
    match cmd with
    | "lp"%string :: _ =>
        Completed 1 "" "lp: Error - no default destination available."
    | "cancel"%string :: _ =>
        Completed 1 "" "cancel: cancel-job failed: Job does not exist."
    | _ => Completed 0 "scheduler is running" ""
    end.

Definition spooler_down : oracle :=
  fun _ _ => Completed 1 "scheduler is not running" "".

(** A spooler whose [lp] does not come back in time, and one whose [lp]
    turns the job down in those very words. *)
Definition spooler_hangs : oracle := fun _ _ => TimeoutExpired.

Definition spooler_says_timed_out : oracle :=
  fun _ _ => Completed 1 "" "Print command timed out".

(** [lpstat -o] with one job line and one line that is not a job. *)
Definition sample_lpstat : string :=
  "HP_LaserJet-7 pi 1024 Wed Nov 12 10:30:00 2025" +:+ String "010" ""
  +:+ "garbled line" +:+ String "010" "".

Definition spooler_busy : oracle :=
  fun _ _ => Completed 0 sample_lpstat "".

(** libmagic, as far as the samples need it. *)
Definition sample_magic (bytes : string) : option string :=
  if String.prefix "%PDF" bytes then Some "application/pdf"%string
  else Some "text/plain"%string.

Definition env_with (o : oracle) : app.Env :=
  {| app.subprocess := o;
     app.magic := sample_magic;
     app.secure_filename := fun name => name;
     app.strftime_now := fun _ => "20251112_103000"%string;
     app.CURRENT_TIMESTAMP := fun _ => 21 * day;
     app.save_error := fun _ _ => None;
     app.UPLOAD_FOLDER := "/srv/piserver/print";
     app.allowed_iter := file_helper.ALLOWED_EXTENSIONS |}.

Definition upload_of (name bytes : string) (copies : option string)
  : app.Request :=
  {| app.entity_too_large := false;
     app.files := [ {| app.filename := name; app.stream := bytes |} ];
     app.form_copies := copies;
     app.form_duplex := Some "true"%string |}.

(** The same request with a body above MAX_CONTENT_LENGTH. *)
Definition oversized (req : app.Request) : app.Request :=
  {| app.entity_too_large := true;
     app.files := app.files req;
     app.form_copies := app.form_copies req;
     app.form_duplex := app.form_duplex req |}.

End Samples.

(** ** utils/cups_helper.py: the status of one job *)

Module cups_status.
Import PyStr Subprocess.

(** [needle in hay] *)
Fixpoint has_substring (needle hay : string) : bool :=
  String.prefix needle hay
  || match hay with
     | EmptyString => false
     | String _ rest => has_substring needle rest
     end.

(** What the second command, [lpstat -W completed -o], says about
    [job_id]; any exception ends in [None]. *)
Definition completed_result (job_id : string) (result : outcome)
  : option string :=
  match result with
  | Completed returncode stdout _ =>
      if returncode =? 0 then
        if existsb (has_substring ("-" +:+ job_id))
                   (split_on "010" (strip stdout))
        then Some "completed"%string
        else None
      else None
  | TimeoutExpired => None
  | FileNotFoundError => None
  | OtherException _ => None
  end.

Definition get_job_status (env : oracle) (job_id : string) (l : log)
  : option string * log :=
  let (queue, l1) := cups_helper.get_print_queue env l in
  if existsb (fun job => String.eqb (cups_helper.job_id job) job_id) queue
  then (Some "pending"%string, l1)
  else
    let (result, l2) := run env ["lpstat"; "-W"; "completed"; "-o"] l1 in
    (completed_result job_id result, l2).

End cups_status.

(** ** utils/db_helper.py: the listings

    ORDER BY is the engine's: [order_by] stands for it. SQL leaves the
    order of rows with equal keys open, so the listings take the ordering
    as an argument and the properties ask of it only what ORDER BY
    promises. *)

Module db_queries.
Import db_helper.

(** SELECT * ... WHERE submitted_at > ? ORDER BY submitted_at DESC.
    [None] is the OverflowError of a cutoff that is out of range. *)
Definition get_recent_jobs (order_by : list PrintJob -> list PrintJob)
    (now days : Z) (s : Store) : option (list PrintJob) :=
  match days_ago now days with
  | None => None
  | Some cutoff_date =>
      Some (order_by (List.filter (fun r => cutoff_date <? submitted_at r)
                                  (rows s)))
  end.


(** What ORDER BY submitted_at DESC promises: the same rows, newest
    first. *)
Definition orders_newest_first (order_by : list PrintJob -> list PrintJob)
  : Prop :=
  forall l,
    Permutation (order_by l) l
    /\ StronglySorted (fun a b => submitted_at b <= submitted_at a)
                      (order_by l).


(** One ordering of each kind, by merging. *)
Definition newest_first : list PrintJob -> list PrintJob :=
  @merge_sort _ (fun a b => submitted_at b <= submitted_at a)
    (fun x y => decide (submitted_at y <= submitted_at x)).


(** Rows in rowid order, none above the AUTOINCREMENT counter, which is
    not negative: what a table that only ever saw INSERTs without an
    explicit id looks like. *)
Definition well_formed (s : Store) : Prop :=
  StronglySorted (fun a b => id a < id b) (rows s)
  /\ List.Forall (fun r => id r <= sqlite_sequence s) (rows s)
  /\ 0 <= sqlite_sequence s.

(** The columns nothing writes after the INSERT. *)
Definition immutable_part (r : PrintJob)
  : Z * string * string * string * string * Q * Z * bool * Z :=
  (id r, job_id r, filename r, original_filename r, filepath r,
   file_size_mb r, copies r, duplex r, submitted_at r).

End db_queries.

(** ** utils/file_helper.py: the file sweep

    The upload folder as [os.listdir] yields it. Each entry carries what
    the calls made on it answer: whether it is a regular file, its
    modification time as a datetime ([None] when [getmtime] or
    [datetime.fromtimestamp] raises) and whether [os.remove] succeeds. *)

Module file_sweep.

Record DirEntry := {
  name : string;
  isfile : bool;
  getmtime : option Z;
  removable : bool
}.

Inductive Folder : Type :=
| Missing                            (* os.path.exists is False *)
| Unlistable                         (* os.listdir raises *)
| Listing (entries : list DirEntry).

(** The [for] loop: the count so far goes in, the final count and the
    entries left in the folder come out. An exception of [getmtime]
    leaves the loop; one of [os.remove] is passed over. *)
Fixpoint sweep (cutoff_time : Z) (entries : list DirEntry)
    (deleted_count : Z) : Z * list DirEntry :=
  match entries with
  | [] => (deleted_count, [])
  | e :: rest =>
      if negb (isfile e) then
        let (n, left) := sweep cutoff_time rest deleted_count in
        (n, e :: left)
      else
        match getmtime e with
        | None => (deleted_count, e :: rest)
        | Some file_mtime =>
            if file_mtime <? cutoff_time then
              if removable e then sweep cutoff_time rest (deleted_count + 1)
              else
                let (n, left) := sweep cutoff_time rest deleted_count in
                (n, e :: left)
            else
              let (n, left) := sweep cutoff_time rest deleted_count in
              (n, e :: left)
        end
  end.

(** The cutoff is computed after the test for the folder and outside
    the [try]: when it is out of range the call raises OverflowError
    ([None]), whatever the folder holds. *)
Definition cleanup_old_files (now : Z) (folder : Folder)
    (retention_days : Z) : option Z * Folder :=
  match folder with
  | Missing => (Some 0, Missing)
  | Unlistable =>
      match db_helper.days_ago now retention_days with
      | None => (None, Unlistable)
      | Some _ => (Some 0, Unlistable)
      end
  | Listing entries =>
      match db_helper.days_ago now retention_days with
      | None => (None, Listing entries)
      | Some cutoff_time =>
          let (n, left) := sweep cutoff_time entries 0 in
          (Some n, Listing left)
      end
  end.

(** A regular file whose age the sweep can read and that is older than
    the cutoff. *)
Definition stale (cutoff_time : Z) (e : DirEntry) : bool :=
  isfile e
  && match getmtime e with
     | Some t => t <? cutoff_time
     | None => false
     end.

(** No [getmtime] on a regular file raises. *)
Definition readable (entries : list DirEntry) : Prop :=
  List.Forall (fun e => isfile e = true -> getmtime e <> None) entries.

End file_sweep.

(** ** app.py: the queue view *)

Module app_views.
Import app.

Record QueueItem := {
  job_id : string;
  filename : string;
  copies : Z;
  duplex : bool;
  status : string;
  size : string
}.

(** The two JSON bodies of the queue view. *)
Inductive QueueBody : Type :=
| Queue (queue : list QueueItem)
| QueueError (error : string).

(** [{job['job_id']: job for job in jobs}]: a later job with the same id
    replaces an earlier one. *)
Definition db_jobs_of (jobs : list db_helper.PrintJob)
  : gmap string db_helper.PrintJob :=
  fold_left (fun m job => <[db_helper.job_id job := job]> m) jobs ∅.

Definition queue_item (db_jobs : gmap string db_helper.PrintJob)
    (cups_job : cups_helper.QueueJob) : QueueItem :=
  let jid := cups_helper.job_id cups_job in
  match db_jobs !! jid with
  | Some db_job =>
      {| job_id := jid;
         filename := db_helper.original_filename db_job;
         copies := db_helper.copies db_job;
         duplex := db_helper.duplex db_job;
         status := cups_helper.status cups_job;
         size := cups_helper.size cups_job |}
  | None =>
      {| job_id := jid; filename := "Unknown"; copies := 1; duplex := false;
         status := cups_helper.status cups_job;
         size := cups_helper.size cups_job |}
  end.

(** GET /api/queue. [now] is [datetime.now()] as [get_recent_jobs(1)]
    reads it. One day is a [timedelta], so the only exception of the
    listing is the OverflowError of the subtraction, whose text is
    "date value out of range"; the handler's [except] answers it. *)
Definition get_queue
    (order_by : list db_helper.PrintJob -> list db_helper.PrintJob)
    (E : Env) (now : Z) (w : World) : (QueueBody * Z) * World :=
  let (cups_queue, l') :=
    cups_helper.get_print_queue (subprocess E) (spawned w) in
  let w := set_spawned l' w in
  match db_queries.get_recent_jobs order_by now 1 (db w) with
  | None =>
      ((QueueError "Error getting queue: date value out of range", 500), w)
  | Some jobs =>
      let db_jobs := db_jobs_of jobs in
      ((Queue (map (queue_item db_jobs) cups_queue), 200), w)
  end.

(** The job ids of the files a batch printed, in order. *)
Definition printed_ids (results : list FileResult) : list string :=
  flat_map (fun r => match r with
                     | Printed _ jid _ => [jid]
                     | Failed _ _ => []
                     end) results.

(** What a batch may do to the store and to the command log: it appends
    rows, one per printed file and in that order, pending and with the
    batch's options, and it runs [lp] commands with these options, at
    most one per reported file. *)
Definition batch_effect (copies : Z) (duplex : bool) (w w' : World)
    (results : list FileResult) : Prop :=
  exists new cmds,
    db_helper.rows (db w') = db_helper.rows (db w) ++ new
    /\ map db_helper.job_id new = printed_ids results
    /\ List.Forall (fun x => db_helper.status x = "pending"%string
                             /\ db_helper.copies x = copies
                             /\ db_helper.duplex x = duplex) new
    /\ spawned w' = spawned w ++ cmds
    /\ List.Forall (fun cmd => exists path,
                      cmd = cups_helper.lp_command path copies duplex) cmds
    /\ (length cmds <= length results)%nat.

End app_views.

(** ** More sample data: an upload folder and a spooler with history *)

Module MoreSamples.
Import Subprocess.

Definition entry (n : string) (t : Z) : file_sweep.DirEntry :=
  {| file_sweep.name := n; file_sweep.isfile := true;
     file_sweep.getmtime := Some t; file_sweep.removable := true |}.

Definition archive_dir : file_sweep.DirEntry :=
  {| file_sweep.name := "archive"; file_sweep.isfile := false;
     file_sweep.getmtime := Some 0; file_sweep.removable := true |}.

(** A file that disappears between [isfile] and [getmtime]. *)
Definition vanishing : file_sweep.DirEntry :=
  {| file_sweep.name := "vanishing.pdf"; file_sweep.isfile := true;
     file_sweep.getmtime := None; file_sweep.removable := true |}.

(** A stale file the process may not remove. *)
Definition locked : file_sweep.DirEntry :=
  {| file_sweep.name := "locked.pdf"; file_sweep.isfile := true;
     file_sweep.getmtime := Some Samples.day; file_sweep.removable := false |}.

(** With [now] at day 10 and seven days of retention the cutoff is day 3:
    one file before it, one exactly at it, one after it. *)
Definition upload_folder : list file_sweep.DirEntry :=
  [archive_dir; entry "old.pdf" (2 * Samples.day);
   entry "edge.pdf" (3 * Samples.day); entry "new.pdf" (9 * Samples.day)].

Definition completed_line : string :=
  "HP_LaserJet-12 pi 1024 Wed Nov 12 10:30:00 2025".

(** Nothing queued; job 12 is among the completed ones. *)
Definition spooler_history : oracle :=
  fun _ cmd =>
    match cmd with
    | ["lpstat"; "-o"]%string => Completed 0 "" ""
    | _ => Completed 0 (completed_line +:+ String "010" "") ""
    end.

End MoreSamples.

(** * Properties *)

(** ** The job store *)

Section Store.
Import db_helper.

Lemma length_filter_split {A} (p : A -> bool) (l : list A) :
  (length (List.filter p l) + length (List.filter (fun x => negb (p x)) l)
   = length l)%nat.
Proof.
  induction l as [|x l IH]; simpl; [reflexivity|].
  destruct (p x); simpl; lia.
Qed.

Lemma filter_ext_bool {A} (p q : A -> bool) (l : list A) :
  (forall x, p x = q x) -> List.filter p l = List.filter q l.
Proof.
  intros Hpq. induction l as [|x l IH]; simpl; [reflexivity|].
  rewrite Hpq, IH. reflexivity.
Qed.

(** When the cutoff is a date and which one. *)
Lemma days_ago_Some (now days cutoff : Z) :
  days_ago now days = Some cutoff <->
  cutoff = now - days * 86400000000
  /\ Z.abs days <= 999999999 /\ 0 <= cutoff <= datetime_max.
Proof.
  unfold days_ago, timedelta_days, datetime_sub, is_datetime.
  destruct (Z.leb_spec (Z.abs days) 999999999) as [Hd|Hd].
  - destruct (Z.leb_spec 0 (now - days * 86400000000)) as [H0|H0];
      destruct (Z.leb_spec (now - days * 86400000000) datetime_max)
        as [H1|H1]; cbn [andb]; split;
      try (intros [= <-]; repeat split; assumption);
      try discriminate;
      try (intros (-> & _ & ? & ?); first [reflexivity | lia]).
  - split; [discriminate|]. intros (_ & ? & _). lia.
Qed.

Lemma days_ago_None (now days : Z) :
  days_ago now days = None <->
  ~ (Z.abs days <= 999999999
     /\ 0 <= now - days * 86400000000 <= datetime_max).
Proof.
  destruct (days_ago now days) as [c|] eqn:Hc.
  - apply days_ago_Some in Hc as (-> & Hd & Hr).
    split; [discriminate|]. intros Hn. exfalso. apply Hn. split; assumption.
  - split; [|reflexivity]. intros _ (Hd & Hr).
    assert (Hsome : days_ago now days = Some (now - days * 86400000000))
      by (apply days_ago_Some; repeat split; lia).
    congruence.
Qed.

(** What the call does once the cutoff is known. *)
Lemma delete_old_records_at (now days cutoff : Z) (s : Store) :
  days_ago now days = Some cutoff ->
  delete_old_records now days s
  = (Some (fst (delete_before cutoff s)), snd (delete_before cutoff s)).
Proof.
  intros Hc. unfold delete_old_records. rewrite Hc.
  destruct (delete_before cutoff s). reflexivity.
Qed.

Lemma delete_old_records_raises (now days : Z) (s : Store) :
  days_ago now days = None -> delete_old_records now days s = (None, s).
Proof. intros Hc. unfold delete_old_records. rewrite Hc. reflexivity. Qed.

End Store.

(** C1. When [now - days] is a date, [delete_old_records] keeps, in
    order, exactly the rows whose [submitted_at] is at or after it: a row
    is gone afterwards iff it was strictly older than the cutoff, a row at
    the cutoff stays, and the number returned is the number of rows that
    went away. When [now - days] is not a date (more than 999999999 days,
    or a cutoff outside the years 1 to 9999) the call raises
    OverflowError: no count is returned and no row is removed. *)
Theorem delete_old_records_exact (now days : Z) (s : db_helper.Store) :
  let s' := snd (db_helper.delete_old_records now days s) in
  (forall cutoff, db_helper.days_ago now days = Some cutoff ->
     cutoff = now - days * 86400000000
     /\ db_helper.rows s' =
         List.filter (fun r => cutoff <=? db_helper.submitted_at r)
                     (db_helper.rows s)
     /\ (forall r, In r (db_helper.rows s') <->
                   In r (db_helper.rows s)
                   /\ cutoff <= db_helper.submitted_at r)
     /\ (forall r, In r (db_helper.rows s) ->
                   (~ In r (db_helper.rows s') <->
                    db_helper.submitted_at r < cutoff))
     /\ (forall r, In r (db_helper.rows s) ->
                   db_helper.submitted_at r = cutoff ->
                   In r (db_helper.rows s'))
     /\ fst (db_helper.delete_old_records now days s)
        = Some (Z.of_nat (length (db_helper.rows s))
                - Z.of_nat (length (db_helper.rows s')))
     /\ fst (db_helper.delete_old_records now days s)
        = Some (Z.of_nat (length (List.filter
                  (fun r => db_helper.submitted_at r <? cutoff)
                  (db_helper.rows s))))
     /\ db_helper.sqlite_sequence s' = db_helper.sqlite_sequence s)
  /\ (db_helper.days_ago now days = None <->
      ~ (Z.abs days <= 999999999
         /\ 0 <= now - days * 86400000000 <= db_helper.datetime_max))
  /\ (db_helper.days_ago now days = None ->
      db_helper.delete_old_records now days s = (None, s)).
Proof.
  intros s'. split; [|split; [apply days_ago_None
                            |apply delete_old_records_raises]].
  intros cutoff Hcut.
  pose proof (delete_old_records_at now days cutoff s Hcut) as Hrun.
  assert (Hs' : s' = snd (db_helper.delete_before cutoff s))
    by (subst s'; rewrite Hrun; reflexivity).
  assert (Hcount : fst (db_helper.delete_old_records now days s)
                   = Some (Z.of_nat (length (List.filter
                       (fun r => db_helper.submitted_at r <? cutoff)
                       (db_helper.rows s)))))
    by (rewrite Hrun; reflexivity).
  clearbody s'. subst s'. clear Hrun.
  set (s' := snd (db_helper.delete_before cutoff s)) in *.
  split; [apply days_ago_Some in Hcut; tauto|].
  assert (Hrows : db_helper.rows s' =
    List.filter (fun r => cutoff <=? db_helper.submitted_at r)
                (db_helper.rows s)).
  { subst s'. unfold db_helper.delete_before. simpl.
    apply filter_ext_bool. intros r.
    destruct (Z.ltb_spec (db_helper.submitted_at r) cutoff);
      destruct (Z.leb_spec cutoff (db_helper.submitted_at r)); simpl;
      try reflexivity; lia. }
  assert (Hin : forall r, In r (db_helper.rows s') <->
                In r (db_helper.rows s) /\ cutoff <= db_helper.submitted_at r).
  { intros r. rewrite Hrows, filter_In, Z.leb_le. reflexivity. }
  split; [exact Hrows|]. split; [exact Hin|].
  split.
  { intros r Hr. rewrite Hin. split.
    - intros Hn. destruct (Z.lt_ge_cases (db_helper.submitted_at r) cutoff);
        [assumption|]. exfalso. apply Hn. split; assumption.
    - intros Hlt [_ Hge]. lia. }
  split.
  { intros r Hr Heq. apply Hin. split; [assumption|lia]. }
  split; [|split; [exact Hcount|reflexivity]].
  rewrite Hcount. f_equal.
  pose proof (length_filter_split
                (fun r => db_helper.submitted_at r <? cutoff)
                (db_helper.rows s)) as Hsplit.
  assert (Hlen : length (db_helper.rows s') = length (List.filter
             (fun r => negb (db_helper.submitted_at r <? cutoff))
             (db_helper.rows s))) by reflexivity.
  lia.
Qed.

(** C1, as stated, does not hold for every [days]. On 12 November 2025,
    asked to sweep what is older than three million days from now, the
    call raises although the one row of the table, a day old, is older
    than that cutoff; and it raises for a cutoff 800000 days back, where
    the claim has it return a count of 0. *)
Lemma delete_old_records_cutoff_out_of_range :
  let now := Samples.noon_2025 in
  let s := {| db_helper.rows := [Samples.job_at 1 "41" (now - Samples.day)];
              db_helper.sqlite_sequence := 1 |} in
  now - Samples.day < now - (-3000000) * Samples.day
  /\ db_helper.delete_old_records now (-3000000) s = (None, s)
  /\ db_helper.delete_old_records now 800000 s = (None, s)
  /\ fst (db_helper.delete_old_records now 800000 s) <> Some 0.
Proof.
  split; [reflexivity|]. split; [reflexivity|]. split; [reflexivity|].
  discriminate.
Qed.


Section Text.
Import PyStr.

Lemma list_ascii_of_string_app (a b : string) :
  list_ascii_of_string (a +:+ b)
  = list_ascii_of_string a ++ list_ascii_of_string b.
Proof.
  induction a as [|c a IH]; [reflexivity|].
  change (String c a +:+ b) with (String c (a +:+ b)).
  simpl. rewrite IH. reflexivity.
Qed.

Lemma string_of_list_ascii_app (a b : list ascii) :
  string_of_list_ascii (a ++ b)
  = string_of_list_ascii a +:+ string_of_list_ascii b.
Proof.
  induction a as [|c a IH]; [reflexivity|].
  simpl. rewrite IH. reflexivity.
Qed.

Lemma string_of_list_ascii_inj (a b : list ascii) :
  string_of_list_ascii a = string_of_list_ascii b -> a = b.
Proof.
  intros H. rewrite <- (list_ascii_of_string_of_list_ascii a),
    <- (list_ascii_of_string_of_list_ascii b), H. reflexivity.
Qed.

Lemma digit_not_space (c : ascii) : is_digit c = true -> is_space c = false.
Proof.
  unfold is_digit, is_space. intros H.
  apply andb_prop in H as [H1 H2].
  apply N.leb_le in H1. apply N.leb_le in H2.
  repeat match goal with
         | |- context [(?a <=? ?b)%N] => destruct (N.leb_spec a b)
         | |- context [(?a =? ?b)%N] => destruct (N.eqb_spec a b)
         end; simpl; try reflexivity; lia.
Qed.

Lemma take_drop_while (p : ascii -> bool) (s : chars) :
  take_while p s ++ drop_while p s = s.
Proof.
  induction s as [|c s IH]; simpl; [reflexivity|].
  destruct (p c); simpl; [rewrite IH|]; reflexivity.
Qed.

Lemma take_while_all (p : ascii -> bool) (s : chars) :
  List.Forall (fun c => p c = true) (take_while p s).
Proof.
  induction s as [|c s IH]; simpl; [constructor|].
  destruct (p c) eqn:Hc; constructor; assumption.
Qed.

Lemma span_le (p : ascii -> bool) (s : chars) : (span p s <= length s)%nat.
Proof.
  unfold span. induction s as [|c s IH]; simpl; [lia|].
  destruct (p c); simpl; lia.
Qed.

Lemma firstn_span_all (p : ascii -> bool) (s : chars) (k : nat) :
  (k <= span p s)%nat -> List.Forall (fun c => p c = true) (firstn k s).
Proof.
  unfold span. revert k. induction s as [|c s IH]; intros k Hk.
  - rewrite firstn_nil. constructor.
  - destruct k as [|k]; [constructor|]. simpl in *.
    destruct (p c) eqn:Hc; simpl in Hk; [|lia].
    constructor; [assumption|]. apply IH. lia.
Qed.

Lemma span_app_all (p : ascii -> bool) (a b : chars) :
  List.Forall (fun c => p c = true) a ->
  span p (a ++ b) = (length a + span p b)%nat.
Proof.
  unfold span. induction 1 as [|c a Hc Ha IH]; simpl; [reflexivity|].
  rewrite Hc. simpl. rewrite IH. reflexivity.
Qed.

Lemma span_stop (p : ascii -> bool) (s : chars) :
  match s with [] => True | c :: _ => p c = false end -> span p s = 0%nat.
Proof.
  unfold span. destruct s as [|c s]; simpl; [reflexivity|].
  intros ->. reflexivity.
Qed.

Lemma longest_first_Some {A} (try : nat -> option A) (n : nat) (r : A) :
  longest_first try n = Some r ->
  exists k, (1 <= k <= n)%nat /\ try k = Some r
            /\ forall j, (k < j <= n)%nat -> try j = None.
Proof.
  induction n as [|n IH]; simpl; [discriminate|].
  destruct (try (S n)) as [r'|] eqn:Hn.
  - intros [= ->]. exists (S n). split; [lia|]. split; [assumption|].
    intros j Hj. lia.
  - intros H. destruct (IH H) as (k & Hk & Hkr & Hlater).
    exists k. split; [lia|]. split; [assumption|].
    intros j Hj. destruct (Nat.eq_dec j (S n)) as [->|Hne];
      [assumption|apply Hlater; lia].
Qed.

Lemma longest_first_at {A} (try : nat -> option A) (n k : nat) :
  (1 <= k <= n)%nat ->
  (forall j, (k < j <= n)%nat -> try j = None) ->
  is_Some (try k) ->
  longest_first try n = try k.
Proof.
  intros Hk Hlater [r Hr]. induction n as [|n IH]; [lia|].
  simpl. destruct (Nat.eq_dec k (S n)) as [<-|Hne].
  - rewrite Hr. reflexivity.
  - rewrite (Hlater (S n)) by lia. apply IH; [lia|].
    intros j Hj. apply Hlater. lia.
Qed.

Lemma longest_first_found {A} (try : nat -> option A) (n k : nat) :
  (1 <= k <= n)%nat -> is_Some (try k) -> is_Some (longest_first try n).
Proof.
  intros Hk Hr. induction n as [|n IH]; [lia|].
  simpl. destruct (try (S n)) as [r'|] eqn:Hn; [eauto|].
  apply IH. destruct (Nat.eq_dec k (S n)) as [->|Hne]; [|lia].
  rewrite Hn in Hr. destruct Hr as [? [=]].
Qed.

Lemma match_here_literal (lit : chars) (re : list atom) (rest : chars) :
  match_here (map Chr lit ++ re) (lit ++ rest) = match_here re rest.
Proof.
  induction lit as [|c lit IH]; [reflexivity|].
  simpl. rewrite Ascii.eqb_refl. exact IH.
Qed.

Lemma match_here_literal_inv (lit : chars) (re : list atom) (s g : chars) :
  match_here (map Chr lit ++ re) s = Some g ->
  exists rest, s = lit ++ rest /\ match_here re rest = Some g.
Proof.
  revert s. induction lit as [|c lit IH]; intros s H.
  - exists s. split; [reflexivity|exact H].
  - simpl in H. destruct s as [|x s]; [discriminate|].
    destruct (Ascii.eqb_spec x c) as [->|]; [|discriminate].
    destruct (IH _ H) as (rest & -> & Hrest).
    exists rest. split; [reflexivity|assumption].
Qed.

Lemma re_search_sound (re : list atom) (s g : chars) :
  re_search re s = Some g ->
  exists pre rest, s = pre ++ rest /\ match_here re rest = Some g.
Proof.
  induction s as [|c s IH]; simpl.
  - destruct (match_here re []) eqn:H; [|discriminate].
    intros [= ->]. exists [], []. split; [reflexivity|assumption].
  - destruct (match_here re (c :: s)) eqn:H.
    + intros [= ->]. exists [], (c :: s). split; [reflexivity|assumption].
    + intros Hs. destruct (IH Hs) as (pre & rest & -> & Hm).
      exists (c :: pre), rest. split; [reflexivity|assumption].
Qed.

Lemma re_search_complete (re : list atom) (pre rest : chars) :
  is_Some (match_here re rest) -> is_Some (re_search re (pre ++ rest)).
Proof.
  intros Hm. induction pre as [|c pre IH]; simpl.
  - destruct rest; simpl; destruct Hm as [g ->]; eauto.
  - destruct (match_here re (c :: pre ++ rest)); [eauto|exact IH].
Qed.

Lemma re_search_here (re : list atom) (s g : chars) :
  match_here re s = Some g -> re_search re s = Some g.
Proof. intros H. destruct s; simpl; rewrite H; reflexivity. Qed.

End Text.


Section RequestId.
Import PyStr.

Lemma match_here_chr (c : ascii) (re : list atom) (s : chars) :
  match_here (Chr c :: re) (c :: s) = match_here re s.
Proof. simpl. rewrite Ascii.eqb_refl. reflexivity. Qed.

Lemma firstn_span (cls : ascii -> bool) (s : chars) :
  firstn (span cls s) s = take_while cls s.
Proof.
  unfold span. induction s as [|c s IH]; simpl; [reflexivity|].
  destruct (cls c); simpl; [rewrite IH|]; reflexivity.
Qed.

Lemma group_last (cls : ascii -> bool) (s g : chars) :
  match_here [Group cls] s = Some g ->
  g = take_while cls s /\ g <> [].
Proof.
  simpl. intros H.
  destruct (span cls s) as [|n] eqn:Hn; simpl in H; [discriminate|].
  injection H as <-. rewrite <- Hn, firstn_span. split; [reflexivity|].
  unfold span in Hn. intros E. rewrite E in Hn. discriminate.
Qed.

Lemma group_last_run (cls : ascii -> bool) (g post : chars) :
  g <> [] -> List.Forall (fun c => cls c = true) g ->
  match post with [] => True | c :: _ => cls c = false end ->
  match_here [Group cls] (g ++ post) = Some g.
Proof.
  intros Hne Hall Hpost. simpl.
  rewrite (span_app_all _ _ _ Hall), (span_stop _ _ Hpost), Nat.add_0_r.
  destruct g as [|c g]; [contradiction|]. cbn [length longest_first].
  change (S (length g)) with (length (c :: g)).
  rewrite firstn_app, firstn_all, Nat.sub_diag. simpl.
  rewrite app_nil_r. reflexivity.
Qed.

Lemma tail_sound (s g : chars) :
  match_here [Plus non_space; Chr "-"; Group is_digit] s = Some g ->
  exists printer post,
    s = printer ++ "-"%char :: g ++ post
    /\ printer <> [] /\ List.Forall (fun c => non_space c = true) printer
    /\ g <> [] /\ List.Forall (fun c => is_digit c = true) g.
Proof.
  cbn [match_here]. intros H.
  apply longest_first_Some in H as (k & Hk & Hm & _).
  destruct (skipn k s) as [|x s'] eqn:Hskip; [discriminate|].
  destruct (Ascii.eqb_spec x "-") as [->|]; [|discriminate].
  apply group_last in Hm as [Hg Hne].
  exists (firstn k s), (drop_while is_digit s').
  split; [|split; [|split; [|split]]].
  - rewrite <- (firstn_skipn k s) at 1. rewrite Hskip, Hg.
    rewrite take_drop_while. reflexivity.
  - intros E. apply (f_equal (@length ascii)) in E.
    rewrite length_firstn in E. pose proof (span_le non_space s).
    simpl in E. lia.
  - apply firstn_span_all. lia.
  - assumption.
  - rewrite Hg. apply take_while_all.
Qed.

Lemma tail_complete (printer digits post : chars) :
  printer <> [] -> List.Forall (fun c => non_space c = true) printer ->
  digits <> [] -> List.Forall (fun c => is_digit c = true) digits ->
  is_Some (match_here [Plus non_space; Chr "-"; Group is_digit] (printer ++ "-"%char :: digits ++ post)).
Proof.
  intros Hp Hps Hd Hds. cbn [match_here].
  apply (longest_first_found _ _ (length printer)).
  - rewrite (span_app_all _ _ _ Hps). destruct printer; [contradiction|].
    simpl. lia.
  - rewrite skipn_app, skipn_all, Nat.sub_diag. simpl.
    apply (longest_first_found _ _ (length digits)).
    + rewrite (span_app_all _ _ _ Hds). destruct digits; [contradiction|].
      simpl. lia.
    + eauto.
Qed.

Lemma tail_exact (printer digits post : chars) :
  printer <> [] -> List.Forall (fun c => non_space c = true) printer ->
  digits <> [] -> List.Forall (fun c => is_digit c = true) digits ->
  match post with [] => True | c :: _ => is_space c = true end ->
  match_here [Plus non_space; Chr "-"; Group is_digit] (printer ++ "-"%char :: digits ++ post) = Some digits.
Proof.
  intros Hp Hps Hd Hds Hpost. cbn [match_here].
  assert (Hdns : List.Forall (fun c => non_space c = true) digits).
  { eapply List.Forall_impl; [|exact Hds]. intros c Hc. unfold non_space.
    rewrite (digit_not_space c Hc). reflexivity. }
  assert (Hspan : span non_space (printer ++ "-"%char :: digits ++ post)
                  = (length printer + S (length digits))%nat).
  { rewrite (span_app_all _ _ _ Hps).
    change ("-"%char :: digits ++ post) with (["-"%char] ++ digits ++ post).
    rewrite (span_app_all _ ["-"%char]) by (repeat constructor).
    rewrite (span_app_all _ _ _ Hdns).
    rewrite span_stop; [simpl; lia|].
    destruct post as [|c post]; [exact I|].
    unfold non_space. rewrite Hpost. reflexivity. }
  rewrite Hspan.
  assert (Hpost_digit : match post with
                        | [] => True | c :: _ => is_digit c = false end).
  { destruct post as [|c post]; [exact I|].
    destruct (is_digit c) eqn:Hc; [|reflexivity].
    rewrite (digit_not_space c Hc) in Hpost. discriminate. }
  rewrite (longest_first_at _ _ (length printer)).
  - cbv beta.
    rewrite skipn_app, skipn_all, Nat.sub_diag, skipn_O, app_nil_l.
    exact (group_last_run is_digit digits post Hd Hds Hpost_digit).
  - destruct printer; [contradiction|]. simpl. lia.
  - intros j Hj.
    rewrite skipn_app, skipn_all2 by lia. rewrite app_nil_l.
    destruct (j - length printer)%nat as [|i] eqn:Hi; [lia|].
    simpl skipn.
    assert (Hi' : (i <= length digits)%nat) by lia.
    rewrite skipn_app.
    destruct (skipn i digits) as [|c rest] eqn:Hsk.
    + assert (length (skipn i digits) = 0%nat) by (rewrite Hsk; reflexivity).
      rewrite length_skipn in H.
      replace (i - length digits)%nat with 0%nat by lia.
      rewrite skipn_O. cbn [app match_here].
      destruct post as [|c post]; [reflexivity|].
      destruct (Ascii.eqb_spec c "-") as [->|]; [|reflexivity].
      discriminate Hpost.
    + simpl. destruct (Ascii.eqb_spec c "-") as [->|]; [|reflexivity].
      assert (Hin : In "-"%char digits).
      { rewrite <- (firstn_skipn i digits), Hsk. apply in_or_app.
        right. left. reflexivity. }
      rewrite List.Forall_forall in Hds. specialize (Hds _ Hin). discriminate.
  - cbv beta.
    rewrite skipn_app, skipn_all, Nat.sub_diag, skipn_O, app_nil_l.
    change (is_Some (match_here [Group is_digit] (digits ++ post))).
    rewrite (group_last_run is_digit digits post Hd Hds Hpost_digit).
    eauto.
Qed.

End RequestId.


Section RequestIdText.
Import PyStr Subprocess Wording.

Lemma string_nonempty_chars (s : string) :
  s <> ""%string <-> list_ascii_of_string s <> [].
Proof.
  destruct s; simpl; split; intros H; congruence.
Qed.

Lemma chars_nonempty_string (l : list ascii) :
  l <> [] <-> string_of_list_ascii l <> ""%string.
Proof.
  destruct l; simpl; split; intros H; congruence.
Qed.

Lemma all_chars_of_list (p : ascii -> bool) (l : list ascii) :
  List.Forall (fun c => p c = true) l -> all_chars p (string_of_list_ascii l).
Proof.
  unfold all_chars. rewrite list_ascii_of_string_of_list_ascii. auto.
Qed.

Lemma request_id_sound (stdout g : string) :
  search_group1 cups_helper.request_id_pattern stdout = Some g ->
  names_request_id stdout g.
Proof.
  unfold search_group1, cups_helper.request_id_pattern, literal.
  destruct (re_search _ _) as [gl|] eqn:Hs; [|discriminate].
  intros [= <-].
  apply re_search_sound in Hs as (pre & rest & Hsplit & Hm).
  apply match_here_literal_inv in Hm as (rest' & -> & Hm).
  apply tail_sound in Hm as (printer & post & -> & Hp & Hps & Hg & Hgs).
  exists (string_of_list_ascii pre), (string_of_list_ascii printer),
    (string_of_list_ascii post).
  split; [|split; [|split; [|split]]].
  - rewrite <- (string_of_list_ascii_of_string stdout), Hsplit.
    rewrite !string_of_list_ascii_app.
    rewrite string_of_list_ascii_of_string.
    change ("-"%char :: gl ++ post) with (["-"%char] ++ gl ++ post).
    rewrite !string_of_list_ascii_app. reflexivity.
  - apply chars_nonempty_string. assumption.
  - apply all_chars_of_list. assumption.
  - apply chars_nonempty_string. assumption.
  - apply all_chars_of_list. assumption.
Qed.

Lemma request_id_complete (stdout digits : string) :
  names_request_id stdout digits ->
  is_Some (search_group1 cups_helper.request_id_pattern stdout).
Proof.
  intros (pre & printer & post & -> & Hp & Hps & Hd & Hds).
  unfold search_group1, cups_helper.request_id_pattern, literal.
  rewrite !list_ascii_of_string_app.
  destruct (re_search_complete
              (map Chr (list_ascii_of_string "request id is ")
               ++ [Plus non_space; Chr "-"; Group is_digit])
              (list_ascii_of_string pre)
              (list_ascii_of_string "request id is "
               ++ list_ascii_of_string printer ++ list_ascii_of_string "-"
               ++ list_ascii_of_string digits ++ list_ascii_of_string post))
    as [g Hg].
  - rewrite match_here_literal.
    apply (tail_complete (list_ascii_of_string printer)
             (list_ascii_of_string digits) (list_ascii_of_string post)).
    + apply string_nonempty_chars. assumption.
    + exact Hps.
    + apply string_nonempty_chars. assumption.
    + exact Hds.
  - rewrite Hg. simpl. eauto.
Qed.

Lemma request_id_exact (printer digits post : string) :
  printer <> ""%string -> all_chars non_space printer ->
  digits <> ""%string -> all_chars is_digit digits ->
  ends_or_blank post ->
  search_group1 cups_helper.request_id_pattern
    ("request id is " +:+ printer +:+ "-" +:+ digits +:+ post)
  = Some digits.
Proof.
  intros Hp Hps Hd Hds Hpost.
  unfold search_group1, cups_helper.request_id_pattern, literal.
  rewrite !list_ascii_of_string_app.
  rewrite (re_search_here _ _ (list_ascii_of_string digits)).
  - simpl. rewrite string_of_list_ascii_of_string. reflexivity.
  - rewrite match_here_literal.
    apply (tail_exact (list_ascii_of_string printer)
             (list_ascii_of_string digits) (list_ascii_of_string post)).
    + apply string_nonempty_chars. assumption.
    + exact Hps.
    + apply string_nonempty_chars. assumption.
    + exact Hds.
    + destruct post; [exact I|exact Hpost].
Qed.

Lemma length_chars (s : string) :
  length (list_ascii_of_string s) = String.length s.
Proof. induction s as [|c s IH]; simpl; [reflexivity|]. rewrite IH. reflexivity. Qed.

End RequestIdText.

Section FirstRequestId.
Import PyStr Subprocess Wording.

(** The search stops at the first position where the pattern matches. *)
Lemma re_search_first (re : list atom) (s g : chars) :
  re_search re s = Some g ->
  exists pre rest,
    s = pre ++ rest /\ match_here re rest = Some g
    /\ forall pre' rest',
         s = pre' ++ rest' -> (length pre' < length pre)%nat ->
         match_here re rest' = None.
Proof.
  induction s as [|c s IH]; simpl.
  - destruct (match_here re []) eqn:H; [|discriminate].
    intros [= ->]. exists [], []. split; [reflexivity|].
    split; [assumption|]. intros pre' rest' _ Hlen. simpl in Hlen. lia.
  - destruct (match_here re (c :: s)) eqn:H.
    + intros [= ->]. exists [], (c :: s). split; [reflexivity|].
      split; [assumption|]. intros pre' rest' _ Hlen. simpl in Hlen. lia.
    + intros Hs. destruct (IH Hs) as (pre & rest & -> & Hm & Hfirst).
      exists (c :: pre), rest. split; [reflexivity|]. split; [assumption|].
      intros pre' rest' Heq Hlen. destruct pre' as [|c' pre'].
      * simpl in Heq. subst rest'. exact H.
      * simpl in Heq. injection Heq as <- Heq.
        apply (Hfirst pre' rest' Heq). simpl in Hlen. lia.
Qed.

Lemma drop_while_stops (p : ascii -> bool) (s : chars) :
  match drop_while p s with [] => True | c :: _ => p c = false end.
Proof.
  induction s as [|c s IH]; simpl; [exact I|].
  destruct (p c) eqn:Hc; [exact IH|exact Hc].
Qed.

Lemma group_found (cls : ascii -> bool) (g post : chars) :
  g <> [] -> List.Forall (fun c => cls c = true) g ->
  is_Some (match_here [Group cls] (g ++ post)).
Proof.
  intros Hne Hall. cbn [match_here].
  apply (longest_first_found _ _ (length g)).
  - rewrite (span_app_all _ _ _ Hall). destruct g; [contradiction|].
    simpl. lia.
  - eauto.
Qed.

(** At one position the matcher settles for the longest printer name that
    a dash and a digit follow, and takes every digit after that dash. *)
Lemma tail_first (s g : chars) :
  match_here [Plus non_space; Chr "-"; Group is_digit] s = Some g ->
  exists printer post,
    s = printer ++ "-"%char :: g ++ post
    /\ printer <> [] /\ List.Forall (fun c => non_space c = true) printer
    /\ g <> [] /\ List.Forall (fun c => is_digit c = true) g
    /\ match post with [] => True | c :: _ => is_digit c = false end
    /\ forall printer' digits' post',
         s = printer' ++ "-"%char :: digits' ++ post' ->
         List.Forall (fun c => non_space c = true) printer' ->
         digits' <> [] -> List.Forall (fun c => is_digit c = true) digits' ->
         (length printer' <= length printer)%nat.
Proof.
  cbn [match_here]. intros H.
  apply longest_first_Some in H as (k & Hk & Hm & Hlater).
  destruct (skipn k s) as [|x s'] eqn:Hskip; [discriminate|].
  destruct (Ascii.eqb_spec x "-") as [->|]; [|discriminate].
  apply group_last in Hm as [Hg Hne].
  pose proof (span_le non_space s) as Hspan.
  assert (Hlen : length (firstn k s) = k)
    by (rewrite length_firstn; lia).
  exists (firstn k s), (drop_while is_digit s').
  split; [|split; [|split; [|split; [|split; [|split]]]]].
  - rewrite <- (firstn_skipn k s) at 1. rewrite Hskip, Hg.
    rewrite take_drop_while. reflexivity.
  - intros E. rewrite E in Hlen. simpl in Hlen. lia.
  - apply firstn_span_all. lia.
  - assumption.
  - rewrite Hg. apply take_while_all.
  - apply drop_while_stops.
  - intros printer' digits' post' Hs Hps Hd Hds. rewrite Hlen.
    destruct (Nat.le_gt_cases (length printer') k) as [Hle|Hgt];
      [exact Hle|exfalso].
    assert (Hin : (k < length printer' <= span non_space s)%nat).
    { split; [exact Hgt|]. rewrite Hs, (span_app_all _ _ _ Hps). lia. }
    specialize (Hlater _ Hin). cbv beta in Hlater.
    rewrite Hs, skipn_app, skipn_all, Nat.sub_diag, skipn_O, app_nil_l
      in Hlater.
    cbn [match_here] in Hlater. rewrite Ascii.eqb_refl in Hlater.
    destruct (group_found is_digit digits' post' Hd Hds) as [g' Hg'].
    cbn [match_here] in Hg'. rewrite Hg' in Hlater. discriminate.
Qed.

(** Text cut at the same place on both sides is the same on both sides. *)
Lemma same_digits (digits digits' post post' : chars) :
  digits ++ post = digits' ++ post' ->
  List.Forall (fun c => is_digit c = true) digits ->
  List.Forall (fun c => is_digit c = true) digits' ->
  match post with [] => True | c :: _ => is_digit c = false end ->
  match post' with [] => True | c :: _ => is_digit c = false end ->
  digits = digits'.
Proof.
  revert digits'. induction digits as [|c digits IH];
    intros digits' Heq Hd Hd' Hp Hp'.
  - destruct digits' as [|c' digits']; [reflexivity|].
    simpl in Heq. subst post. inversion Hd'. congruence.
  - destruct digits' as [|c' digits'].
    + simpl in Heq. subst post'. inversion Hd. congruence.
    + simpl in Heq. injection Heq as <- Heq. f_equal.
      inversion Hd. inversion Hd'. apply (IH digits'); assumption.
Qed.

Lemma chars_of_occurrence (stdout pre printer digits post : string) :
  request_id_at stdout pre printer digits post ->
  list_ascii_of_string stdout
  = list_ascii_of_string pre
    ++ list_ascii_of_string "request id is "
    ++ list_ascii_of_string printer
    ++ "-"%char :: list_ascii_of_string digits ++ list_ascii_of_string post.
Proof.
  intros (-> & _). rewrite !list_ascii_of_string_app. reflexivity.
Qed.

(** What the search finds is the first occurrence in the sense of
    [first_request_id]. *)
Lemma request_id_first (stdout g : string) :
  search_group1 cups_helper.request_id_pattern stdout = Some g ->
  first_request_id stdout g.
Proof.
  unfold search_group1, cups_helper.request_id_pattern, literal.
  destruct (re_search _ _) as [gl|] eqn:Hs; [|discriminate].
  intros [= <-].
  apply re_search_first in Hs as (pre & rest & Hsplit & Hm & Hfirst).
  apply match_here_literal_inv in Hm as (rest' & -> & Hm).
  apply tail_first in Hm
    as (printer & post & -> & Hp & Hps & Hg & Hgs & Hpost & Hlongest).
  exists (string_of_list_ascii pre), (string_of_list_ascii printer),
    (string_of_list_ascii post).
  split; [|split].
  - split; [|split; [|split; [|split]]].
    + rewrite <- (string_of_list_ascii_of_string stdout), Hsplit.
      rewrite !string_of_list_ascii_app.
      rewrite string_of_list_ascii_of_string.
      change ("-"%char :: gl ++ post) with (["-"%char] ++ gl ++ post).
      rewrite !string_of_list_ascii_app. reflexivity.
    + apply chars_nonempty_string. assumption.
    + apply all_chars_of_list. assumption.
    + apply chars_nonempty_string. assumption.
    + apply all_chars_of_list. assumption.
  - destruct post as [|c post]; [exact I|exact Hpost].
  - intros pre' printer' digits' post' Hocc.
    pose proof (chars_of_occurrence _ _ _ _ _ Hocc) as Hchars.
    destruct Hocc as (_ & Hp' & Hps' & Hd' & Hds').
    rewrite <- !length_chars, !list_ascii_of_string_of_list_ascii.
    assert (Hleft : (length pre <= length (list_ascii_of_string pre'))%nat).
    { destruct (Nat.le_gt_cases (length pre)
                  (length (list_ascii_of_string pre'))) as [Hle|Hgt];
        [exact Hle|exfalso].
      pose proof (Hfirst _ _ Hchars Hgt) as Hnone.
      rewrite match_here_literal in Hnone.
      destruct (tail_complete (list_ascii_of_string printer')
                  (list_ascii_of_string digits')
                  (list_ascii_of_string post')) as [x Hx];
        [apply string_nonempty_chars; assumption|exact Hps'
        |apply string_nonempty_chars; assumption|exact Hds'|].
      rewrite Hx in Hnone. discriminate. }
    split; [exact Hleft|]. intros Hsame. rewrite Hsplit in Hchars.
    apply app_inj_1 in Hchars as [_ Hchars]; [|symmetry; exact Hsame].
    apply app_inv_head in Hchars.
    apply (Hlongest _ _ _ Hchars Hps');
      [apply string_nonempty_chars; assumption|exact Hds'].
Qed.

(** There is at most one first occurrence. *)
Lemma first_request_id_unique (stdout d1 d2 : string) :
  first_request_id stdout d1 -> first_request_id stdout d2 -> d1 = d2.
Proof.
  intros (pre1 & printer1 & post1 & Hocc1 & Hpost1 & Hmin1)
         (pre2 & printer2 & post2 & Hocc2 & Hpost2 & Hmin2).
  destruct (Hmin1 _ _ _ _ Hocc2) as [Hpre12 Hprinter12].
  destruct (Hmin2 _ _ _ _ Hocc1) as [Hpre21 Hprinter21].
  assert (Hpre : String.length pre1 = String.length pre2) by lia.
  assert (Hprinter : String.length printer1 = String.length printer2).
  { specialize (Hprinter12 (eq_sym Hpre)). specialize (Hprinter21 Hpre).
    lia. }
  pose proof (chars_of_occurrence _ _ _ _ _ Hocc1) as H1.
  pose proof (chars_of_occurrence _ _ _ _ _ Hocc2) as H2.
  rewrite H1 in H2.
  apply app_inj_1 in H2 as [_ H2]; [|rewrite !length_chars; exact Hpre].
  apply app_inv_head in H2.
  apply app_inj_1 in H2 as [_ H2]; [|rewrite !length_chars; exact Hprinter].
  injection H2 as H2.
  destruct Hocc1 as (_ & _ & _ & _ & Hd1).
  destruct Hocc2 as (_ & _ & _ & _ & Hd2).
  rewrite <- (string_of_list_ascii_of_string d1),
    <- (string_of_list_ascii_of_string d2). f_equal.
  apply (same_digits _ _ _ _ H2 Hd1 Hd2).
  - destruct post1; [exact I|exact Hpost1].
  - destruct post2; [exact I|exact Hpost2].
Qed.

End FirstRequestId.

(** C7 (amended). What [submit_print_job] makes of the outcome of the
    [lp] command it runs. After exit code 0: when the output contains
    "request id is <printer>-<digits>", the result is success with the
    digits of the first such occurrence, which is unique (for output that
    starts with the confirmation and goes on with a blank or ends, the
    digits written there); when it contains no such text, the result is
    success with the trimmed output. After any other exit code the result
    is failure with the trimmed error text, or "Unknown error submitting
    print job" when nothing is left of it. A timeout and a missing [lp]
    give failures with fixed texts of their own, which differ from each
    other and from the fallback. A rejection gives the same result as one
    of them exactly when the spooler's own trimmed words are that text. *)
Theorem submit_result_cases (env : Subprocess.oracle) (filepath : string)
    (copies : Z) (duplex : bool) (l : Subprocess.log) :
  let result :=
    env (length l) (cups_helper.lp_command filepath copies duplex) in
  let answer :=
    fst (cups_helper.submit_print_job env filepath copies duplex l) in
  let timed_out := "Print command timed out"%string in
  let not_found := "CUPS lp command not found. Is CUPS installed?"%string in
  let fallback := "Unknown error submitting print job"%string in
  (forall stdout stderr,
     result = Subprocess.Completed 0 stdout stderr ->
     ((exists digits, Wording.first_request_id stdout digits
                      /\ answer = (true, digits))
      \/ ((forall digits, ~ Wording.names_request_id stdout digits)
          /\ answer = (true, PyStr.strip stdout)))
     /\ (forall d1 d2, Wording.first_request_id stdout d1 ->
                       Wording.first_request_id stdout d2 -> d1 = d2)
     /\ (forall printer digits post,
           stdout
           = ("request id is " +:+ printer +:+ "-" +:+ digits +:+ post) ->
           printer <> ""%string ->
           Wording.all_chars PyStr.non_space printer ->
           digits <> ""%string -> Wording.all_chars PyStr.is_digit digits ->
           Wording.ends_or_blank post ->
           answer = (true, digits)))
  /\ (forall returncode stdout stderr,
        result = Subprocess.Completed returncode stdout stderr ->
        returncode <> 0 ->
        (PyStr.strip stderr <> ""%string ->
         answer = (false, PyStr.strip stderr))
        /\ (PyStr.strip stderr = ""%string -> answer = (false, fallback))
        /\ (answer = (false, timed_out) <-> PyStr.strip stderr = timed_out)
        /\ (answer = (false, not_found) <-> PyStr.strip stderr = not_found))
  /\ (result = Subprocess.TimeoutExpired -> answer = (false, timed_out))
  /\ (result = Subprocess.FileNotFoundError -> answer = (false, not_found))
  /\ timed_out <> not_found /\ timed_out <> fallback
  /\ not_found <> fallback.
Proof.
  intros result answer timed_out not_found fallback.
  assert (Hanswer : answer = cups_helper.submit_result result)
    by reflexivity.
  clearbody answer result. subst answer.
  split; [|split; [|split; [|split]]].
  - intros stdout stderr ->. unfold cups_helper.submit_result. simpl.
    split; [|split].
    + destruct (PyStr.search_group1 cups_helper.request_id_pattern stdout)
        as [g|] eqn:Hs.
      * left. exists g. split; [|reflexivity].
        apply request_id_first. assumption.
      * right. split; [|reflexivity].
        intros digits Hd. apply request_id_complete in Hd as [g Hg].
        congruence.
    + apply first_request_id_unique.
    + intros printer digits post -> Hp Hps Hd Hds Hpost.
      rewrite request_id_exact by assumption. reflexivity.
  - intros returncode stdout stderr -> Hrc.
    unfold cups_helper.submit_result, cups_helper.or_else.
    destruct (Z.eqb_spec returncode 0) as [|_]; [contradiction|].
    subst timed_out not_found fallback.
    destruct (String.eqb_spec (PyStr.strip stderr) "") as [He|He].
    + rewrite He. repeat split; intros; try congruence; discriminate.
    + repeat split; intros; congruence.
  - intros ->. reflexivity.
  - intros ->. reflexivity.
  - subst timed_out not_found fallback. repeat split; discriminate.
Qed.

(** C7, as stated, fails for a spooler that turns a job down in the
    words of the timeout message: the result of this rejection is the
    result of a timeout. *)
Lemma rejection_reads_as_timeout :
  fst (cups_helper.submit_print_job Samples.spooler_says_timed_out
         Samples.report_path 1 false [])
  = fst (cups_helper.submit_print_job Samples.spooler_hangs
           Samples.report_path 1 false []).
Proof. reflexivity. Qed.


Section Decimal.
Import PyStr Wording.

Lemma string_of_uint_digits (d : Decimal.uint) :
  all_chars is_digit (NilEmpty.string_of_uint d).
Proof.
  unfold all_chars.
  induction d; simpl; constructor; (reflexivity || assumption).
Qed.

Lemma str_of_int_positive (n : Z) :
  0 < n ->
  str_of_int n <> ""%string /\ all_chars is_digit (str_of_int n).
Proof.
  intros Hn. destruct n as [|p|p]; try lia.
  unfold str_of_int. simpl. split.
  - pose proof (DecimalPos.Unsigned.to_uint_nonnil p) as Hnil.
    destruct (Pos.to_uint p); simpl; congruence.
  - apply string_of_uint_digits.
Qed.

Lemma digits_differ (s t : string) :
  s <> ""%string -> all_chars is_digit s ->
  match t with
  | EmptyString => True
  | String c _ => is_digit c = false
  end ->
  s <> t.
Proof.
  intros Hne Hall Ht ->. destruct t as [|c t]; [contradiction|].
  unfold all_chars in Hall. simpl in Hall.
  apply List.Forall_inv in Hall. congruence.
Qed.

End Decimal.

(** C6. The command [submit_print_job] hands to the spooler is
    [lp], the options, the file. Among the options, [-n] with the
    number of copies is there exactly when [copies > 1]; after it comes one
    [-o] whose value is [sides=two-sided-long-edge] for duplex and
    [sides=one-sided] otherwise, and no other [-o] or [sides=] option
    occurs. Every submission runs this one command. *)
Theorem submit_command_options (env : Subprocess.oracle) (filepath : string)
    (copies : Z) (duplex : bool) (l : Subprocess.log) :
  let cmd := cups_helper.lp_command filepath copies duplex in
  let sides := if duplex then "sides=two-sided-long-edge"%string
               else "sides=one-sided"%string in
  snd (cups_helper.submit_print_job env filepath copies duplex l) = l ++ [cmd]
  /\ exists opts : list string,
       cmd = "lp"%string :: opts ++ ["-o"%string; sides; filepath]
       /\ (In "-n"%string opts <-> 1 < copies)
       /\ (1 < copies -> opts = ["-n"%string; PyStr.str_of_int copies])
       /\ (copies <= 1 -> opts = [])
       /\ ~ In "-o"%string opts
       /\ ~ In "sides=two-sided-long-edge"%string opts
       /\ ~ In "sides=one-sided"%string opts.
Proof.
  intros cmd sides. split; [reflexivity|].
  subst cmd sides. unfold cups_helper.lp_command.
  destruct (Z.ltb_spec 1 copies) as [Hc|Hc].
  - exists ["-n"%string; PyStr.str_of_int copies].
    destruct (str_of_int_positive copies ltac:(lia)) as [Hne Hdig].
    assert (Hd : forall t : string,
               match t with
               | EmptyString => True
               | String c _ => PyStr.is_digit c = false
               end -> PyStr.str_of_int copies <> t).
    { intros t. apply digits_differ; assumption. }
    split; [destruct duplex; reflexivity|].
    split; [split; [intros _; assumption|intros _; left; reflexivity]|].
    split; [reflexivity|]. split; [lia|].
    repeat split; intros [H|[H|[]]]; try discriminate H;
      revert H; apply Hd; reflexivity.
  - exists []. split; [destruct duplex; reflexivity|].
    split; [split; [intros []|lia]|].
    split; [lia|]. split; [reflexivity|].
    repeat split; intros [].
Qed.


Section JobSuffix.
Import PyStr Wording.

Lemma longest_first_None {A} (try : nat -> option A) (n : nat) :
  (forall k, (1 <= k <= n)%nat -> try k = None) ->
  longest_first try n = None.
Proof.
  intros H. induction n as [|n IH]; [reflexivity|].
  simpl. rewrite (H (S n)) by lia. apply IH. intros k Hk. apply H. lia.
Qed.

Lemma span_until (cls : ascii -> bool) (a b : chars) (c : ascii) :
  cls c = false -> (span cls (a ++ c :: b) <= length a)%nat.
Proof.
  intros Hc. unfold span. induction a as [|x a IH]; simpl.
  - rewrite Hc. simpl. lia.
  - destruct (cls x); simpl; lia.
Qed.

Lemma at_end_long (s : chars) : (2 <= length s)%nat -> at_end s = false.
Proof. destruct s as [|a [|b s]]; simpl; intros; (reflexivity || lia). Qed.

Lemma suffix_not_before (x digits : chars) :
  x <> [] -> digits <> [] ->
  match_here cups_helper.job_suffix_pattern (x ++ "-"%char :: digits) = None.
Proof.
  intros Hx Hd. destruct x as [|c x]; [contradiction|].
  unfold cups_helper.job_suffix_pattern. cbn [match_here app].
  destruct (Ascii.eqb c "-"); [|reflexivity].
  apply longest_first_None. intros k Hk.
  pose proof (span_until is_digit x digits "-" eq_refl) as Hspan.
  rewrite skipn_app. replace (k - length x)%nat with 0%nat by lia.
  rewrite skipn_O, at_end_long; [reflexivity|].
  rewrite length_app. simpl. destruct digits; [contradiction|]. simpl. lia.
Qed.

Lemma suffix_at (digits : chars) :
  digits <> [] -> List.Forall (fun c => is_digit c = true) digits ->
  match_here cups_helper.job_suffix_pattern ("-"%char :: digits)
  = Some digits.
Proof.
  intros Hd Hds. unfold cups_helper.job_suffix_pattern.
  cbn [match_here]. rewrite Ascii.eqb_refl.
  rewrite <- (app_nil_r digits) at 1.
  rewrite (span_app_all _ _ _ Hds). simpl span. rewrite Nat.add_0_r.
  rewrite (longest_first_at _ _ (length digits)).
  - rewrite skipn_all, firstn_all. reflexivity.
  - destruct digits; [contradiction|]. simpl. lia.
  - intros j Hj. lia.
  - rewrite skipn_all. simpl. eauto.
Qed.

Lemma suffix_search (printer digits : chars) :
  digits <> [] -> List.Forall (fun c => is_digit c = true) digits ->
  re_search cups_helper.job_suffix_pattern (printer ++ "-"%char :: digits)
  = Some digits.
Proof.
  intros Hd Hds. induction printer as [|c printer IH].
  - apply re_search_here, suffix_at; assumption.
  - change ((c :: printer) ++ "-"%char :: digits)
      with (c :: (printer ++ "-"%char :: digits)).
    cbn [re_search].
    change (c :: (printer ++ "-"%char :: digits))
      with ((c :: printer) ++ "-"%char :: digits).
    rewrite suffix_not_before by (assumption || discriminate).
    exact IH.
Qed.

Lemma suffix_sound (s g : chars) :
  re_search cups_helper.job_suffix_pattern s = Some g ->
  exists printer rest,
    s = printer ++ "-"%char :: g ++ rest /\ at_end rest = true
    /\ g <> [] /\ List.Forall (fun c => is_digit c = true) g.
Proof.
  intros H. apply re_search_sound in H as (pre & rest & -> & Hm).
  unfold cups_helper.job_suffix_pattern in Hm. cbn [match_here] in Hm.
  destruct rest as [|x rest]; [discriminate|].
  destruct (Ascii.eqb_spec x "-") as [->|]; [|discriminate].
  apply longest_first_Some in Hm as (k & Hk & Hm & _).
  destruct (at_end (skipn k rest)) eqn:Hend; [|discriminate].
  injection Hm as <-.
  exists pre, (skipn k rest). split; [|split; [assumption|split]].
  - rewrite firstn_skipn. reflexivity.
  - intros E. apply (f_equal (@length ascii)) in E.
    rewrite length_firstn in E. pose proof (span_le is_digit rest).
    simpl in E. lia.
  - apply firstn_span_all. lia.
Qed.

Lemma split_ws_go_pieces (cur s : chars) :
  List.Forall (fun c => non_space c = true) cur ->
  List.Forall (fun piece => List.Forall (fun c => non_space c = true) piece)
              (split_ws_go cur s).
Proof.
  revert cur. induction s as [|c s IH]; intros cur Hcur; simpl.
  - destruct cur; constructor; [|constructor].
    apply List.Forall_rev. assumption.
  - destruct (is_space c) eqn:Hc.
    + destruct cur.
      * apply IH. constructor.
      * constructor; [apply List.Forall_rev; assumption|].
        apply IH. constructor.
    + apply IH. constructor; [|assumption].
      unfold non_space. rewrite Hc. reflexivity.
Qed.

Lemma split_ws_token (line token : string) (rest : list string) :
  split_ws line = token :: rest -> all_chars non_space token.
Proof.
  unfold split_ws, split_ws_chars, all_chars. intros H.
  pose proof (split_ws_go_pieces [] (list_ascii_of_string line)
                (List.Forall_nil _)) as Hall.
  destruct (split_ws_go [] (list_ascii_of_string line)) as [|t ts];
    [discriminate|].
  injection H as <- _. rewrite list_ascii_of_string_of_list_ascii.
  apply List.Forall_inv in Hall. assumption.
Qed.

Lemma job_suffix_found (token digits : string) :
  has_job_suffix token digits ->
  search_group1 cups_helper.job_suffix_pattern token = Some digits.
Proof.
  intros (printer & -> & Hd & Hds). unfold search_group1.
  rewrite !list_ascii_of_string_app.
  change (list_ascii_of_string "-" ++ list_ascii_of_string digits)
    with ("-"%char :: list_ascii_of_string digits).
  rewrite suffix_search.
  - simpl. rewrite string_of_list_ascii_of_string. reflexivity.
  - apply string_nonempty_chars. assumption.
  - exact Hds.
Qed.

Lemma job_suffix_sound (token g : string) :
  all_chars non_space token ->
  search_group1 cups_helper.job_suffix_pattern token = Some g ->
  has_job_suffix token g.
Proof.
  unfold search_group1. intros Hns H.
  destruct (re_search _ _) as [gl|] eqn:Hs; [|discriminate].
  injection H as <-.
  apply suffix_sound in Hs as (printer & rest & Hsplit & Hend & Hg & Hgs).
  assert (rest = []) as ->.
  { destruct rest as [|c [|c' rest]]; [reflexivity| |discriminate].
    simpl in Hend. apply Ascii.eqb_eq in Hend as ->.
    unfold all_chars in Hns. rewrite Hsplit in Hns.
    apply List.Forall_app in Hns as [_ Hns].
    apply List.Forall_inv_tail in Hns.
    apply List.Forall_app in Hns as [_ Hns].
    apply List.Forall_inv in Hns. discriminate. }
  rewrite app_nil_r in Hsplit.
  exists (string_of_list_ascii printer). split; [|split].
  - rewrite <- (string_of_list_ascii_of_string token), Hsplit.
    change ("-"%char :: gl) with (["-"%char] ++ gl).
    rewrite !string_of_list_ascii_app. reflexivity.
  - apply chars_nonempty_string. assumption.
  - apply all_chars_of_list. assumption.
Qed.

End JobSuffix.


Section Lines.
Import PyStr Wording.

Lemma split_on_go_last (sep : ascii) (cur line : chars) :
  contains_char sep line = false ->
  split_on_go sep cur line = [rev cur ++ line].
Proof.
  revert cur. induction line as [|c line IH]; intros cur Hno; simpl.
  - rewrite app_nil_r. reflexivity.
  - unfold contains_char in Hno. simpl in Hno.
    apply orb_false_elim in Hno as [Hc Hno].
    rewrite Ascii.eqb_sym, Hc. rewrite (IH (c :: cur) Hno). simpl.
    rewrite <- app_assoc. reflexivity.
Qed.

Lemma split_on_go_cut (sep : ascii) (cur line rest : chars) :
  contains_char sep line = false ->
  split_on_go sep cur (line ++ sep :: rest)
  = (rev cur ++ line) :: split_on_go sep [] rest.
Proof.
  revert cur. induction line as [|c line IH]; intros cur Hno; simpl.
  - rewrite Ascii.eqb_refl, app_nil_r. reflexivity.
  - unfold contains_char in Hno. simpl in Hno.
    apply orb_false_elim in Hno as [Hc Hno].
    rewrite Ascii.eqb_sym, Hc. rewrite (IH (c :: cur) Hno). simpl.
    rewrite <- app_assoc. reflexivity.
Qed.

(** [split] undoes [join]: cutting at the newlines gives back the
    lines. *)
Lemma split_on_concat (sep : ascii) (line : string) (lines : list string) :
  List.Forall (fun l => contains sep l = false) (line :: lines) ->
  split_on sep (String.concat (String sep "") (line :: lines))
  = line :: lines.
Proof.
  revert line. induction lines as [|l lines IH]; intros line Hall.
  - apply List.Forall_inv in Hall. unfold split_on, split_on_chars. simpl.
    rewrite split_on_go_last by exact Hall. simpl.
    rewrite string_of_list_ascii_of_string. reflexivity.
  - pose proof (List.Forall_inv Hall) as Hline.
    pose proof (List.Forall_inv_tail Hall) as Hrest.
    specialize (IH l Hrest).
    unfold split_on, split_on_chars in *.
    change (String.concat (String sep "") (line :: l :: lines))
      with (line +:+ String sep "" +:+ String.concat (String sep "") (l :: lines)).
    rewrite !list_ascii_of_string_app.
    change (list_ascii_of_string (String sep "") ++
            list_ascii_of_string (String.concat (String sep "") (l :: lines)))
      with (sep :: list_ascii_of_string
                     (String.concat (String sep "") (l :: lines))).
    rewrite split_on_go_cut by exact Hline.
    cbn [map rev app]. rewrite string_of_list_ascii_of_string, IH.
    reflexivity.
Qed.

End Lines.

(** C9. [get_print_queue] is best effort. Whenever [lpstat -o] does not
    exit with 0 (a timeout, a missing binary, any other exception, a
    non-zero code), the queue is empty. Otherwise the queue holds, in
    order, what each line of the trimmed output contributes: nothing for a
    line with fewer than 5 blank-separated fields, and for any other line
    one entry whose job id is the digits after the last dash of the
    first field when that field ends in "-<digits>" (the field itself
    when it does not). *)
Theorem get_print_queue_best_effort (env : Subprocess.oracle)
    (l : Subprocess.log) :
  let result := env (length l) ["lpstat"%string; "-o"%string] in
  let queue := fst (cups_helper.get_print_queue env l) in
  (Wording.exit_ok result = false -> queue = [])
  /\ (forall stdout stderr line lines,
        result = Subprocess.Completed 0 stdout stderr ->
        PyStr.strip stdout = String.concat (String "010" "") (line :: lines) ->
        List.Forall (fun x => PyStr.contains "010" x = false) (line :: lines) ->
        queue = flat_map cups_helper.queue_entry (line :: lines))
  /\ (forall line,
        (length (PyStr.split_ws line) < 5)%nat ->
        cups_helper.queue_entry line = [])
  /\ (forall line token fields,
        PyStr.split_ws line = token :: fields ->
        (5 <= length (token :: fields))%nat ->
        exists job,
          cups_helper.queue_entry line = [job]
          /\ cups_helper.full_id job = token
          /\ (forall digits, Wording.has_job_suffix token digits ->
                             cups_helper.job_id job = digits)
          /\ ((forall digits, ~ Wording.has_job_suffix token digits) ->
              cups_helper.job_id job = token)).
Proof.
  intros result queue. split; [|split; [|split]].
  - subst queue result. unfold cups_helper.get_print_queue, Subprocess.run.
    cbn [fst]. intros Hfail.
    destruct (env (length l) ["lpstat"%string; "-o"%string])
      as [rc out err| | |]; try reflexivity.
    simpl in Hfail. simpl. rewrite Hfail. reflexivity.
  - intros stdout stderr line lines Hres Hstrip Hall.
    subst queue. unfold cups_helper.get_print_queue, Subprocess.run.
    cbn [fst]. fold result. rewrite Hres. cbn [cups_helper.queue_result].
    rewrite Hstrip, split_on_concat by exact Hall.
    change (0 =? 0) with true. cbn [andb].
    destruct (String.eqb_spec
                (String.concat (String "010" "") (line :: lines)) "")
      as [Hempty|_]; [|reflexivity].
    cbn [negb]. destruct lines as [|l2 lines].
    + simpl in Hempty. subst line. reflexivity.
    + exfalso.
      change (String.concat (String "010" "") (line :: l2 :: lines))
        with (line +:+ String "010" ""
              +:+ String.concat (String "010" "") (l2 :: lines)) in Hempty.
      apply (f_equal list_ascii_of_string) in Hempty.
      rewrite !list_ascii_of_string_app in Hempty.
      destruct (list_ascii_of_string line); discriminate Hempty.
  - intros line Hlen. unfold cups_helper.queue_entry.
    destruct (Nat.leb_spec 5 (length (PyStr.split_ws line)));
      [lia|reflexivity].
  - intros line token fields Hsplit Hlen. unfold cups_helper.queue_entry.
    rewrite Hsplit.
    destruct (Nat.leb_spec 5 (length (token :: fields))); [|lia].
    destruct fields as [|p1 [|p2 fields]]; simpl in Hlen; try lia.
    eexists. split; [reflexivity|]. split; [reflexivity|].
    cbn [cups_helper.job_id]. split.
    + intros digits Hd. rewrite (job_suffix_found _ _ Hd). reflexivity.
    + intros Hnone.
      destruct (PyStr.search_group1 cups_helper.job_suffix_pattern token)
        as [g|] eqn:Hs; [|reflexivity].
      exfalso. apply (Hnone g). apply job_suffix_sound; [|assumption].
      apply (split_ws_token line token (p1 :: p2 :: fields) Hsplit).
Qed.

Section StoreUpdates.
Import db_helper.

Lemma update_where_nth (jid : string) (f : PrintJob -> PrintJob) (s : Store)
    (i : nat) :
  nth_error (rows (update_where_job_id jid f s)) i
  = option_map (fun r => if String.eqb (job_id r) jid then f r else r)
               (nth_error (rows s) i).
Proof. unfold update_where_job_id. simpl. apply nth_error_map. Qed.

Lemma update_where_no_match (jid : string) (f : PrintJob -> PrintJob)
    (s : Store) :
  (forall r, In r (rows s) -> job_id r <> jid) ->
  update_where_job_id jid f s = s.
Proof.
  intros Hno. destruct s as [rs seq]. unfold update_where_job_id. simpl in *.
  f_equal. induction rs as [|r rs IH]; simpl; [reflexivity|].
  destruct (String.eqb_spec (job_id r) jid) as [He|_].
  - exfalso. apply (Hno r); [left; reflexivity|assumption].
  - f_equal. apply IH. intros r' Hr'. apply Hno. right. assumption.
Qed.

End StoreUpdates.

(** C8. [update_job_status] rewrites a row in place. In a row whose
    [job_id] is the one given, status "completed" sets the status and
    stamps [completed_at], leaving [error_message] as it was; any other
    status sets status and [error_message] together, leaving
    [completed_at] as it was. Nothing else in the row changes, and a row
    with another [job_id] does not change at all. *)
Theorem update_job_status_fields (now : Z) (jid new_status : string)
    (msg : option string) (s : db_helper.Store) (i : nat)
    (r : db_helper.PrintJob) :
  nth_error (db_helper.rows s) i = Some r ->
  exists r',
    nth_error (db_helper.rows
                 (db_helper.update_job_status now jid new_status msg s)) i
    = Some r'
    /\ db_helper.id r' = db_helper.id r
    /\ db_helper.job_id r' = db_helper.job_id r
    /\ db_helper.filename r' = db_helper.filename r
    /\ db_helper.original_filename r' = db_helper.original_filename r
    /\ db_helper.filepath r' = db_helper.filepath r
    /\ db_helper.file_size_mb r' = db_helper.file_size_mb r
    /\ db_helper.copies r' = db_helper.copies r
    /\ db_helper.duplex r' = db_helper.duplex r
    /\ db_helper.submitted_at r' = db_helper.submitted_at r
    /\ (db_helper.job_id r = jid -> new_status = "completed"%string ->
        db_helper.status r' = "completed"%string
        /\ db_helper.completed_at r' = Some now
        /\ db_helper.error_message r' = db_helper.error_message r)
    /\ (db_helper.job_id r = jid -> new_status <> "completed"%string ->
        db_helper.status r' = new_status
        /\ db_helper.error_message r' = msg
        /\ db_helper.completed_at r' = db_helper.completed_at r)
    /\ (db_helper.job_id r <> jid -> r' = r).
Proof.
  intros Hr. unfold db_helper.update_job_status.
  destruct (String.eqb_spec new_status "completed") as [Hc|Hc];
    rewrite update_where_nth, Hr; cbn [option_map];
    (destruct (String.eqb_spec (db_helper.job_id r) jid) as [Hj|Hj];
     eexists; (split; [reflexivity|]); cbn;
     repeat split; intros; try reflexivity; try congruence).
Qed.

(** C10. [update_job_status] touches the rows whose [job_id] is the one
    given, all of them, and no other: each such row gets the new status,
    every other row stays as it is, no row is added or removed, and with
    no matching row the store is left as it was. The update has no
    failure outcome. *)
Theorem update_job_status_scope (now : Z) (jid new_status : string)
    (msg : option string) (s : db_helper.Store) :
  let s' := db_helper.update_job_status now jid new_status msg s in
  length (db_helper.rows s') = length (db_helper.rows s)
  /\ db_helper.sqlite_sequence s' = db_helper.sqlite_sequence s
  /\ (forall i r, nth_error (db_helper.rows s) i = Some r ->
                  db_helper.job_id r = jid ->
                  exists r', nth_error (db_helper.rows s') i = Some r'
                             /\ db_helper.status r' = new_status
                             /\ db_helper.id r' = db_helper.id r
                             /\ db_helper.job_id r' = jid)
  /\ (forall i r, nth_error (db_helper.rows s) i = Some r ->
                  db_helper.job_id r <> jid ->
                  nth_error (db_helper.rows s') i = Some r)
  /\ ((forall r, In r (db_helper.rows s) -> db_helper.job_id r <> jid) ->
      s' = s).
Proof.
  intros s'. subst s'. unfold db_helper.update_job_status.
  destruct (String.eqb new_status "completed") eqn:Hc.
  - apply String.eqb_eq in Hc.
    split; [apply length_map|]. split; [reflexivity|].
    split; [|split].
    + intros i r Hr Hj. rewrite update_where_nth, Hr. cbn [option_map].
      apply String.eqb_eq in Hj as Hj'. rewrite Hj'.
      eexists. split; [reflexivity|]. cbn. auto.
    + intros i r Hr Hj. rewrite update_where_nth, Hr. cbn [option_map].
      apply String.eqb_neq in Hj. rewrite Hj. reflexivity.
    + apply update_where_no_match.
  - split; [apply length_map|]. split; [reflexivity|].
    split; [|split].
    + intros i r Hr Hj. rewrite update_where_nth, Hr. cbn [option_map].
      apply String.eqb_eq in Hj as Hj'. rewrite Hj'.
      eexists. split; [reflexivity|]. cbn. auto.
    + intros i r Hr Hj. rewrite update_where_nth, Hr. cbn [option_map].
      apply String.eqb_neq in Hj. rewrite Hj. reflexivity.
    + apply update_where_no_match.
Qed.

(** C3. The cancel flow runs one [cancel] command. When it exits with 0
    the store becomes what [update_job_status job_id 'cancelled'] makes of
    it, so every row with that job id reads "cancelled", and the answer is
    200. When it does not (a spooler rejection, a timeout, a missing
    binary, any other exception) the store and the disk are what they
    were and the answer is 400 with the failure text. So the store changes
    only after a successful spooler cancel. *)
Theorem cancel_job_only_on_success (E : app.Env) (job_id : string)
    (w : app.World) :
  let result :=
    app.subprocess E (length (app.spawned w)) ["cancel"%string; job_id] in
  let resp := fst (app.cancel_job E job_id w) in
  let w' := snd (app.cancel_job E job_id w) in
  app.spawned w' = app.spawned w ++ [["cancel"%string; job_id]]
  /\ (Wording.exit_ok result = true ->
      app.db w' = db_helper.update_job_status
                    (app.CURRENT_TIMESTAMP E (app.ticks w)) job_id
                    "cancelled" None (app.db w)
      /\ (forall r, In r (db_helper.rows (app.db w')) ->
                    db_helper.job_id r = job_id ->
                    db_helper.status r = "cancelled"%string)
      /\ snd resp = 200)
  /\ (Wording.exit_ok result = false ->
      app.db w' = app.db w /\ app.disk w' = app.disk w
      /\ resp = (app.Error (snd (cups_helper.cancel_result job_id result)),
                 400))
  /\ (app.db w' <> app.db w -> Wording.exit_ok result = true).
Proof.
  intros result resp w'.
  assert (Hrun : app.cancel_job E job_id w =
    let r := cups_helper.cancel_result job_id result in
    let w1 := app.set_spawned
                (app.spawned w ++ [["cancel"%string; job_id]]) w in
    if fst r
    then ((app.Message (snd r), 200),
          app.tick (app.set_db
            (db_helper.update_job_status
               (app.CURRENT_TIMESTAMP E (app.ticks w1)) job_id
               "cancelled" None (app.db w1)) w1))
    else ((app.Error (snd r), 400), w1)).
  { unfold app.cancel_job, cups_helper.cancel_print_job, Subprocess.run.
    fold result. cbv zeta.
    destruct (cups_helper.cancel_result job_id result) as [ok m].
    reflexivity. }
  assert (Hok : fst (cups_helper.cancel_result job_id result)
                = Wording.exit_ok result).
  { destruct result as [rc out err| | |]; simpl; try reflexivity.
    destruct (rc =? 0); reflexivity. }
  subst resp w'. rewrite Hrun. cbv zeta. rewrite Hok.
  destruct (Wording.exit_ok result) eqn:Hexit; cbn.
  - split; [reflexivity|]. split; [|split].
    + intros _. split; [reflexivity|]. split; [|reflexivity].
      intros r Hin Hj. unfold db_helper.update_job_status in Hin.
      simpl in Hin. apply in_map_iff in Hin as (r0 & <- & _).
      destruct (String.eqb_spec (db_helper.job_id r0) job_id) as [|Hne];
        [reflexivity|].
      destruct (String.eqb_spec (db_helper.job_id r0) job_id);
        [contradiction|]. contradiction.
    + discriminate.
    + reflexivity.
  - split; [reflexivity|]. split; [discriminate|].
    split; [intros _; repeat split|].
    intros Hne. contradiction.
Qed.

Section Reprint.
Import db_helper.

Lemma rowid_bound (rs : list PrintJob) (r : PrintJob) :
  In r rs -> id r <= fold_right Z.max 0 (map id rs).
Proof.
  induction rs as [|x rs IH]; simpl; [intros []|].
  intros [->|Hin]; [lia|]. specialize (IH Hin). lia.
Qed.

Lemma next_rowid_fresh (s : Store) (r : PrintJob) :
  In r (rows s) -> next_rowid s <> id r.
Proof.
  intros Hin. unfold next_rowid. pose proof (rowid_bound _ _ Hin). lia.
Qed.

Lemma submit_result_ok (result : Subprocess.outcome) :
  fst (cups_helper.submit_result result) = Wording.exit_ok result.
Proof.
  destruct result as [rc out err| | |]; simpl; try reflexivity.
  destruct (rc =? 0); [|reflexivity].
  destruct (PyStr.search_group1 _ _); reflexivity.
Qed.

End Reprint.

(** C2 (amended). Reprinting the row that the lookup by job id returns,
    while its file is on disk, runs one [lp] command built from that
    row's file path, copies and duplex. Every row of the store stays where
    and what it was. When the spooler accepts, one row is appended: its
    record id differs from that of every row already there, its job id
    is the one the spooler returned, and file name, original name, path,
    size, copies and duplex are copied from the old row. When the
    spooler does not accept, the store is unchanged and the answer
    is 400. *)
Theorem reprint_job_new_record (E : app.Env) (job_id : string)
    (w : app.World) (job : db_helper.PrintJob) :
  db_helper.get_job_by_id job_id (app.db w) = Some job ->
  app.os_path_exists (db_helper.filepath job) w = true ->
  let cmd := cups_helper.lp_command (db_helper.filepath job)
               (db_helper.copies job) (db_helper.duplex job) in
  let result := app.subprocess E (length (app.spawned w)) cmd in
  let resp := fst (app.reprint_job E job_id w) in
  let w' := snd (app.reprint_job E job_id w) in
  app.spawned w' = app.spawned w ++ [cmd]
  /\ app.disk w' = app.disk w
  /\ (forall i r, nth_error (db_helper.rows (app.db w)) i = Some r ->
                  nth_error (db_helper.rows (app.db w')) i = Some r)
  /\ (Wording.exit_ok result = true ->
      exists new,
        db_helper.rows (app.db w') = db_helper.rows (app.db w) ++ [new]
        /\ (forall r, In r (db_helper.rows (app.db w)) ->
                      db_helper.id new <> db_helper.id r)
        /\ db_helper.job_id new = snd (cups_helper.submit_result result)
        /\ db_helper.filename new = db_helper.filename job
        /\ db_helper.original_filename new = db_helper.original_filename job
        /\ db_helper.filepath new = db_helper.filepath job
        /\ db_helper.file_size_mb new = db_helper.file_size_mb job
        /\ db_helper.copies new = db_helper.copies job
        /\ db_helper.duplex new = db_helper.duplex job
        /\ db_helper.status new = "pending"%string
        /\ snd resp = 200)
  /\ (Wording.exit_ok result = false ->
      app.db w' = app.db w
      /\ resp = (app.Error (snd (cups_helper.submit_result result)), 400)).
Proof.
  intros Hjob Hfile cmd result resp w'.
  assert (Hrun : app.reprint_job E job_id w =
    let r := cups_helper.submit_result result in
    let w1 := app.set_spawned (app.spawned w ++ [cmd]) w in
    if fst r
    then ((app.Submitted (snd r)
             ("Reprint submitted (Job ID: " +:+ snd r +:+ ")"), 200),
          app.tick (app.set_db
            (snd (db_helper.add_print_job
                    (app.CURRENT_TIMESTAMP E (app.ticks w1)) (snd r)
                    (db_helper.filename job)
                    (db_helper.original_filename job)
                    (db_helper.filepath job) (db_helper.file_size_mb job)
                    (db_helper.copies job) (db_helper.duplex job)
                    (app.db w1))) w1))
    else ((app.Error (snd r), 400), w1)).
  { unfold app.reprint_job. rewrite Hjob, Hfile. cbn [negb].
    unfold cups_helper.submit_print_job, Subprocess.run.
    fold cmd. fold result. cbv zeta.
    destruct (cups_helper.submit_result result) as [ok m].
    destruct ok; reflexivity. }
  subst resp w'. rewrite Hrun. cbv zeta. rewrite submit_result_ok.
  destruct (Wording.exit_ok result) eqn:Hexit; cbn.
  - split; [reflexivity|]. split; [reflexivity|]. split; [|split].
    + intros i r Hr. rewrite nth_error_app1; [assumption|].
      apply nth_error_Some. congruence.
    + intros _. eexists. split; [reflexivity|]. cbn.
      split; [|repeat split].
      intros r Hin. apply next_rowid_fresh. assumption.
    + discriminate.
  - split; [reflexivity|]. split; [reflexivity|].
    split; [auto|]. split; [discriminate|]. auto.
Qed.

(** C2, as stated, fails when the spooler turns the resubmission down:
    the row is there, its file is on disk, and yet no row is added. *)
Lemma reprint_rejected_adds_no_record :
  let E := Samples.env_with Samples.spooler_rejects in
  let w := Samples.one_job_world in
  db_helper.get_job_by_id "42" (app.db w) = Some Samples.report_job
  /\ app.os_path_exists (db_helper.filepath Samples.report_job) w = true
  /\ app.db (snd (app.reprint_job E "42" w)) = app.db w
  /\ snd (fst (app.reprint_job E "42" w)) = 400
  /\ ~ (exists new,
          db_helper.rows (app.db (snd (app.reprint_job E "42" w)))
          = db_helper.rows (app.db w) ++ [new]).
Proof.
  assert (H : app.reprint_job (Samples.env_with Samples.spooler_rejects) "42"
                Samples.one_job_world
              = ((app.Error "lp: Error - no default destination available.",
                  400),
                 app.set_spawned
                   [cups_helper.lp_command Samples.report_path 2 true]
                   Samples.one_job_world)) by (vm_compute; reflexivity).
  cbv zeta. rewrite H. cbn.
  split; [reflexivity|]. split; [vm_compute; reflexivity|].
  split; [reflexivity|]. split; [reflexivity|].
  intros [new Hnew]. discriminate Hnew.
Qed.

(** C4 (amended). An upload whose copies value [int] reads as a number
    below 1 or above 10 is turned down before anything happens: the disk
    and the store are what they were, and the only command run is the
    availability probe [lpstat -r], never [lp]. The answer is 503 when
    the probe fails; when it succeeds the answer is 413 for a body above
    the size limit and 400 otherwise. *)
Theorem upload_copies_out_of_range (E : app.Env) (req : app.Request)
    (w : app.World) (copies : Z) :
  app.copies_of req = Some copies ->
  copies < 1 \/ 10 < copies ->
  let probe :=
    app.subprocess E (length (app.spawned w)) ["lpstat"%string; "-r"%string] in
  let resp := fst (app.upload_files E req w) in
  let w' := snd (app.upload_files E req w) in
  app.disk w' = app.disk w
  /\ app.db w' = app.db w
  /\ app.spawned w' = app.spawned w ++ [["lpstat"%string; "-r"%string]]
  /\ (exists msg, fst resp = app.Error msg)
  /\ (Wording.exit_ok probe = true -> app.entity_too_large req = false ->
      snd resp = 400)
  /\ (Wording.exit_ok probe = true -> app.entity_too_large req = true ->
      snd resp = 413)
  /\ (Wording.exit_ok probe = false -> snd resp = 503).
Proof.
  intros Hcopies Hrange probe resp w'. subst resp w'.
  unfold app.upload_files, cups_helper.check_cups_available, Subprocess.run.
  fold probe. cbv zeta.
  change (match probe with
          | Subprocess.Completed returncode _ _ => returncode =? 0
          | _ => false
          end) with (Wording.exit_ok probe).
  destruct (Wording.exit_ok probe); cbn [negb].
  - destruct (app.entity_too_large req).
    { cbn. repeat split; eauto; discriminate. }
    destruct (app.files req) as [|f fs] eqn:Hfiles.
    + cbn. repeat split; eauto; discriminate.
    + destruct (forallb _ (f :: fs)).
      * cbn. repeat split; eauto; discriminate.
      * rewrite Hcopies.
        assert (Hbad : (copies <? 1) || (10 <? copies) = true).
        { apply orb_true_iff. rewrite !Z.ltb_lt. exact Hrange. }
        rewrite Hbad. cbn. repeat split; eauto; discriminate.
  - cbn. repeat split; eauto; discriminate.
Qed.

(** C4, as stated, fails while the spooler is unavailable: copies is 0
    and the answer is 503, not 400. It fails as well for a body above the
    size limit, which is answered 413. *)
Lemma upload_bad_copies_spooler_down :
  let E := Samples.env_with Samples.spooler_down in
  let req := Samples.upload_of "report.pdf" "%PDF-1.4" (Some "0"%string) in
  app.copies_of req = Some 0
  /\ snd (fst (app.upload_files E req Samples.one_job_world)) = 503
  /\ snd (fst (app.upload_files E req Samples.one_job_world)) <> 400
  /\ app.copies_of (Samples.oversized req) = Some 0
  /\ snd (fst (app.upload_files (Samples.env_with Samples.spooler_accepts)
                 (Samples.oversized req) Samples.one_job_world)) = 413.
Proof.
  split; [reflexivity|]. split; [vm_compute; reflexivity|].
  split; [vm_compute; discriminate|].
  split; [reflexivity|]. vm_compute. reflexivity.
Qed.

Section Validator.
Import PyStr.

Lemma lower_char_idem (c : ascii) : lower_char (lower_char c) = lower_char c.
Proof. destruct c as [[] [] [] [] [] [] [] []]; reflexivity. Qed.

Lemma lower_idem (s : string) : lower (lower s) = lower s.
Proof.
  unfold lower. rewrite list_ascii_of_string_of_list_ascii, map_map.
  f_equal. apply map_ext. intros c. apply lower_char_idem.
Qed.

Lemma mime_map_nonempty (ext m : string) :
  file_helper.mime_map !! ext = Some m -> m <> ""%string.
Proof.
  unfold file_helper.mime_map. intros H.
  repeat (apply lookup_insert_Some in H as [[_ <-]|[_ H]]; [discriminate|]).
  rewrite lookup_empty in H. discriminate.
Qed.

Lemma validate_true_iff (magic : string -> option string)
    (disk : gmap string string) (filepath ext : string) :
  file_helper.validate_file_content magic disk filepath ext = true <->
  exists bytes m,
    disk !! filepath = Some bytes /\ magic bytes = Some m
    /\ file_helper.mime_map !! lower ext = Some m.
Proof.
  unfold file_helper.validate_file_content. split.
  - destruct (disk !! filepath) as [bytes|] eqn:Hb; [|discriminate].
    destruct (magic bytes) as [fm|] eqn:Hm; [|discriminate].
    destruct (file_helper.mime_map !! lower ext) as [em|] eqn:He;
      [|discriminate].
    destruct (String.eqb em ""); [discriminate|].
    intros H. apply String.eqb_eq in H as ->.
    exists bytes, em. repeat split; assumption.
  - intros (bytes & m & -> & -> & Hm). rewrite Hm.
    apply mime_map_nonempty in Hm. apply String.eqb_neq in Hm.
    rewrite Hm. apply String.eqb_refl.
Qed.

End Validator.

(** ** The upload loop, turn by turn *)

Section UploadLoop.
Import app.

Lemma upload_loop_acc (E : Env) (copies : Z) (duplex : bool)
    (fs : list FileStorage) (w : World) (acc : list FileResult) :
  fold_left
    (fun (st : World * list FileResult) file =>
       let (w1, results) := st in
       let (w2, r) := process_file E copies duplex w1 file in
       (w2, results ++ r))
    fs (w, acc)
  = (fst (upload_loop E copies duplex w fs),
     acc ++ snd (upload_loop E copies duplex w fs)).
Proof.
  unfold upload_loop. revert w acc.
  induction fs as [|f fs IH]; intros w acc; simpl.
  - rewrite app_nil_r. reflexivity.
  - destruct (process_file E copies duplex w f) as [w2 r].
    rewrite (IH w2 (acc ++ r)), (IH w2 r). simpl.
    rewrite app_assoc. reflexivity.
Qed.

(** The loop over [pre ++ file :: post] is the loop over [pre], then the
    turn for [file] in the world that leaves, then the loop over [post]. *)
Lemma upload_loop_turn (E : Env) (copies : Z) (duplex : bool)
    (pre post : list FileStorage) (file : FileStorage) (w : World) :
  let before := upload_loop E copies duplex w pre in
  let turn := process_file E copies duplex (fst before) file in
  let after := upload_loop E copies duplex (fst turn) post in
  upload_loop E copies duplex w (pre ++ file :: post)
  = (fst after, snd before ++ snd turn ++ snd after).
Proof.
  intros before turn after. subst after turn before.
  unfold upload_loop at 1. rewrite fold_left_app.
  change (fold_left _ pre (w, [])) with (upload_loop E copies duplex w pre).
  destruct (upload_loop E copies duplex w pre) as [w1 r1].
  cbn [fold_left fst snd].
  destruct (process_file E copies duplex w1 file) as [w2 r2].
  rewrite upload_loop_acc. cbn [fst snd]. rewrite app_assoc. reflexivity.
Qed.

(** A request that passes the guards of the handler runs the loop over
    its files and answers 200 with what the turns reported. *)
Lemma upload_files_runs (E : Env) (req : Request) (w : World) (copies : Z) :
  Wording.exit_ok (subprocess E (length (spawned w)) ["lpstat"; "-r"]%string)
  = true ->
  entity_too_large req = false ->
  (exists f, In f (files req) /\ filename f <> ""%string) ->
  copies_of req = Some copies -> 1 <= copies <= 10 ->
  let w0 := set_spawned (spawned w ++ [["lpstat"; "-r"]%string]) w in
  let loop := upload_loop E copies (duplex_of req) w0 (files req) in
  upload_files E req w
  = ((UploadResults (existsb succeeded (snd loop)) (snd loop), 200),
     fst loop).
Proof.
  intros Hprobe Hlarge (f & Hf & Hname) Hcopies Hrange w0 loop.
  subst loop.
  unfold upload_files, cups_helper.check_cups_available, Subprocess.run.
  cbv zeta.
  change (match subprocess E (length (spawned w)) ["lpstat"; "-r"]%string with
          | Subprocess.Completed returncode _ _ => returncode =? 0
          | _ => false
          end)
    with (Wording.exit_ok
            (subprocess E (length (spawned w)) ["lpstat"; "-r"]%string)).
  rewrite Hprobe, Hlarge. cbn [negb]. fold w0.
  destruct (files req) as [|f0 fs] eqn:Hfiles; [destruct Hf|].
  assert (Hall : forallb (fun f => String.eqb (filename f) "") (f0 :: fs)
                 = false).
  { apply not_true_iff_false. intros Hall.
    rewrite forallb_forall in Hall. specialize (Hall f Hf).
    apply String.eqb_eq in Hall. contradiction. }
  rewrite Hall, Hcopies.
  assert (Hin : (copies <? 1) || (10 <? copies) = false)
    by (apply orb_false_intro; apply Z.ltb_ge; lia).
  rewrite Hin.
  destruct (upload_loop E copies (duplex_of req) w0 (f0 :: fs)).
  reflexivity.
Qed.

End UploadLoop.

(** C5. Take an upload that passes the guards of the handler, and one of
    its files that has a name and an allowed extension and was written.
    When what libmagic sniffs from its bytes is not the media type the
    table gives for its extension (a different type, or no verdict at
    all), the flow answers 200 with, between what the files before and
    after it brought, the error "File content does not match extension"
    for that file. The turn of the loop for it removes the file it wrote,
    leaving every other path alone, and runs no command: the spooler is
    not called for it and the store is as it was. The validator answers
    true exactly when the file is there, libmagic names a type, and that
    type is the table's entry for the lower-cased extension; so it
    answers false for an extension not in the table and whenever
    sniffing fails. *)
Theorem content_mismatch_removed (E : app.Env) (req : app.Request)
    (w : app.World) (copies : Z) (pre post : list app.FileStorage)
    (file : app.FileStorage) (ext : string) :
  Wording.exit_ok
    (app.subprocess E (length (app.spawned w)) ["lpstat"; "-r"]%string)
  = true ->
  app.entity_too_large req = false ->
  app.copies_of req = Some copies -> 1 <= copies <= 10 ->
  app.files req = pre ++ file :: post ->
  app.filename file <> ""%string ->
  file_helper.allowed_file (app.filename file) = true ->
  PyStr.rsplit1_tail "." (app.filename file) = Some ext ->
  let duplex := app.duplex_of req in
  let w0 := app.set_spawned
              (app.spawned w ++ [["lpstat"; "-r"]%string]) w in
  let before := app.upload_loop E copies duplex w0 pre in
  let filepath :=
    app.os_path_join (app.UPLOAD_FOLDER E)
      (file_helper.get_safe_filename (app.secure_filename E)
         (app.strftime_now E (app.ticks (fst before)))
         (app.filename file)) in
  app.save_error E (S (app.ticks (fst before))) filepath = None ->
  app.magic E (app.stream file) <> file_helper.mime_map !! PyStr.lower ext ->
  let turn := app.process_file E copies duplex (fst before) file in
  let after := app.upload_loop E copies duplex (fst turn) post in
  let mismatch :=
    app.Failed (app.filename file) "File content does not match extension" in
  (fst (app.upload_files E req w)
   = (app.UploadResults
        (existsb app.succeeded (snd before ++ mismatch :: snd after))
        (snd before ++ mismatch :: snd after), 200)
   /\ snd (app.upload_files E req w) = fst after
   /\ snd turn = [mismatch]
   /\ app.disk (fst turn) !! filepath = None
   /\ (forall p, p <> filepath ->
                 app.disk (fst turn) !! p = app.disk (fst before) !! p)
   /\ app.spawned (fst turn) = app.spawned (fst before)
   /\ app.db (fst turn) = app.db (fst before))
  /\ (forall magic disk path e,
        file_helper.validate_file_content magic disk path e = true <->
        exists bytes m,
          disk !! path = Some bytes /\ magic bytes = Some m
          /\ file_helper.mime_map !! PyStr.lower e = Some m)
  /\ (forall magic disk path e,
        file_helper.mime_map !! PyStr.lower e = None ->
        file_helper.validate_file_content magic disk path e = false)
  /\ (forall magic disk path e,
        (disk !! path = None
         \/ exists bytes, disk !! path = Some bytes /\ magic bytes = None) ->
        file_helper.validate_file_content magic disk path e = false).
Proof.
  intros Hprobe Hlarge Hcopies Hrange Hfiles Hname Hallowed Hext
    duplex w0 before filepath Hsave Hsniff turn after mismatch.
  split; [|split; [exact validate_true_iff|split]].
  - assert (Hturn : turn
                    = (app.os_remove filepath
                         (app.tick
                            (app.set_disk
                               (<[filepath := app.stream file]>
                                  (app.disk (fst before)))
                               (app.tick (fst before)))),
                       [mismatch])).
    { assert (Hinvalid :
        file_helper.validate_file_content (app.magic E)
          (<[filepath := app.stream file]> (app.disk (fst before))) filepath
          (PyStr.lower ext) = false).
      { destruct (file_helper.validate_file_content _ _ _ _) eqn:Hv;
          [|reflexivity].
        apply validate_true_iff in Hv as (bytes & m & Hb & Hm & Ht).
        rewrite lookup_insert_eq in Hb. injection Hb as <-.
        rewrite lower_idem in Ht. congruence. }
      subst turn. unfold app.process_file.
      pose proof Hname as Hname'. apply String.eqb_neq in Hname'.
      rewrite Hname', Hallowed. cbn [negb].
      cbv zeta. cbn [app.tick app.ticks]. fold filepath.
      rewrite Hsave, Hext.
      cbn [app.tick app.set_disk app.disk app.db app.spawned app.ticks].
      rewrite Hinvalid. reflexivity. }
    assert (Hflow : app.upload_files E req w
      = ((app.UploadResults
            (existsb app.succeeded
               (snd (app.upload_loop E copies duplex w0 (app.files req))))
            (snd (app.upload_loop E copies duplex w0 (app.files req))), 200),
         fst (app.upload_loop E copies duplex w0 (app.files req)))).
    { apply upload_files_runs; try assumption.
      exists file. split; [|exact Hname].
      rewrite Hfiles. apply in_or_app. right. left. reflexivity. }
    rewrite Hflow, Hfiles, upload_loop_turn.
    fold before. fold turn. fold after. cbn [fst snd].
    rewrite Hturn. cbn [fst snd app].
    split; [reflexivity|]. split; [reflexivity|]. split; [reflexivity|].
    cbn. split; [apply lookup_delete_eq|].
    split; [|split; reflexivity].
    intros p Hp. rewrite lookup_delete_ne, lookup_insert_ne by congruence.
    reflexivity.
  - intros magic disk path e Hnone.
    unfold file_helper.validate_file_content.
    destruct (disk !! path) as [bytes|]; [|reflexivity].
    destruct (magic bytes); [|reflexivity]. rewrite Hnone. reflexivity.
  - intros magic disk path e [Hnone|(bytes & Hb & Hm)];
      unfold file_helper.validate_file_content.
    + rewrite Hnone. reflexivity.
    + rewrite Hb, Hm. reflexivity.
Qed.

(** ** The flows on the samples *)

Example upload_report_pdf :
  app.upload_files (Samples.env_with Samples.spooler_accepts)
    (Samples.upload_of "report.pdf" "%PDF-1.4" (Some "2"%string))
    Samples.one_job_world
  = ((app.UploadResults true
        [app.Printed "report.pdf" "43" "Print job submitted (Job ID: 43)"],
      200),
     {| app.disk := {[ Samples.report_path := "%PDF-1.4"%string ]};
        app.db :=
          {| db_helper.rows :=
               [Samples.report_job;
                {| db_helper.id := 2; db_helper.job_id := "43";
                   db_helper.filename := "20251112_103000_report.pdf";
                   db_helper.original_filename := "report.pdf";
                   db_helper.filepath := Samples.report_path;
                   db_helper.file_size_mb := Qmake 8 1048576;
                   db_helper.copies := 2; db_helper.duplex := true;
                   db_helper.status := "pending";
                   db_helper.submitted_at := 21 * Samples.day;
                   db_helper.completed_at := None;
                   db_helper.error_message := None |}];
             db_helper.sqlite_sequence := 2 |};
        app.spawned :=
          [["lpstat"; "-r"];
           ["lp"; "-n"; "2"; "-o"; "sides=two-sided-long-edge";
            Samples.report_path]]%string;
        app.ticks := 3 |}).
Proof. vm_compute. reflexivity. Qed.

Example upload_text_named_pdf :
  fst (app.upload_files (Samples.env_with Samples.spooler_accepts)
         (Samples.upload_of "notes.pdf" "plain words" None)
         Samples.one_job_world)
  = (app.UploadResults false
       [app.Failed "notes.pdf" "File content does not match extension"],
     200).
Proof. vm_compute. reflexivity. Qed.

(** [int] on copies values: blanks around, a sign, digits grouped by
    single underscores; the separator FS is no blank for it. *)
Example int_of_str_samples :
  PyStr.int_of_str " 10 " = Some 10
  /\ PyStr.int_of_str "1_0" = Some 10
  /\ PyStr.int_of_str "+7" = Some 7
  /\ PyStr.int_of_str "-3" = Some (-3)
  /\ PyStr.int_of_str (String "160" "5") = Some 5
  /\ PyStr.int_of_str (String "028" "11") = None
  /\ PyStr.int_of_str "1__0" = None
  /\ PyStr.int_of_str "_1" = None
  /\ PyStr.int_of_str "1_" = None
  /\ PyStr.int_of_str "- 1" = None
  /\ PyStr.int_of_str "" = None
  /\ PyStr.int_of_str "2.0" = None.
Proof. repeat split; reflexivity. Qed.

Example upload_copies_grouped :
  snd (fst (app.upload_files (Samples.env_with Samples.spooler_accepts)
              (Samples.upload_of "report.pdf" "%PDF-1.4"
                 (Some "1_0"%string))
              Samples.one_job_world)) = 200.
Proof. vm_compute. reflexivity. Qed.

Example upload_copies_not_a_number :
  app.upload_files (Samples.env_with Samples.spooler_accepts)
    (Samples.upload_of "report.pdf" "%PDF-1.4"
       (Some (String "028" "5")))
    Samples.one_job_world
  = ((app.Unhandled, 500),
     app.set_spawned [["lpstat"; "-r"]%string] Samples.one_job_world).
Proof. vm_compute. reflexivity. Qed.

Example queue_of_sample_lpstat :
  fst (cups_helper.get_print_queue Samples.spooler_busy [])
  = [ {| cups_helper.job_id := "7"; cups_helper.user := "pi";
         cups_helper.size := "1024"; cups_helper.status := "pending";
         cups_helper.full_id := "HP_LaserJet-7" |} ].
Proof. vm_compute. reflexivity. Qed.

Example request_id_takes_last_dash :
  PyStr.search_group1 cups_helper.request_id_pattern
    "request id is Office-Printer-2-118 (1 file(s))"
  = Some "118"%string.
Proof. vm_compute. reflexivity. Qed.

(** ** The theorems at work on the samples *)

Lemma delete_old_records_exact_witness :
  let s := Samples.three_job_store in
  let s' := snd (db_helper.delete_old_records (10 * Samples.day) 7 s) in
  In (Samples.job_at 2 "42" (3 * Samples.day)) (db_helper.rows s')
  /\ ~ In (Samples.job_at 1 "41" (3 * Samples.day - 1)) (db_helper.rows s')
  /\ fst (db_helper.delete_old_records (10 * Samples.day) 7 s) = Some 1
  /\ db_helper.delete_old_records (10 * Samples.day) 11 s = (None, s).
Proof.
  destruct (delete_old_records_exact (10 * Samples.day) 7
              Samples.three_job_store) as (Hswept & _).
  destruct (Hswept (3 * Samples.day) eq_refl)
    as (_ & _ & _ & Hgone & Hat & Hcount & _).
  split; [apply Hat; [simpl; auto|reflexivity]|].
  split; [apply Hgone; [simpl; auto|reflexivity]|].
  split; [rewrite Hcount; reflexivity|].
  destruct (delete_old_records_exact (10 * Samples.day) 11
              Samples.three_job_store) as (_ & _ & Hraises).
  apply Hraises. reflexivity.
Defined.

Lemma reprint_job_new_record_witness :
  let E := Samples.env_with Samples.spooler_accepts in
  let w := Samples.one_job_world in
  db_helper.get_job_by_id "42" (app.db w) = Some Samples.report_job
  /\ app.os_path_exists (db_helper.filepath Samples.report_job) w = true
  /\ exists new,
       db_helper.rows (app.db (snd (app.reprint_job E "42" w)))
       = [Samples.report_job; new]
       /\ db_helper.id new <> 1
       /\ db_helper.job_id new = "43"%string
       /\ db_helper.filepath new = Samples.report_path
       /\ db_helper.copies new = 2
       /\ db_helper.duplex new = true.
Proof.
  intros E w.
  assert (Hjob : db_helper.get_job_by_id "42" (app.db w)
                 = Some Samples.report_job) by reflexivity.
  assert (Hfile : app.os_path_exists
                    (db_helper.filepath Samples.report_job) w = true)
    by (vm_compute; reflexivity).
  split; [exact Hjob|]. split; [exact Hfile|].
  destruct (reprint_job_new_record E "42" w Samples.report_job Hjob Hfile)
    as (_ & _ & _ & Hok & _).
  destruct Hok
    as (new & Hrows & Hfresh & Hjid & _ & _ & Hpath & _ & Hcopies & Hduplex & _);
    [vm_compute; reflexivity|].
  exists new. split; [exact Hrows|].
  split; [apply (Hfresh Samples.report_job); simpl; auto|].
  split; [rewrite Hjid; vm_compute; reflexivity|].
  split; [exact Hpath|]. split; [exact Hcopies|exact Hduplex].
Defined.

Lemma cancel_job_only_on_success_witness :
  let E := Samples.env_with Samples.spooler_rejects in
  let w := Samples.one_job_world in
  app.db (snd (app.cancel_job E "42" w)) = app.db w
  /\ fst (app.cancel_job E "42" w)
     = (app.Error "cancel: cancel-job failed: Job does not exist.", 400).
Proof.
  intros E w.
  destruct (cancel_job_only_on_success E "42" w) as (_ & _ & Hrej & _).
  destruct Hrej as (Hdb & _ & Hresp); [vm_compute; reflexivity|].
  split; [exact Hdb|]. rewrite Hresp. vm_compute. reflexivity.
Defined.

Lemma upload_copies_out_of_range_witness :
  let E := Samples.env_with Samples.spooler_accepts in
  let req := Samples.upload_of "report.pdf" "%PDF-1.4" (Some " 1_1"%string) in
  let w := Samples.one_job_world in
  app.copies_of req = Some 11
  /\ app.disk (snd (app.upload_files E req w)) = app.disk w
  /\ app.spawned (snd (app.upload_files E req w))
     = [["lpstat"%string; "-r"%string]]
  /\ snd (fst (app.upload_files E req w)) = 400.
Proof.
  intros E req w.
  assert (Hcopies : app.copies_of req = Some 11) by reflexivity.
  split; [exact Hcopies|].
  destruct (upload_copies_out_of_range E req w 11 Hcopies
              ltac:(right; reflexivity))
    as (Hdisk & _ & Hspawned & _ & Hup & _).
  split; [exact Hdisk|]. split; [exact Hspawned|].
  apply Hup; [vm_compute; reflexivity|reflexivity].
Defined.

Lemma content_mismatch_removed_witness :
  let E := Samples.env_with Samples.spooler_accepts in
  let w := Samples.one_job_world in
  let req := Samples.upload_of "notes.pdf" "plain words" None in
  fst (app.upload_files E req w)
  = (app.UploadResults false
       [app.Failed "notes.pdf" "File content does not match extension"],
     200)
  /\ app.disk (snd (app.upload_files E req w))
       !! "/srv/piserver/print/20251112_103000_notes.pdf"%string = None
  /\ app.spawned (snd (app.upload_files E req w))
     = [["lpstat"; "-r"]%string].
Proof.
  intros E w req.
  destruct (content_mismatch_removed E req w 1 [] []
              {| app.filename := "notes.pdf"; app.stream := "plain words" |}
              "pdf")
    as ((Hres & Hworld & _ & Hgone & _ & Hspawned & _) & _).
  - vm_compute. reflexivity.
  - reflexivity.
  - reflexivity.
  - lia.
  - reflexivity.
  - discriminate.
  - vm_compute. reflexivity.
  - vm_compute. reflexivity.
  - reflexivity.
  - vm_compute. discriminate.
  - split; [rewrite Hres; reflexivity|].
    rewrite Hworld. split; [exact Hgone|exact Hspawned].
Defined.

Lemma submit_command_options_witness :
  cups_helper.lp_command Samples.report_path 2 true
  = ["lp"; "-n"; "2"; "-o"; "sides=two-sided-long-edge";
     Samples.report_path]%string
  /\ cups_helper.lp_command Samples.report_path 1 false
     = ["lp"; "-o"; "sides=one-sided"; Samples.report_path]%string.
Proof.
  split.
  - destruct (submit_command_options Samples.spooler_accepts
                Samples.report_path 2 true [])
      as (_ & opts & Hcmd & _ & Hmany & _).
    rewrite Hcmd, (Hmany ltac:(reflexivity)). reflexivity.
  - destruct (submit_command_options Samples.spooler_accepts
                Samples.report_path 1 false [])
      as (_ & opts & Hcmd & _ & _ & Hone & _).
    rewrite Hcmd, (Hone ltac:(discriminate)). reflexivity.
Defined.

Lemma submit_result_cases_witness :
  fst (cups_helper.submit_print_job Samples.spooler_accepts
         Samples.report_path 2 true [])
  = (true, "43"%string)
  /\ fst (cups_helper.submit_print_job Samples.spooler_rejects
            Samples.report_path 2 true [])
     = (false, "lp: Error - no default destination available."%string)
  /\ fst (cups_helper.submit_print_job Samples.spooler_says_timed_out
            Samples.report_path 2 true [])
     = (false, "Print command timed out"%string).
Proof.
  split; [|split].
  - destruct (submit_result_cases Samples.spooler_accepts
                Samples.report_path 2 true []) as (Hok & _).
    destruct (Hok Samples.lp_confirmation ""%string eq_refl)
      as (_ & _ & Hexact).
    apply (Hexact "HP_LaserJet" "43"
             (" (1 file(s))" +:+ String "010" ""))%string.
    + reflexivity.
    + discriminate.
    + repeat constructor.
    + discriminate.
    + repeat constructor.
    + reflexivity.
  - destruct (submit_result_cases Samples.spooler_rejects
                Samples.report_path 2 true []) as (_ & Hrej & _).
    destruct (Hrej 1 ""%string
                "lp: Error - no default destination available."%string
                eq_refl ltac:(discriminate)) as (Htext & _).
    apply Htext. vm_compute. discriminate.
  - destruct (submit_result_cases Samples.spooler_says_timed_out
                Samples.report_path 2 true []) as (_ & Hrej & _).
    destruct (Hrej 1 ""%string "Print command timed out"%string
                eq_refl ltac:(discriminate)) as (_ & _ & Hsame & _).
    apply Hsame. reflexivity.
Defined.

Lemma update_job_status_fields_witness :
  exists r',
    nth_error (db_helper.rows
                 (db_helper.update_job_status (21 * Samples.day) "42"
                    "completed" (Some "ignored"%string)
                    Samples.one_job_store)) 0 = Some r'
    /\ db_helper.status r' = "completed"%string
    /\ db_helper.completed_at r' = Some (21 * Samples.day)
    /\ db_helper.error_message r' = None
    /\ db_helper.copies r' = 2.
Proof.
  destruct (update_job_status_fields (21 * Samples.day) "42" "completed"
              (Some "ignored"%string) Samples.one_job_store 0
              Samples.report_job eq_refl)
    as (r' & Hnth & _ & _ & _ & _ & _ & _ & Hcopies & _ & _ & Hdone & _).
  destruct (Hdone eq_refl eq_refl) as (Hstatus & Hstamp & Herr).
  exists r'. split; [exact Hnth|]. split; [exact Hstatus|].
  split; [exact Hstamp|]. split; [exact Herr|exact Hcopies].
Defined.

Lemma get_print_queue_best_effort_witness :
  fst (cups_helper.get_print_queue Samples.spooler_down []) = []
  /\ cups_helper.queue_entry "garbled line" = []
  /\ exists job,
       cups_helper.queue_entry
         "HP_LaserJet-7 pi 1024 Wed Nov 12 10:30:00 2025" = [job]
       /\ cups_helper.job_id job = "7"%string.
Proof.
  destruct (get_print_queue_best_effort Samples.spooler_down [])
    as (Hfail & _ & Hshort & Hfull).
  split; [apply Hfail; reflexivity|].
  split; [apply Hshort; vm_compute; lia|].
  destruct (Hfull "HP_LaserJet-7 pi 1024 Wed Nov 12 10:30:00 2025"%string
              "HP_LaserJet-7"%string
              ["pi"; "1024"; "Wed"; "Nov"; "12"; "10:30:00"; "2025"]%string)
    as (job & Hentry & _ & Hid & _).
  - vm_compute. reflexivity.
  - simpl. lia.
  - exists job. split; [exact Hentry|]. apply Hid.
    exists "HP_LaserJet"%string. split; [reflexivity|].
    split; [discriminate|repeat constructor].
Defined.

Lemma update_job_status_scope_witness :
  let s' := db_helper.update_job_status 0 "42" "failed"
              (Some "printer jam"%string) Samples.three_job_store in
  nth_error (db_helper.rows s') 0
  = Some (Samples.job_at 1 "41" (3 * Samples.day - 1))
  /\ (exists r', nth_error (db_helper.rows s') 1 = Some r'
                 /\ db_helper.status r' = "failed"%string)
  /\ (exists r', nth_error (db_helper.rows s') 2 = Some r'
                 /\ db_helper.status r' = "failed"%string)
  /\ db_helper.update_job_status 0 "99" "failed" None Samples.three_job_store
     = Samples.three_job_store.
Proof.
  destruct (update_job_status_scope 0 "42" "failed"
              (Some "printer jam"%string) Samples.three_job_store)
    as (_ & _ & Hhit & Hmiss & _).
  split; [apply Hmiss; [reflexivity|discriminate]|].
  split.
  { destruct (Hhit 1%nat (Samples.job_at 2 "42" (3 * Samples.day))
                eq_refl eq_refl) as (r' & Hnth & Hstatus & _).
    exists r'. split; assumption. }
  split.
  { destruct (Hhit 2%nat (Samples.job_at 3 "42" (3 * Samples.day + 1))
                eq_refl eq_refl) as (r' & Hnth & Hstatus & _).
    exists r'. split; assumption. }
  destruct (update_job_status_scope 0 "99" "failed" None
              Samples.three_job_store) as (_ & _ & _ & _ & Hnone).
  apply Hnone. simpl. intros r [<-|[<-|[<-|[]]]]; discriminate.
Defined.

(** * Further properties of the helpers and the flows *)

(** ** The job store: insert, look up, update, sweep *)

Section StoreMore.
Import db_helper db_queries.

Lemma find_app_none {A} (p : A -> bool) (l1 l2 : list A) :
  find p l1 = None -> find p (l1 ++ l2) = find p l2.
Proof.
  induction l1 as [|x l1 IH]; simpl; [reflexivity|].
  destruct (p x); [discriminate|assumption].
Qed.

Lemma find_app_some {A} (p : A -> bool) (l1 l2 : list A) (x : A) :
  find p l1 = Some x -> find p (l1 ++ l2) = Some x.
Proof.
  induction l1 as [|y l1 IH]; simpl; [discriminate|].
  destruct (p y); [trivial|assumption].
Qed.

Lemma filter_filter_bool {A} (p q : A -> bool) (l : list A) :
  List.filter p (List.filter q l) = List.filter (fun x => q x && p x) l.
Proof.
  induction l as [|x l IH]; simpl; [reflexivity|].
  destruct (q x); simpl; [destruct (p x)|]; rewrite IH; reflexivity.
Qed.

Lemma next_rowid_well_formed (s : Store) :
  well_formed s -> next_rowid s = sqlite_sequence s + 1.
Proof.
  intros (_ & Hle & Hseq). unfold next_rowid.
  assert (H : fold_right Z.max 0 (map id (rows s)) <= sqlite_sequence s).
  { induction Hle as [|r rs Hr Hrs IH]; simpl; lia. }
  lia.
Qed.

Lemma strongly_sorted_snoc {A} (R : A -> A -> Prop) (l : list A) (x : A) :
  StronglySorted R l -> List.Forall (fun y => R y x) l ->
  StronglySorted R (l ++ [x]).
Proof.
  induction 1 as [|y l Hl IH Hy]; intros Hall; simpl.
  - repeat constructor.
  - apply List.Forall_cons_iff in Hall as [Hyx Hall]. constructor.
    + apply IH. assumption.
    + apply List.Forall_app. split; [assumption|repeat constructor; assumption].
Qed.

Lemma strongly_sorted_filter {A} (R : A -> A -> Prop) (p : A -> bool)
    (l : list A) :
  StronglySorted R l -> StronglySorted R (List.filter p l).
Proof.
  induction 1 as [|y l Hl IH Hy]; simpl; [constructor|].
  destruct (p y); [|assumption]. constructor; [assumption|].
  rewrite List.Forall_forall in *. intros z Hz.
  apply List.filter_In in Hz as [Hz _]. auto.
Qed.

Lemma strongly_sorted_map_id (R : PrintJob -> PrintJob -> Prop)
    (f : PrintJob -> PrintJob) (l : list PrintJob) :
  (forall a b, R a b -> R (f a) (f b)) ->
  StronglySorted R l -> StronglySorted R (map f l).
Proof.
  intros Hf. induction 1 as [|y l Hl IH Hy]; simpl; constructor.
  - assumption.
  - rewrite List.Forall_forall in *. intros z Hz.
    apply in_map_iff in Hz as (z0 & <- & Hz0). auto.
Qed.

End StoreMore.

(** X1. A lookup by job id after an insert. If no row carried the job id,
    the lookup now returns the new row, with the record id the insert
    returned and the values passed in, pending and with neither
    completion time nor error. If a row already carried it, the lookup
    still returns that older row. Lookups of other job ids are not
    affected. *)
Theorem add_then_lookup (now : Z) (jid fname original fpath : string)
    (size_mb : Q) (ncopies : Z) (dup : bool) (s : db_helper.Store) :
  let rowid := fst (db_helper.add_print_job now jid fname original fpath
                      size_mb ncopies dup s) in
  let s' := snd (db_helper.add_print_job now jid fname original fpath
                   size_mb ncopies dup s) in
  (db_helper.get_job_by_id jid s = None ->
   db_helper.get_job_by_id jid s'
   = Some {| db_helper.id := rowid; db_helper.job_id := jid;
             db_helper.filename := fname;
             db_helper.original_filename := original;
             db_helper.filepath := fpath;
             db_helper.file_size_mb := size_mb;
             db_helper.copies := ncopies; db_helper.duplex := dup;
             db_helper.status := "pending";
             db_helper.submitted_at := now;
             db_helper.completed_at := None;
             db_helper.error_message := None |})
  /\ (forall old, db_helper.get_job_by_id jid s = Some old ->
                  db_helper.get_job_by_id jid s' = Some old)
  /\ (forall other, other <> jid ->
                    db_helper.get_job_by_id other s'
                    = db_helper.get_job_by_id other s).
Proof.
  intros rowid s'. subst rowid s'.
  unfold db_helper.add_print_job, db_helper.get_job_by_id. cbn [fst snd].
  cbn [db_helper.rows]. split; [|split].
  - intros Hnone. rewrite (find_app_none _ _ _ Hnone). simpl.
    rewrite String.eqb_refl. reflexivity.
  - intros old Hold. apply find_app_some. assumption.
  - intros other Hne.
    destruct (find (fun r => String.eqb (db_helper.job_id r) other)
                   (db_helper.rows s)) as [r|] eqn:Hf.
    + apply find_app_some. assumption.
    + rewrite (find_app_none _ _ _ Hf). simpl.
      apply not_eq_sym in Hne. apply String.eqb_neq in Hne.
      rewrite Hne. reflexivity.
Qed.

Section WellFormed.
Import db_helper db_queries.

Lemma add_keeps_well_formed (now : Z) (jid fname original fpath : string)
    (size_mb : Q) (ncopies : Z) (dup : bool) (s : Store) :
  well_formed s ->
  well_formed (snd (add_print_job now jid fname original fpath size_mb
                      ncopies dup s)).
Proof.
  intros Hwf. pose proof Hwf as (Hsorted & Hle & Hseq).
  unfold add_print_job. cbn [fst snd].
  rewrite (next_rowid_well_formed s Hwf).
  split; [|split]; cbn.
  - apply strongly_sorted_snoc; [assumption|].
    eapply List.Forall_impl; [|exact Hle]. cbn. intros r Hr. lia.
  - apply List.Forall_app. split.
    + eapply List.Forall_impl; [|exact Hle]. cbn. intros r Hr. lia.
    + repeat constructor. cbn. lia.
  - lia.
Qed.

Lemma update_keeps_well_formed (now : Z) (jid new_status : string)
    (msg : option string) (s : Store) :
  well_formed s -> well_formed (update_job_status now jid new_status msg s).
Proof.
  intros (Hsorted & Hle & Hseq).
  assert (Hupd : forall f : PrintJob -> PrintJob,
            (forall r, id (f r) = id r) ->
            well_formed (update_where_job_id jid f s)).
  { intros f Hf.
    assert (Hg : forall r,
              id (if String.eqb (job_id r) jid then f r else r) = id r).
    { intros r. destruct (String.eqb _ _); [apply Hf|reflexivity]. }
    unfold update_where_job_id.
    split; [|split; [|assumption]]; cbn.
    - apply strongly_sorted_map_id; [|assumption].
      intros a b Hab. rewrite !Hg. assumption.
    - rewrite List.Forall_forall in *. intros r Hr.
      apply in_map_iff in Hr as (r0 & <- & Hr0). rewrite Hg. auto. }
  unfold update_job_status.
  destruct (String.eqb new_status "completed"); apply Hupd; reflexivity.
Qed.

(** The table after a sweep: what it was when the call raised, and
    otherwise what the DELETE left of it. *)
Lemma delete_rows (now days : Z) (s : Store) :
  snd (delete_old_records now days s)
  = match days_ago now days with
    | Some cutoff =>
        {| rows := List.filter
                     (fun r => negb (submitted_at r <? cutoff)) (rows s);
           sqlite_sequence := sqlite_sequence s |}
    | None => s
    end.
Proof.
  unfold delete_old_records. destruct (days_ago now days); reflexivity.
Qed.

Lemma delete_keeps_sequence (now days : Z) (s : Store) :
  sqlite_sequence (snd (delete_old_records now days s)) = sqlite_sequence s.
Proof. rewrite delete_rows. destruct (days_ago now days); reflexivity. Qed.

Lemma delete_keeps_well_formed (now days : Z) (s : Store) :
  well_formed s -> well_formed (snd (delete_old_records now days s)).
Proof.
  intros Hwf. rewrite delete_rows.
  destruct (days_ago now days) as [cutoff|]; [|exact Hwf].
  destruct Hwf as (Hsorted & Hle & Hseq).
  split; [|split; [|assumption]]; cbn.
  - apply strongly_sorted_filter. assumption.
  - rewrite List.Forall_forall in *. intros r Hr.
    apply List.filter_In in Hr as [Hr _]. auto.
Qed.

End WellFormed.

(** X2. A table whose rows are in rowid order below the AUTOINCREMENT
    counter stays so under insert, update and sweep. On such a table the
    insert hands out counter + 1, and a record id is never used twice:
    the id given after a sweep differs from the id of every row the table
    held before the sweep. *)
Theorem store_stays_well_formed (s : db_helper.Store) :
  db_queries.well_formed s ->
  (forall now jid fname original fpath size_mb ncopies dup,
     db_queries.well_formed
       (snd (db_helper.add_print_job now jid fname original fpath size_mb
               ncopies dup s))
     /\ fst (db_helper.add_print_job now jid fname original fpath size_mb
               ncopies dup s) = db_helper.sqlite_sequence s + 1)
  /\ (forall now jid new_status msg,
        db_queries.well_formed
          (db_helper.update_job_status now jid new_status msg s))
  /\ (forall now days,
        db_queries.well_formed (snd (db_helper.delete_old_records now days s)))
  /\ (forall now days now' jid fname original fpath size_mb ncopies dup r,
        In r (db_helper.rows s) ->
        fst (db_helper.add_print_job now' jid fname original fpath size_mb
               ncopies dup (snd (db_helper.delete_old_records now days s)))
        <> db_helper.id r).
Proof.
  intros Hwf. pose proof Hwf as (Hsorted & Hle & Hseq).
  split; [|split; [|split]].
  - intros now jid fname original fpath size_mb ncopies dup.
    split; [apply add_keeps_well_formed; assumption|].
    unfold db_helper.add_print_job. cbn [fst].
    apply next_rowid_well_formed. assumption.
  - intros now jid new_status msg. apply update_keeps_well_formed.
    assumption.
  - intros now days. apply delete_keeps_well_formed. assumption.
  - intros now days now' jid fname original fpath size_mb ncopies dup r Hr.
    unfold db_helper.add_print_job. cbn [fst].
    rewrite (next_rowid_well_formed _
               (delete_keeps_well_formed now days s Hwf)).
    rewrite delete_keeps_sequence.
    rewrite List.Forall_forall in Hle. specialize (Hle r Hr). lia.
Qed.

Section Listings.
Import db_helper db_queries.

Lemma newest_first_orders : orders_newest_first newest_first.
Proof.
  intros l. unfold newest_first. split.
  - apply merge_sort_Permutation.
  - apply (@StronglySorted_merge_sort _
             (fun a b => submitted_at b <= submitted_at a)).
    + intros a b c Hab Hbc. lia.
    + intros a b. lia.
Qed.


Lemma delete_count (now days cutoff : Z) (s : Store) :
  days_ago now days = Some cutoff ->
  fst (delete_old_records now days s)
  = Some (Z.of_nat (length (rows s))
          - Z.of_nat (length (rows (snd (delete_old_records now days s))))).
Proof.
  intros Hc. rewrite (delete_old_records_at _ _ _ _ Hc). cbn [fst snd].
  unfold delete_before. cbn [fst snd rows]. f_equal.
  pose proof (length_filter_split
                (fun r => submitted_at r <? cutoff) (rows s)).
  lia.
Qed.

Lemma get_recent_jobs_in
    (order_by : list PrintJob -> list PrintJob) (now days cutoff : Z)
    (s : Store) :
  orders_newest_first order_by ->
  days_ago now days = Some cutoff ->
  exists jobs,
    get_recent_jobs order_by now days s = Some jobs
    /\ Permutation jobs
         (List.filter (fun r => cutoff <? submitted_at r) (rows s))
    /\ (forall r, In r jobs <-> In r (rows s) /\ cutoff < submitted_at r)
    /\ StronglySorted (fun a b => submitted_at b <= submitted_at a) jobs.
Proof.
  intros Horder Hc. unfold get_recent_jobs. rewrite Hc.
  destruct (Horder (List.filter (fun r => cutoff <? submitted_at r)
                                (rows s))) as [Hperm Hsorted].
  eexists. split; [reflexivity|]. split; [exact Hperm|].
  split; [|exact Hsorted]. intros r. split.
  - intros Hr. apply (Permutation_in _ Hperm) in Hr.
    apply List.filter_In in Hr as [Hr Hlt]. apply Z.ltb_lt in Hlt. auto.
  - intros [Hr Hlt]. apply (Permutation_in _ (Permutation_sym Hperm)).
    apply List.filter_In. split; [assumption|]. apply Z.ltb_lt. exact Hlt.
Qed.

(** A later sweep over what an earlier one left is the later sweep. *)
Lemma delete_before_twice (a b : Z) (s : Store) :
  a <= b ->
  snd (delete_before b (snd (delete_before a s))) = snd (delete_before b s).
Proof.
  intros Hab. unfold delete_before. cbn. f_equal.
  rewrite filter_filter_bool. apply filter_ext_bool. intros r.
  destruct (Z.ltb_spec (submitted_at r) a);
    destruct (Z.ltb_spec (submitted_at r) b); simpl; try reflexivity; lia.
Qed.

End Listings.

(** X3. Sweeps compose. Let a sweep at [now] be followed by one at a later
    time [now']. Where the later sweep returns, the store is the one a
    single sweep at [now'] leaves, whether the earlier sweep returned or
    raised; the later sweep raises exactly when the single one does; and
    when both return, their counts add up to the count of the single
    sweep. A sweep that returned, run again at the same time, deletes
    nothing and returns 0. *)
Theorem sweeps_compose (now now' days : Z) (s : db_helper.Store) :
  now <= now' ->
  let first := db_helper.delete_old_records now days s in
  let second := db_helper.delete_old_records now' days (snd first) in
  let single := db_helper.delete_old_records now' days s in
  (fst single <> None -> snd second = snd single)
  /\ (fst second = None <-> fst single = None)
  /\ (forall n1 n2, fst first = Some n1 -> fst second = Some n2 ->
                    fst single = Some (n1 + n2))
  /\ (fst first <> None ->
      db_helper.delete_old_records now days (snd first)
      = (Some 0, snd first)).
Proof.
  intros Hle first second single.
  assert (Hfirst : first = db_helper.delete_old_records now days s)
    by reflexivity.
  assert (Hsecond : second
                    = db_helper.delete_old_records now' days (snd first))
    by reflexivity.
  assert (Hsingle : single = db_helper.delete_old_records now' days s)
    by reflexivity.
  clearbody first second single.
  destruct (db_helper.days_ago now' days) as [c'|] eqn:Hc'.
  2:{ rewrite (delete_old_records_raises _ _ (snd first) Hc') in Hsecond.
      rewrite (delete_old_records_raises _ _ s Hc') in Hsingle.
      subst second single. cbn [fst snd].
      split; [intros H; contradiction|]. split; [tauto|].
      split; [discriminate|]. intros Hret.
      destruct (db_helper.days_ago now days) as [c|] eqn:Hc.
      - rewrite (delete_old_records_at _ _ _ _ Hc) in Hfirst. subst first.
        cbn [snd]. rewrite (delete_old_records_at _ _ _ _ Hc). cbn [fst snd].
        rewrite (delete_before_twice c c s (Z.le_refl c)).
        f_equal. f_equal. unfold db_helper.delete_before. cbn.
        rewrite filter_filter_bool.
        rewrite (filter_ext_bool _ (fun _ => false)); [|].
        + clear. induction (db_helper.rows s); [reflexivity|assumption].
        + intros r. destruct (db_helper.submitted_at r <? c); reflexivity.
      - rewrite (delete_old_records_raises _ _ _ Hc) in Hfirst.
        subst first. contradiction. }
  rewrite (delete_old_records_at _ _ _ (snd first) Hc') in Hsecond.
  rewrite (delete_old_records_at _ _ _ s Hc') in Hsingle.
  assert (Hagain : forall c, db_helper.days_ago now days = Some c ->
            db_helper.delete_old_records now days
              (snd (db_helper.delete_before c s))
            = (Some 0, snd (db_helper.delete_before c s))).
  { intros c Hc. rewrite (delete_old_records_at _ _ _ _ Hc).
    rewrite (delete_before_twice c c s (Z.le_refl c)).
    f_equal. f_equal. unfold db_helper.delete_before. cbn.
    rewrite filter_filter_bool.
    rewrite (filter_ext_bool _ (fun _ => false)).
    - clear. induction (db_helper.rows s); [reflexivity|assumption].
    - intros r. destruct (db_helper.submitted_at r <? c); reflexivity. }
  destruct (db_helper.days_ago now days) as [c|] eqn:Hc.
  - rewrite (delete_old_records_at _ _ _ _ Hc) in Hfirst.
    subst first second single. cbn [fst snd].
    assert (Hcc : c <= c').
    { apply days_ago_Some in Hc as (-> & _).
      apply days_ago_Some in Hc' as (-> & _). lia. }
    split; [intros _; apply delete_before_twice; exact Hcc|].
    split; [split; discriminate|].
    split; [|intros _; apply Hagain; reflexivity].
    intros n1 n2 [= <-] [= <-]. f_equal.
    pose proof (delete_before_twice c c' s Hcc) as Hstore.
    unfold db_helper.delete_before in *. cbn [fst snd db_helper.rows] in *.
    injection Hstore as Hrows.
    pose proof (length_filter_split
                  (fun r => db_helper.submitted_at r <? c)
                  (db_helper.rows s)) as H1.
    pose proof (length_filter_split
                  (fun r => db_helper.submitted_at r <? c')
                  (db_helper.rows s)) as H2.
    pose proof (length_filter_split
                  (fun r => db_helper.submitted_at r <? c')
                  (List.filter
                     (fun r => negb (db_helper.submitted_at r <? c))
                     (db_helper.rows s))) as H3.
    cbv beta in H1, H2, H3. rewrite Hrows in H3. lia.
  - rewrite (delete_old_records_raises _ _ _ Hc) in Hfirst.
    subst first second single. cbn [fst snd].
    split; [reflexivity|]. split; [split; discriminate|].
    split; [discriminate|]. intros H; contradiction.
Qed.

(** X4. With an ordering that does what ORDER BY submitted_at DESC
    promises, and [now - days] a date, [get_recent_jobs] lists exactly the
    rows submitted strictly after that cutoff, each as often as the table
    holds it, newest first. A row submitted exactly at the cutoff is not
    listed. When [now - days] is not a date (more than 999999999 days, or
    a cutoff outside the years 1 to 9999) the call raises OverflowError. *)
Theorem get_recent_jobs_lists
    (order_by : list db_helper.PrintJob -> list db_helper.PrintJob)
    (now days : Z) (s : db_helper.Store) :
  db_queries.orders_newest_first order_by ->
  (forall cutoff, db_helper.days_ago now days = Some cutoff ->
     cutoff = now - days * 86400000000
     /\ exists jobs,
          db_queries.get_recent_jobs order_by now days s = Some jobs
          /\ Permutation jobs
               (List.filter (fun r => cutoff <? db_helper.submitted_at r)
                            (db_helper.rows s))
          /\ (forall r, In r jobs <->
                        In r (db_helper.rows s)
                        /\ cutoff < db_helper.submitted_at r)
          /\ StronglySorted
               (fun a b => db_helper.submitted_at b <= db_helper.submitted_at a)
               jobs
          /\ (forall r, db_helper.submitted_at r = cutoff -> ~ In r jobs))
  /\ (db_queries.get_recent_jobs order_by now days s = None <->
      ~ (Z.abs days <= 999999999
         /\ 0 <= now - days * 86400000000 <= db_helper.datetime_max)).
Proof.
  intros Horder. split.
  - intros cutoff Hc.
    split; [apply days_ago_Some in Hc; tauto|].
    destruct (get_recent_jobs_in order_by now days cutoff s Horder Hc)
      as (jobs & Hjobs & Hperm & Hin & Hsorted).
    exists jobs. split; [exact Hjobs|]. split; [exact Hperm|].
    split; [exact Hin|]. split; [exact Hsorted|].
    intros r Hr Hlisted. apply Hin in Hlisted as [_ Hlt]. lia.
  - rewrite <- days_ago_None. unfold db_queries.get_recent_jobs.
    destruct (db_helper.days_ago now days); split; congruence.
Qed.

(** X5. The record sweep does not disturb a listing over a window that is
    no longer than the retention: [get_recent_jobs] for [days'] gives the
    same list before and after [delete_old_records] for [days >= days']
    at the same time, whatever the ordering. *)
Theorem sweep_keeps_recent_listing
    (order_by : list db_helper.PrintJob -> list db_helper.PrintJob)
    (now days days' : Z) (s : db_helper.Store) :
  days' <= days ->
  db_queries.get_recent_jobs order_by now days'
    (snd (db_helper.delete_old_records now days s))
  = db_queries.get_recent_jobs order_by now days' s.
Proof.
  intros Hdays. unfold db_queries.get_recent_jobs.
  destruct (db_helper.days_ago now days') as [c'|] eqn:Hc'; [|reflexivity].
  rewrite delete_rows.
  destruct (db_helper.days_ago now days) as [c|] eqn:Hc; [|reflexivity].
  apply days_ago_Some in Hc as (-> & _).
  apply days_ago_Some in Hc' as (-> & _).
  cbn [db_helper.rows]. do 2 f_equal. rewrite filter_filter_bool.
  apply filter_ext_bool. intros r.
  destruct (Z.ltb_spec (db_helper.submitted_at r)
                       (now - days * 86400000000));
    destruct (Z.ltb_spec (now - days' * 86400000000)
                         (db_helper.submitted_at r));
    simpl; try reflexivity; lia.
Qed.

(** X6. A lookup by job id after a status update finds the same row as
    before, updated: same record id, file path and copies, and the new
    status. A job id that was not found is still not found, and lookups
    of other job ids return what they returned. *)
Theorem update_then_lookup (now : Z) (jid new_status : string)
    (msg : option string) (s : db_helper.Store) :
  let s' := db_helper.update_job_status now jid new_status msg s in
  (forall r, db_helper.get_job_by_id jid s = Some r ->
     exists r',
       db_helper.get_job_by_id jid s' = Some r'
       /\ db_helper.id r' = db_helper.id r
       /\ db_helper.status r' = new_status
       /\ db_helper.filepath r' = db_helper.filepath r
       /\ db_helper.copies r' = db_helper.copies r
       /\ db_helper.duplex r' = db_helper.duplex r)
  /\ (db_helper.get_job_by_id jid s = None ->
      db_helper.get_job_by_id jid s' = None)
  /\ (forall other, other <> jid ->
        db_helper.get_job_by_id other s' = db_helper.get_job_by_id other s).
Proof.
  intros s'.
  assert (Hfind : forall (f : db_helper.PrintJob -> db_helper.PrintJob) j,
    (forall r, db_helper.job_id (f r) = db_helper.job_id r) ->
    db_helper.get_job_by_id j (db_helper.update_where_job_id jid f s)
    = option_map (fun r => if String.eqb (db_helper.job_id r) jid
                           then f r else r)
                 (db_helper.get_job_by_id j s)).
  { intros f j Hf.
    unfold db_helper.get_job_by_id, db_helper.update_where_job_id. cbn.
    induction (db_helper.rows s) as [|r rs IH]; [reflexivity|]. cbn.
    assert (Hj : db_helper.job_id
                   (if String.eqb (db_helper.job_id r) jid then f r else r)
                 = db_helper.job_id r).
    { destruct (String.eqb _ _); [apply Hf|reflexivity]. }
    rewrite Hj. destruct (String.eqb (db_helper.job_id r) j);
      [reflexivity|exact IH]. }
  assert (Hjid : forall r, db_helper.get_job_by_id jid s = Some r ->
                           String.eqb (db_helper.job_id r) jid = true).
  { intros r Hr. unfold db_helper.get_job_by_id in Hr.
    apply find_some in Hr as [_ Hr]. exact Hr. }
  assert (Hother : forall other r, other <> jid ->
            db_helper.get_job_by_id other s = Some r ->
            String.eqb (db_helper.job_id r) jid = false).
  { intros other r Hne Hr. unfold db_helper.get_job_by_id in Hr.
    apply find_some in Hr as [_ Hr]. apply String.eqb_eq in Hr.
    apply String.eqb_neq. congruence. }
  subst s'. unfold db_helper.update_job_status.
  destruct (String.eqb new_status "completed") eqn:Hc;
    [apply String.eqb_eq in Hc|];
    (split; [|split];
     [ intros r Hr; rewrite Hfind, Hr by reflexivity; cbn [option_map];
       rewrite (Hjid r Hr); eexists; split; [reflexivity|];
       cbn; repeat split; congruence
     | intros Hnone; rewrite Hfind, Hnone by reflexivity; reflexivity
     | intros other Hne; rewrite Hfind by reflexivity;
       destruct (db_helper.get_job_by_id other s) as [r|] eqn:Hr;
       [cbn [option_map]; rewrite (Hother other r Hne Hr)|];
       reflexivity ]).
Qed.


(** ** File names and the file sweep *)

Section FileNames.
Import PyStr.

Lemma take_while_app_stop (p : ascii -> bool) (a b : chars) (c : ascii) :
  List.Forall (fun x => p x = true) a -> p c = false ->
  take_while p (a ++ c :: b) = a.
Proof.
  intros Ha Hc. induction Ha as [|x a Hx Ha IH]; simpl.
  - rewrite Hc. reflexivity.
  - rewrite Hx, IH. reflexivity.
Qed.

Lemma contains_char_false (sep : ascii) (s : chars) :
  contains_char sep s = false ->
  List.Forall (fun x => negb (Ascii.eqb x sep) = true) s.
Proof.
  unfold contains_char. induction s as [|x s IH]; simpl; [constructor|].
  intros H. apply orb_false_elim in H as [Hx Hs].
  constructor; [|apply IH; assumption].
  rewrite Ascii.eqb_sym, Hx. reflexivity.
Qed.

Lemma rsplit1_tail_last (sep : ascii) (stem ext : string) :
  contains sep ext = false ->
  rsplit1_tail sep (stem +:+ String sep "" +:+ ext) = Some ext.
Proof.
  intros Hno. unfold rsplit1_tail, rsplit1_tail_chars, contains in *.
  rewrite !list_ascii_of_string_app. cbn [list_ascii_of_string app].
  assert (Hin : contains_char sep
                  (list_ascii_of_string stem
                   ++ sep :: list_ascii_of_string ext) = true).
  { unfold contains_char. rewrite existsb_app. simpl.
    rewrite Ascii.eqb_refl, orb_true_r. reflexivity. }
  rewrite Hin. cbn [option_map]. f_equal.
  rewrite rev_app_distr. cbn [rev]. rewrite <- app_assoc. cbn [app].
  rewrite take_while_app_stop.
  - rewrite rev_involutive. apply string_of_list_ascii_of_string.
  - apply List.Forall_rev. apply contains_char_false. assumption.
  - rewrite Ascii.eqb_refl. reflexivity.
Qed.

Lemma splitext_joins (p : string) :
  fst (file_helper.splitext p) +:+ snd (file_helper.splitext p) = p.
Proof.
  unfold file_helper.splitext.
  assert (Hempty : p +:+ "" = p).
  { induction p as [|c p IH]; [reflexivity|].
    change (String c p +:+ "") with (String c (p +:+ "")).
    rewrite IH. reflexivity. }
  destruct (_ <? _); [|exact Hempty].
  destruct (existsb _ _); [|exact Hempty].
  cbn [fst snd]. rewrite <- string_of_list_ascii_app, firstn_skipn.
  apply string_of_list_ascii_of_string.
Qed.

End FileNames.

(** X8. The stored name is the timestamp, an underscore and the
    sanitized name, for every name: cutting the sanitized name with
    [os.path.splitext] and gluing the two parts back gives the sanitized
    name again, with or without an extension. So two uploads stamped with
    the same second get the same stored name exactly when their sanitized
    names are the same. *)
Theorem get_safe_filename_shape (secure_filename : string -> string)
    (timestamp filename other : string) :
  file_helper.get_safe_filename secure_filename timestamp filename
  = timestamp +:+ "_" +:+ secure_filename filename
  /\ (forall p,
        fst (file_helper.splitext p) +:+ snd (file_helper.splitext p) = p)
  /\ (file_helper.get_safe_filename secure_filename timestamp filename
      = file_helper.get_safe_filename secure_filename timestamp other
      <-> secure_filename filename = secure_filename other).
Proof.
  assert (Hshape : forall name,
    file_helper.get_safe_filename secure_filename timestamp name
    = timestamp +:+ "_" +:+ secure_filename name).
  { intros name. unfold file_helper.get_safe_filename.
    pose proof (splitext_joins (secure_filename name)) as H.
    destruct (file_helper.splitext (secure_filename name)) as [stem ext].
    cbn [fst snd] in H. rewrite H. reflexivity. }
  split; [apply Hshape|]. split; [exact splitext_joins|].
  rewrite !Hshape. split.
  - intros H. apply String.app_inj in H. apply String.app_inj in H.
    exact H.
  - intros ->. reflexivity.
Qed.

(** X9. [allowed_file] looks at what follows the last dot, in lower
    case. A name without a dot is refused. A name [stem.ext], where [ext]
    has no dot, is allowed exactly when the lower-cased [ext] is one of the
    five configured extensions, whatever the stem (an empty one
    included). And for every allowed name the media-type table has an
    entry for its extension, so content validation never meets an
    extension it does not know. *)
Theorem allowed_file_extension (name stem ext : string) :
  (PyStr.contains "." name = false -> file_helper.allowed_file name = false)
  /\ (PyStr.contains "." ext = false ->
      (file_helper.allowed_file (stem +:+ "." +:+ ext) = true <->
       In (PyStr.lower ext) file_helper.ALLOWED_EXTENSIONS))
  /\ (file_helper.allowed_file name = true ->
      exists e m,
        PyStr.rsplit1_tail "." name = Some e
        /\ file_helper.mime_map !! PyStr.lower e = Some m).
Proof.
  split; [|split].
  - intros Hno. unfold file_helper.allowed_file. rewrite Hno. reflexivity.
  - intros Hno. unfold file_helper.allowed_file.
    rewrite (rsplit1_tail_last "." stem ext Hno).
    assert (Hdot : PyStr.contains "." (stem +:+ "." +:+ ext) = true).
    { unfold PyStr.contains, PyStr.contains_char.
      rewrite !list_ascii_of_string_app, existsb_app. simpl.
      apply orb_true_r. }
    rewrite Hdot. cbn [andb]. rewrite existsb_exists. split.
    + intros (x & Hx & He). apply String.eqb_eq in He. subst x. exact Hx.
    + intros Hin. exists (PyStr.lower ext). split; [exact Hin|].
      apply String.eqb_refl.
  - unfold file_helper.allowed_file. intros H.
    apply andb_prop in H as [_ H].
    destruct (PyStr.rsplit1_tail "." name) as [e|]; [|discriminate].
    apply existsb_exists in H as (x & Hx & He).
    apply String.eqb_eq in He. exists e.
    rewrite He.
    destruct Hx as [<-|[<-|[<-|[<-|[<-|[]]]]]];
      eexists; (split; [reflexivity|]); vm_compute; reflexivity.
Qed.

Section Sweep.
Import file_sweep.

Lemma sweep_readable (cutoff : Z) (entries : list DirEntry) (k : Z) :
  readable entries ->
  sweep cutoff entries k
  = (k + Z.of_nat
           (length (List.filter
                      (fun e => stale cutoff e && removable e) entries)),
     List.filter (fun e => negb (stale cutoff e && removable e)) entries).
Proof.
  intros Hr. revert k. unfold stale.
  induction Hr as [|e rest He Hrest IH]; intros k.
  - simpl. f_equal. lia.
  - cbn [sweep List.filter].
    destruct (isfile e) eqn:Hf; cbn [negb andb].
    + destruct (getmtime e) as [t|] eqn:Ht; [|exfalso; apply He; auto].
      destruct (t <? cutoff); cbn [andb negb].
      * destruct (removable e); cbn [negb length].
        -- rewrite IH. f_equal. lia.
        -- rewrite IH. reflexivity.
      * rewrite IH. reflexivity.
    + rewrite IH. reflexivity.
Qed.

Lemma sweep_app (cutoff : Z) (pre rest : list DirEntry) (k : Z) :
  readable pre ->
  sweep cutoff (pre ++ rest) k
  = (fst (sweep cutoff rest (fst (sweep cutoff pre k))),
     snd (sweep cutoff pre k)
     ++ snd (sweep cutoff rest (fst (sweep cutoff pre k)))).
Proof.
  intros Hr. revert k. induction Hr as [|e pre He Hpre IH]; intros k.
  - simpl. destruct (sweep cutoff rest k). reflexivity.
  - cbn [app sweep].
    destruct (isfile e) eqn:Hf; cbn [negb].
    + destruct (getmtime e) as [t|] eqn:Ht; [|exfalso; apply He; auto].
      destruct (t <? cutoff).
      * destruct (removable e).
        -- apply IH.
        -- rewrite IH. destruct (sweep cutoff pre k) as [n1 l1].
           cbn [fst snd].
           destruct (sweep cutoff rest n1). reflexivity.
      * rewrite IH. destruct (sweep cutoff pre k) as [n1 l1].
        cbn [fst snd]. destruct (sweep cutoff rest n1). reflexivity.
    + rewrite IH. destruct (sweep cutoff pre k) as [n1 l1].
      cbn [fst snd]. destruct (sweep cutoff rest n1). reflexivity.
Qed.

End Sweep.

(** X10. When [now - retention_days] is a date and every regular file's
    age can be read, the file sweep leaves in the folder, in order,
    exactly the entries that are not both stale (a regular file modified
    strictly before the cutoff) and removable, and returns how many
    entries went away. Directories stay, and so does a file modified
    exactly at the cutoff. When [now - retention_days] is not a date the
    call raises OverflowError and the folder is as it was. *)
Theorem cleanup_old_files_sweeps (now retention_days : Z)
    (entries : list file_sweep.DirEntry) :
  file_sweep.readable entries ->
  (forall cutoff, db_helper.days_ago now retention_days = Some cutoff ->
     let left :=
       List.filter
         (fun e => negb (file_sweep.stale cutoff e && file_sweep.removable e))
         entries in
     cutoff = now - retention_days * 86400000000
     /\ file_sweep.cleanup_old_files now (file_sweep.Listing entries)
         retention_days
        = (Some (Z.of_nat (length entries) - Z.of_nat (length left)),
           file_sweep.Listing left)
     /\ (forall e, In e entries -> file_sweep.isfile e = false -> In e left)
     /\ (forall e, In e entries -> file_sweep.getmtime e = Some cutoff ->
                   In e left)
     /\ (forall e, In e entries -> ~ In e left ->
                   file_sweep.isfile e = true
                   /\ file_sweep.removable e = true
                   /\ exists t, file_sweep.getmtime e = Some t /\ t < cutoff))
  /\ (db_helper.days_ago now retention_days = None ->
      file_sweep.cleanup_old_files now (file_sweep.Listing entries)
        retention_days
      = (None, file_sweep.Listing entries)).
Proof.
  intros Hr. split.
  2:{ intros Hc. unfold file_sweep.cleanup_old_files. rewrite Hc.
      reflexivity. }
  intros cutoff Hc left. subst left.
  split; [apply days_ago_Some in Hc; tauto|].
  unfold file_sweep.cleanup_old_files. rewrite Hc.
  rewrite (sweep_readable cutoff entries 0 Hr).
  split.
  - f_equal. f_equal.
    pose proof (length_filter_split
                  (fun e => file_sweep.stale cutoff e
                            && file_sweep.removable e) entries) as H.
    cbv beta in H. lia.
  - split; [|split].
    + intros e He Hdir. apply List.filter_In. split; [assumption|].
      unfold file_sweep.stale. rewrite Hdir. reflexivity.
    + intros e He Hat. apply List.filter_In. split; [assumption|].
      unfold file_sweep.stale. rewrite Hat, Z.ltb_irrefl.
      rewrite andb_false_r. reflexivity.
    + intros e He Hgone.
      destruct (file_sweep.stale cutoff e && file_sweep.removable e)
        eqn:Hs.
      * apply andb_prop in Hs as [Hs Hrem]. unfold file_sweep.stale in Hs.
        apply andb_prop in Hs as [Hfile Hs].
        destruct (file_sweep.getmtime e) as [t|]; [|discriminate].
        apply Z.ltb_lt in Hs. eauto.
      * exfalso. apply Hgone. apply List.filter_In.
        split; [assumption|]. rewrite Hs. reflexivity.
Qed.

(** X11. How the file sweep fails. A missing folder gives 0 before the
    cutoff is looked at. When [now - retention_days] is not a date the
    call raises OverflowError for every folder that exists, listable or
    not. Otherwise: a folder that cannot be listed gives 0 and is left
    alone; a stale file that cannot be removed is passed over (it stays,
    and the sweep goes on with the entries after it); but when a file's
    age cannot be read the sweep stops there: that entry and everything
    after it stay, stale or not, and the count is that of the entries
    before it. *)
Theorem cleanup_old_files_failures (now retention_days : Z)
    (pre post : list file_sweep.DirEntry) (e : file_sweep.DirEntry) :
  file_sweep.readable pre ->
  file_sweep.isfile e = true ->
  file_sweep.cleanup_old_files now file_sweep.Missing retention_days
  = (Some 0, file_sweep.Missing)
  /\ (db_helper.days_ago now retention_days = None ->
      file_sweep.cleanup_old_files now file_sweep.Unlistable retention_days
      = (None, file_sweep.Unlistable)
      /\ forall entries,
           file_sweep.cleanup_old_files now (file_sweep.Listing entries)
             retention_days
           = (None, file_sweep.Listing entries))
  /\ (forall cutoff, db_helper.days_ago now retention_days = Some cutoff ->
      let gone l :=
        Z.of_nat (length (List.filter
                            (fun x => file_sweep.stale cutoff x
                                      && file_sweep.removable x) l)) in
      let kept :=
        List.filter
          (fun x => negb (file_sweep.stale cutoff x
                          && file_sweep.removable x)) in
      file_sweep.cleanup_old_files now file_sweep.Unlistable retention_days
      = (Some 0, file_sweep.Unlistable)
      /\ (file_sweep.getmtime e = None ->
          file_sweep.cleanup_old_files now
            (file_sweep.Listing (pre ++ e :: post)) retention_days
          = (Some (gone pre), file_sweep.Listing (kept pre ++ e :: post)))
      /\ (forall t, file_sweep.getmtime e = Some t -> t < cutoff ->
                    file_sweep.removable e = false ->
                    file_sweep.readable post ->
          file_sweep.cleanup_old_files now
            (file_sweep.Listing (pre ++ e :: post)) retention_days
          = (Some (gone pre + gone post),
             file_sweep.Listing (kept pre ++ e :: kept post)))).
Proof.
  intros Hpre Hfile.
  split; [reflexivity|]. split.
  { intros Hc. unfold file_sweep.cleanup_old_files. rewrite Hc.
    split; reflexivity. }
  intros cutoff Hc gone kept.
  unfold file_sweep.cleanup_old_files. rewrite Hc.
  split; [reflexivity|]. split.
  - intros Hnone. rewrite (sweep_app cutoff pre (e :: post) 0 Hpre).
    rewrite (sweep_readable cutoff pre 0 Hpre). cbn [fst snd].
    cbn [file_sweep.sweep]. rewrite Hfile, Hnone. cbn [negb fst snd].
    reflexivity.
  - intros t Ht Hlt Hstuck Hpost.
    rewrite (sweep_app cutoff pre (e :: post) 0 Hpre).
    rewrite (sweep_readable cutoff pre 0 Hpre). cbn [fst snd].
    cbn [file_sweep.sweep]. rewrite Hfile, Ht, Hstuck. cbn [negb].
    apply Z.ltb_lt in Hlt. rewrite Hlt.
    rewrite (sweep_readable cutoff post _ Hpost). cbn [fst snd].
    subst gone kept. cbv beta. do 2 f_equal; lia.
Qed.

(** ** The status of one job *)

Section JobStatus.
Import PyStr Subprocess.

Lemma prefix_iff (a h : string) :
  String.prefix a h = true <-> exists b, h = a +:+ b.
Proof.
  revert h. induction a as [|c a IH]; intros h.
  - split; [intros _; exists h; reflexivity|].
    intros _. destruct h; reflexivity.
  - destruct h as [|d h]; simpl.
    + split; [discriminate|]. intros [b Hb]. discriminate Hb.
    + destruct (ascii_dec c d) as [->|Hne].
      * rewrite IH. split; intros [b Hb]; exists b.
        -- rewrite Hb. reflexivity.
        -- change (String d a +:+ b) with (String d (a +:+ b)) in Hb.
           congruence.
      * split; [discriminate|]. intros [b Hb].
        change (String c a +:+ b) with (String c (a +:+ b)) in Hb.
        congruence.
Qed.

Lemma has_substring_iff (needle hay : string) :
  cups_status.has_substring needle hay = true <->
  exists a b, hay = a +:+ needle +:+ b.
Proof.
  induction hay as [|c hay IH].
  - cbn [cups_status.has_substring]. rewrite orb_false_r, prefix_iff. split.
    + intros [b Hb]. exists ""%string, b. exact Hb.
    + intros (a & b & H). destruct a as [|x a]; [exists b; exact H|].
      discriminate H.
  - cbn [cups_status.has_substring]. rewrite orb_true_iff, prefix_iff, IH.
    split.
    + intros [[b Hb]|(a & b & Hab)].
      * exists ""%string, b. exact Hb.
      * exists (String c a), b. rewrite Hab. reflexivity.
    + intros (a & b & H). destruct a as [|x a].
      * left. exists b. exact H.
      * right. exists a, b.
        change (String x a +:+ needle +:+ b)
          with (String x (a +:+ needle +:+ b)) in H.
        congruence.
Qed.

Lemma get_job_status_unfold (env : oracle) (jid : string) (l : log) :
  cups_status.get_job_status env jid l
  = if existsb (fun job => String.eqb (cups_helper.job_id job) jid)
               (fst (cups_helper.get_print_queue env l))
    then (Some "pending"%string, l ++ [["lpstat"; "-o"]%string])
    else (cups_status.completed_result jid
            (env (S (length l)) ["lpstat"; "-W"; "completed"; "-o"]%string),
          l ++ [["lpstat"; "-o"]; ["lpstat"; "-W"; "completed"; "-o"]]%string).
Proof.
  unfold cups_status.get_job_status, cups_helper.get_print_queue, run.
  cbn [fst]. destruct (existsb _ _); [reflexivity|].
  rewrite length_app, Nat.add_comm, <- app_assoc. reflexivity.
Qed.

Lemma queued_iff (jid : string) (queue : list cups_helper.QueueJob) :
  existsb (fun job => String.eqb (cups_helper.job_id job) jid) queue = true
  <-> exists job, In job queue /\ cups_helper.job_id job = jid.
Proof.
  rewrite existsb_exists. split; intros (job & Hin & H); exists job;
    (split; [assumption|]); apply String.eqb_eq; assumption.
Qed.

Lemma failed_listing_is_empty (env : oracle) (l : log) :
  Wording.exit_ok (env (length l) ["lpstat"; "-o"]%string) = false ->
  fst (cups_helper.get_print_queue env l) = [].
Proof.
  unfold cups_helper.get_print_queue, run. cbn [fst].
  destruct (env (length l) ["lpstat"; "-o"]%string) as [rc out err| | |];
    try reflexivity.
  simpl. intros ->. reflexivity.
Qed.

End JobStatus.

(** X12. [get_job_status] answers "pending" exactly when the queue
    listing has an entry with that job id, and then it has run [lpstat -o]
    and nothing else. When the listing has no such entry, which includes
    every failure of [lpstat -o], it goes on to run
    [lpstat -W completed -o] and its answer is "completed" or nothing. *)
Theorem get_job_status_pending (env : Subprocess.oracle) (job_id : string)
    (l : Subprocess.log) :
  let queue := fst (cups_helper.get_print_queue env l) in
  let answer := fst (cups_status.get_job_status env job_id l) in
  let l' := snd (cups_status.get_job_status env job_id l) in
  (answer = Some "pending"%string <->
   exists job, In job queue /\ cups_helper.job_id job = job_id)
  /\ (answer = Some "pending"%string ->
      l' = l ++ [["lpstat"; "-o"]%string])
  /\ (answer <> Some "pending"%string ->
      l' = l ++ [["lpstat"; "-o"];
                 ["lpstat"; "-W"; "completed"; "-o"]]%string
      /\ (answer = Some "completed"%string \/ answer = None))
  /\ (Wording.exit_ok (env (length l) ["lpstat"; "-o"]%string) = false ->
      answer <> Some "pending"%string).
Proof.
  intros queue answer l'. subst answer l'.
  rewrite get_job_status_unfold. fold queue.
  assert (Hnot : forall result,
            cups_status.completed_result job_id result
            <> Some "pending"%string).
  { intros result. unfold cups_status.completed_result.
    destruct result as [rc out err| | |]; try discriminate.
    destruct (rc =? 0); [|discriminate].
    destruct (existsb _ _); discriminate. }
  assert (Htwo : forall result,
            cups_status.completed_result job_id result
            = Some "completed"%string
            \/ cups_status.completed_result job_id result = None).
  { intros result. unfold cups_status.completed_result.
    destruct result as [rc out err| | |]; auto.
    destruct (rc =? 0); [|auto]. destruct (existsb _ _); auto. }
  destruct (existsb _ queue) eqn:Hq; cbn [fst snd].
  - apply queued_iff in Hq as Hjob.
    split; [split; auto|]. split; [reflexivity|]. split; [congruence|].
    intros Hfail. exfalso. subst queue.
    rewrite (failed_listing_is_empty env l Hfail) in Hq. discriminate Hq.
  - split; [|split; [|split]].
    + split; [intros H; exfalso; exact (Hnot _ H)|].
      intros Hjob. apply queued_iff in Hjob. congruence.
    + intros H. exfalso. exact (Hnot _ H).
    + intros _. split; [reflexivity|apply Htwo].
    + intros _. apply Hnot.
Qed.

(** X13. For a job that is not in the queue listing, [get_job_status]
    answers "completed" exactly when [lpstat -W completed -o] exits
    with 0 and some line of its trimmed output contains a dash followed by
    the job id, anywhere in the line. The digits after the job id are not
    looked at, so a job id is also reported completed on account of a line
    for a job whose number merely begins with it. A failure of the
    second command gives no answer. *)
Theorem get_job_status_completed (env : Subprocess.oracle) (job_id : string)
    (l : Subprocess.log) :
  (forall job, In job (fst (cups_helper.get_print_queue env l)) ->
               cups_helper.job_id job <> job_id) ->
  let second :=
    env (S (length l)) ["lpstat"; "-W"; "completed"; "-o"]%string in
  let answer := fst (cups_status.get_job_status env job_id l) in
  (answer = Some "completed"%string <->
   exists stdout stderr line before rest,
     second = Subprocess.Completed 0 stdout stderr
     /\ In line (PyStr.split_on "010" (PyStr.strip stdout))
     /\ line = before +:+ ("-" +:+ job_id) +:+ rest)
  /\ (forall stdout stderr line lines printer more_digits rest,
        second = Subprocess.Completed 0 stdout stderr ->
        PyStr.strip stdout = String.concat (String "010" "") (line :: lines) ->
        List.Forall (fun x => PyStr.contains "010" x = false) (line :: lines) ->
        line = printer +:+ ("-" +:+ job_id) +:+ more_digits +:+ rest ->
        answer = Some "completed"%string)
  /\ (Wording.exit_ok second = false -> answer = None).
Proof.
  intros Hnot second answer. subst answer.
  rewrite get_job_status_unfold.
  assert (Hq : existsb
                 (fun job => String.eqb (cups_helper.job_id job) job_id)
                 (fst (cups_helper.get_print_queue env l)) = false).
  { destruct (existsb _ _) eqn:Hq; [|reflexivity].
    apply queued_iff in Hq as (job & Hin & Hj).
    exfalso. exact (Hnot job Hin Hj). }
  rewrite Hq. cbn [fst]. fold second.
  assert (Hiff : cups_status.completed_result job_id second
                 = Some "completed"%string <->
    exists stdout stderr line before rest,
      second = Subprocess.Completed 0 stdout stderr
      /\ In line (PyStr.split_on "010" (PyStr.strip stdout))
      /\ line = before +:+ ("-" +:+ job_id) +:+ rest).
  { unfold cups_status.completed_result. split.
    - destruct second as [rc out err| | |]; try discriminate.
      destruct (Z.eqb_spec rc 0) as [->|]; [|discriminate].
      destruct (existsb (cups_status.has_substring _) _) eqn:He;
        [|discriminate].
      intros _.
      apply existsb_exists in He as (line & Hin & Hsub).
      apply has_substring_iff in Hsub as (a & b & Hab).
      exists out, err, line, a, b. auto.
    - intros (out & err & line & a & b & -> & Hin & Hline).
      change (0 =? 0) with true. cbv iota.
      assert (He : existsb (cups_status.has_substring ("-" +:+ job_id))
                           (PyStr.split_on "010" (PyStr.strip out)) = true).
      { apply existsb_exists. exists line. split; [assumption|].
        apply has_substring_iff. eauto. }
      rewrite He. reflexivity. }
  split; [exact Hiff|]. split.
  - intros stdout stderr line lines printer more rest Hsecond Hstrip Hall
      Hline.
    apply Hiff. exists stdout, stderr, line, printer, (more +:+ rest).
    split; [assumption|]. split.
    + rewrite Hstrip, split_on_concat by assumption. left. reflexivity.
    + rewrite Hline. reflexivity.
  - intros Hfail. unfold cups_status.completed_result.
    destruct second as [rc out err| | |]; try reflexivity.
    simpl in Hfail. rewrite Hfail. reflexivity.
Qed.

(** ** The queue view *)

Section QueueView.
Import db_helper.

Lemma db_jobs_miss (jobs : list PrintJob) (m : gmap string PrintJob)
    (j : string) :
  (forall r, In r jobs -> job_id r <> j) ->
  fold_left (fun m job => <[job_id job := job]> m) jobs m !! j = m !! j.
Proof.
  revert m. induction jobs as [|x jobs IH]; intros m Hno; [reflexivity|].
  cbn [fold_left]. rewrite IH.
  - apply lookup_insert_ne. apply Hno. left. reflexivity.
  - intros r Hr. apply Hno. right. exact Hr.
Qed.

Lemma db_jobs_last (pre post : list PrintJob) (r : PrintJob) :
  (forall x, In x post -> job_id x <> job_id r) ->
  app_views.db_jobs_of (pre ++ r :: post) !! job_id r = Some r.
Proof.
  intros Hno. unfold app_views.db_jobs_of.
  rewrite fold_left_app. cbn [fold_left].
  rewrite db_jobs_miss by exact Hno. apply lookup_insert_eq.
Qed.

Lemma db_jobs_hit (jobs : list PrintJob) (j : string) (r : PrintJob) :
  app_views.db_jobs_of jobs !! j = Some r ->
  exists pre post,
    jobs = pre ++ r :: post /\ job_id r = j
    /\ forall x, In x post -> job_id x <> j.
Proof.
  unfold app_views.db_jobs_of. revert r.
  induction jobs as [|x init IH] using rev_ind; intros r H.
  - cbn in H. rewrite lookup_empty in H. discriminate.
  - rewrite fold_left_app in H. cbn [fold_left] in H.
    destruct (String.eqb_spec (job_id x) j) as [He|Hne].
    + rewrite He, lookup_insert_eq in H. injection H as <-.
      exists init, []. split; [reflexivity|]. split; [exact He|].
      intros y [].
    + rewrite lookup_insert_ne in H by exact Hne.
      destruct (IH r H) as (pre & post & -> & Hj & Hpost).
      exists pre, (post ++ [x]). split; [|split; [exact Hj|]].
      * rewrite <- app_assoc. reflexivity.
      * intros y Hy. apply in_app_or in Hy as [Hy|[<-|[]]]; auto.
Qed.

Lemma db_jobs_none (jobs : list PrintJob) (j : string) :
  app_views.db_jobs_of jobs !! j = None <->
  forall r, In r jobs -> job_id r <> j.
Proof.
  split.
  - intros Hnone r Hr Hj.
    apply in_split in Hr as (pre & post & ->).
    assert (Hsome : is_Some (app_views.db_jobs_of (pre ++ r :: post) !! j)).
    { clear Hnone. subst j. revert pre r.
      induction post as [|y post IH] using rev_ind; intros pre r.
      - rewrite db_jobs_last; [eauto|intros x []].
      - unfold app_views.db_jobs_of.
        change (pre ++ r :: post ++ [y]) with (pre ++ (r :: post) ++ [y]).
        rewrite app_assoc, fold_left_app. cbn [fold_left].
        destruct (String.eqb_spec (job_id y) (job_id r)) as [He|Hne].
        + rewrite He, lookup_insert_eq. eauto.
        + rewrite lookup_insert_ne by exact Hne. apply IH. }
    rewrite Hnone in Hsome. destruct Hsome as [? [=]].
  - intros Hno. unfold app_views.db_jobs_of.
    rewrite db_jobs_miss by exact Hno. apply lookup_empty.
Qed.

Lemma sorted_before {A} (R : A -> A -> Prop) (pre post : list A) (r x : A) :
  StronglySorted R (pre ++ r :: post) -> In x pre -> R x r.
Proof.
  induction pre as [|y pre IH]; intros Hs Hx; [destruct Hx|].
  cbn in Hs. apply StronglySorted_inv in Hs as [Hs Hy].
  destruct Hx as [<-|Hx]; [|exact (IH Hs Hx)].
  rewrite List.Forall_forall in Hy. apply Hy.
  apply in_or_app. right. left. reflexivity.
Qed.

(** The day before [now], as the queue view computes it. *)
Lemma yesterday (now : Z) :
  db_helper.days_ago now 1
  = if db_helper.is_datetime (now - 86400000000)
    then Some (now - 86400000000) else None.
Proof.
  unfold db_helper.days_ago, db_helper.datetime_sub.
  change (db_helper.timedelta_days 1) with (Some 86400000000).
  reflexivity.
Qed.

End QueueView.

(** X14. The queue view changes neither the store nor the disk and runs
    [lpstat -o] only. With the day before [now] a date, as it is for
    every clock but one set to the first day of the year 1 or beyond the
    year 9999, it answers 200 with one item per entry of the spooler's
    queue, in the same order, with the spooler's job id, status and size.
    The file name, copies and duplex of an item come from the store's
    rows of the last day with that job id: the placeholders "Unknown", 1
    and false when there is none, and otherwise the values of the one
    submitted earliest among them. With such a clock the listing raises
    and the view answers 500. *)
Theorem get_queue_merges
    (order_by : list db_helper.PrintJob -> list db_helper.PrintJob)
    (E : app.Env) (now : Z) (w : app.World) :
  db_queries.orders_newest_first order_by ->
  let cups_queue :=
    fst (cups_helper.get_print_queue (app.subprocess E) (app.spawned w)) in
  let recent r :=
    In r (db_helper.rows (app.db w))
    /\ now - 86400000000 < db_helper.submitted_at r in
  let w' := snd (app_views.get_queue order_by E now w) in
  app.db w' = app.db w /\ app.disk w' = app.disk w
  /\ app.spawned w' = app.spawned w ++ [["lpstat"; "-o"]%string]
  /\ (db_helper.is_datetime (now - 86400000000) = true ->
      exists items,
        fst (app_views.get_queue order_by E now w)
        = (app_views.Queue items, 200)
        /\ map app_views.job_id items = map cups_helper.job_id cups_queue
        /\ map app_views.status items = map cups_helper.status cups_queue
        /\ map app_views.size items = map cups_helper.size cups_queue
        /\ (forall item, In item items ->
              ((forall r, recent r ->
                          db_helper.job_id r <> app_views.job_id item) ->
               app_views.filename item = "Unknown"%string
               /\ app_views.copies item = 1
               /\ app_views.duplex item = false)
              /\ ((exists r, recent r
                             /\ db_helper.job_id r = app_views.job_id item) ->
                  exists r,
                    recent r /\ db_helper.job_id r = app_views.job_id item
                    /\ app_views.filename item = db_helper.original_filename r
                    /\ app_views.copies item = db_helper.copies r
                    /\ app_views.duplex item = db_helper.duplex r
                    /\ forall r', recent r' ->
                         db_helper.job_id r' = app_views.job_id item ->
                         db_helper.submitted_at r
                         <= db_helper.submitted_at r')))
  /\ (db_helper.is_datetime (now - 86400000000) = false ->
      fst (app_views.get_queue order_by E now w)
      = (app_views.QueueError
           "Error getting queue: date value out of range", 500)).
Proof.
  intros Horder cups_queue recent w'.
  set (w1 := app.set_spawned (app.spawned w ++ [["lpstat"; "-o"]%string]) w).
  assert (Hrun : app_views.get_queue order_by E now w
    = match db_queries.get_recent_jobs order_by now 1 (app.db w) with
      | None =>
          ((app_views.QueueError
              "Error getting queue: date value out of range", 500), w1)
      | Some jobs =>
          ((app_views.Queue
              (map (app_views.queue_item (app_views.db_jobs_of jobs))
                   cups_queue), 200), w1)
      end).
  { reflexivity. }
  subst w'. rewrite Hrun.
  assert (Hworld :
    snd (match db_queries.get_recent_jobs order_by now 1 (app.db w) with
         | None =>
             ((app_views.QueueError
                 "Error getting queue: date value out of range", 500), w1)
         | Some jobs =>
             ((app_views.Queue
                 (map (app_views.queue_item (app_views.db_jobs_of jobs))
                      cups_queue), 200), w1)
         end) = w1).
  { destruct (db_queries.get_recent_jobs order_by now 1 (app.db w));
      reflexivity. }
  rewrite Hworld.
  split; [reflexivity|]. split; [reflexivity|]. split; [reflexivity|].
  pose proof (yesterday now) as Hday.
  split.
  2:{ intros Hout. rewrite Hout in Hday.
      unfold db_queries.get_recent_jobs. rewrite Hday. reflexivity. }
  intros Hdate. rewrite Hdate in Hday.
  destruct (get_recent_jobs_in order_by now 1 _ (app.db w) Horder Hday)
    as (jobs & Hjobs & _ & Hin & Hsorted).
  rewrite Hjobs. cbn [fst snd]. eexists. split; [reflexivity|].
  assert (Hfield : forall q,
    app_views.job_id (app_views.queue_item (app_views.db_jobs_of jobs) q)
      = cups_helper.job_id q
    /\ app_views.status (app_views.queue_item (app_views.db_jobs_of jobs) q)
      = cups_helper.status q
    /\ app_views.size (app_views.queue_item (app_views.db_jobs_of jobs) q)
      = cups_helper.size q).
  { intros q. unfold app_views.queue_item.
    destruct (app_views.db_jobs_of jobs !! cups_helper.job_id q);
      repeat split. }
  split; [|split; [|split]].
  - rewrite map_map. apply map_ext. intros q. apply Hfield.
  - rewrite map_map. apply map_ext. intros q. apply Hfield.
  - rewrite map_map. apply map_ext. intros q. apply Hfield.
  - intros item Hitem. apply in_map_iff in Hitem as (q & <- & _).
    destruct (Hfield q) as (Hid & _ & _). rewrite Hid.
    unfold app_views.queue_item.
    destruct (app_views.db_jobs_of jobs !! cups_helper.job_id q)
      as [r|] eqn:Hlook; cbn.
    + apply db_jobs_hit in Hlook as (pre & post & Hpieces & Hj & Hpost).
      assert (Hr : recent r).
      { apply Hin. rewrite Hpieces. apply in_or_app. right. left.
        reflexivity. }
      split.
      * intros Hnone. exfalso. exact (Hnone r Hr Hj).
      * intros _. exists r. repeat split; try apply Hr; try assumption.
        intros r' Hr' Hj'. apply Hin in Hr'. rewrite Hpieces in Hr'.
        apply in_app_or in Hr' as [Hr'|[<-|Hr']].
        -- rewrite Hpieces in Hsorted.
           exact (sorted_before _ pre post r r' Hsorted Hr').
        -- lia.
        -- exfalso. exact (Hpost r' Hr' Hj').
    + split; [intros _; repeat split|].
      intros (r & Hr & Hj). exfalso.
      pose proof (proj1 (db_jobs_none jobs (cups_helper.job_id q)) Hlook)
        as Hmiss.
      apply (Hmiss r); [|exact Hj]. apply Hin. exact Hr.
Qed.

(** ** The upload flow *)

Section UploadTurns.
Import app.

Lemma process_file_cases (E : Env) (copies : Z) (duplex : bool) (w : World)
    (file : FileStorage) :
  let name := filename file in
  let safe_name :=
    file_helper.get_safe_filename (secure_filename E)
      (strftime_now E (ticks w)) name in
  let filepath := os_path_join (UPLOAD_FOLDER E) safe_name in
  let w2 :=
    tick (set_disk (<[filepath := stream file]> (disk w)) (tick w)) in
  let cmd := cups_helper.lp_command filepath copies duplex in
  let r := cups_helper.submit_result
             (subprocess E (length (spawned w)) cmd) in
  let w3 := set_spawned (spawned w ++ [cmd]) w2 in
  process_file E copies duplex w file
  = if String.eqb name "" then (w, [])
    else if negb (file_helper.allowed_file name) then
      (w, [Failed name ("File type not allowed. Allowed types: "
                        +:+ String.concat ", " (allowed_iter E))])
    else
      match save_error E (S (ticks w)) filepath with
      | Some e => upload_except filepath name e (tick (tick w))
      | None =>
          match PyStr.rsplit1_tail "." name with
          | None => upload_except filepath name "list index out of range" w2
          | Some ext =>
              if negb (file_helper.validate_file_content (magic E) (disk w2)
                         filepath (PyStr.lower ext))
              then (os_remove filepath w2,
                    [Failed name "File content does not match extension"])
              else if fst r then
                (tick (set_db
                   (snd (db_helper.add_print_job
                           (CURRENT_TIMESTAMP E (ticks w3)) (snd r)
                           safe_name name filepath
                           (file_helper.get_file_size_mb (disk w2) filepath)
                           copies duplex (db w3))) w3),
                 [Printed name (snd r)
                    ("Print job submitted (Job ID: " +:+ snd r +:+ ")")])
              else (os_remove filepath w3, [Failed name (snd r)])
          end
      end.
Proof.
  cbv zeta. unfold process_file.
  destruct (String.eqb (filename file) ""); [reflexivity|].
  destruct (negb (file_helper.allowed_file (filename file)));
    [reflexivity|].
  cbn [tick ticks].
  destruct (save_error E (S (ticks w)) _); [reflexivity|].
  destruct (PyStr.rsplit1_tail "." (filename file)) as [ext|];
    [|reflexivity].
  destruct (negb (file_helper.validate_file_content _ _ _ _));
    [reflexivity|].
  unfold cups_helper.submit_print_job, Subprocess.run.
  cbn [tick set_disk set_spawned set_db disk db spawned ticks].
  destruct (cups_helper.submit_result _) as [ok m].
  destruct ok; reflexivity.
Qed.

Lemma upload_loop_cons (E : Env) (copies : Z) (duplex : bool) (w : World)
    (file : FileStorage) (fs : list FileStorage) :
  upload_loop E copies duplex w (file :: fs)
  = (fst (upload_loop E copies duplex
            (fst (process_file E copies duplex w file)) fs),
     snd (process_file E copies duplex w file)
     ++ snd (upload_loop E copies duplex
               (fst (process_file E copies duplex w file)) fs)).
Proof.
  unfold upload_loop at 1. cbn [fold_left].
  destruct (process_file E copies duplex w file) as [w2 r].
  rewrite upload_loop_acc. reflexivity.
Qed.

End UploadTurns.

Section UploadEffects.
Import app.

Lemma batch_effect_nothing (copies : Z) (duplex : bool) (w w' : World)
    (results : list FileResult) :
  db w' = db w -> spawned w' = spawned w ->
  app_views.printed_ids results = [] ->
  app_views.batch_effect copies duplex w w' results.
Proof.
  intros Hdb Hsp Hids. exists [], []. rewrite Hdb, Hsp, Hids, !app_nil_r.
  repeat split; try constructor. simpl. lia.
Qed.

Lemma turn_effect (E : Env) (copies : Z) (duplex : bool) (w : World)
    (file : FileStorage) :
  app_views.batch_effect copies duplex w
    (fst (process_file E copies duplex w file))
    (snd (process_file E copies duplex w file)).
Proof.
  rewrite process_file_cases. cbv zeta.
  destruct (String.eqb (filename file) "");
    [apply batch_effect_nothing; reflexivity|].
  destruct (negb (file_helper.allowed_file (filename file)));
    [apply batch_effect_nothing; reflexivity|].
  destruct (save_error E _ _).
  { unfold upload_except. destruct (os_path_exists _ _);
      apply batch_effect_nothing; reflexivity. }
  destruct (PyStr.rsplit1_tail "." (filename file)) as [ext|].
  2:{ unfold upload_except. destruct (os_path_exists _ _);
        apply batch_effect_nothing; reflexivity. }
  destruct (negb (file_helper.validate_file_content _ _ _ _));
    [apply batch_effect_nothing; reflexivity|].
  destruct (fst (cups_helper.submit_result _)) eqn:Hok.
  - eexists [_], [_]. cbn.
    split; [reflexivity|]. split; [reflexivity|].
    split; [repeat constructor|]. split; [reflexivity|].
    split; [|lia]. repeat constructor. eexists. reflexivity.
  - eexists [], [_]. cbn. rewrite app_nil_r.
    split; [reflexivity|]. split; [reflexivity|].
    split; [constructor|]. split; [reflexivity|].
    split; [|lia]. repeat constructor. eexists. reflexivity.
Qed.

Lemma batch_effect_trans (copies : Z) (duplex : bool) (w1 w2 w3 : World)
    (r1 r2 : list FileResult) :
  app_views.batch_effect copies duplex w1 w2 r1 ->
  app_views.batch_effect copies duplex w2 w3 r2 ->
  app_views.batch_effect copies duplex w1 w3 (r1 ++ r2).
Proof.
  intros (n1 & c1 & Hr1 & Hi1 & Hf1 & Hs1 & Hc1 & Hl1)
         (n2 & c2 & Hr2 & Hi2 & Hf2 & Hs2 & Hc2 & Hl2).
  exists (n1 ++ n2), (c1 ++ c2).
  split; [rewrite Hr2, Hr1, app_assoc; reflexivity|].
  split.
  { unfold app_views.printed_ids in *.
    rewrite map_app, flat_map_app, Hi1, Hi2. reflexivity. }
  split; [apply List.Forall_app; split; assumption|].
  split; [rewrite Hs2, Hs1, app_assoc; reflexivity|].
  split; [apply List.Forall_app; split; assumption|].
  rewrite !length_app. lia.
Qed.

Lemma loop_effect (E : Env) (copies : Z) (duplex : bool)
    (fs : list FileStorage) (w : World) :
  app_views.batch_effect copies duplex w
    (fst (upload_loop E copies duplex w fs))
    (snd (upload_loop E copies duplex w fs)).
Proof.
  revert w. induction fs as [|file fs IH]; intros w.
  - apply batch_effect_nothing; reflexivity.
  - rewrite upload_loop_cons. cbn [fst snd].
    eapply batch_effect_trans; [apply turn_effect|apply IH].
Qed.

Lemma loop_reports (E : Env) (copies : Z) (duplex : bool)
    (fs : list FileStorage) (w : World) :
  map (fun r => match r with
                | Printed n _ _ => n
                | Failed n _ => n
                end) (snd (upload_loop E copies duplex w fs))
  = List.filter (fun n => negb (String.eqb n "")) (map filename fs).
Proof.
  revert w. induction fs as [|file fs IH]; intros w; [reflexivity|].
  rewrite upload_loop_cons. cbn [fst snd map List.filter].
  rewrite map_app, IH. f_equal.
  rewrite process_file_cases. cbv zeta.
  destruct (String.eqb (filename file) ""); [reflexivity|]. cbn [negb].
  destruct (negb (file_helper.allowed_file (filename file)));
    [reflexivity|].
  destruct (save_error E _ _).
  { unfold upload_except. destruct (os_path_exists _ _); reflexivity. }
  destruct (PyStr.rsplit1_tail "." (filename file)) as [ext|].
  2:{ unfold upload_except. destruct (os_path_exists _ _); reflexivity. }
  destruct (negb (file_helper.validate_file_content _ _ _ _));
    [reflexivity|].
  destruct (fst (cups_helper.submit_result _)); reflexivity.
Qed.

Lemma forallb_false_existsb {A} (p : A -> bool) (l : list A) :
  forallb p l = false -> existsb (fun x => negb (p x)) l = true.
Proof.
  induction l as [|x l IH]; simpl; [discriminate|].
  destruct (p x); simpl; [exact IH|reflexivity].
Qed.

(** The guards of the upload handler, in the order it checks them. *)
Lemma upload_files_cases (E : Env) (req : Request) (w : World) :
  let probe := ["lpstat"; "-r"]%string in
  let available :=
    Wording.exit_ok (subprocess E (length (spawned w)) probe) in
  let named :=
    existsb (fun f => negb (String.eqb (filename f) "")) (files req) in
  let w0 := set_spawned (spawned w ++ [probe]) w in
  let ran copies :=
    ((UploadResults
        (existsb succeeded
           (snd (upload_loop E copies (duplex_of req) w0 (files req))))
        (snd (upload_loop E copies (duplex_of req) w0 (files req))), 200),
     fst (upload_loop E copies (duplex_of req) w0 (files req))) in
  (exists copies,
     available = true /\ entity_too_large req = false /\ named = true
     /\ copies_of req = Some copies /\ 1 <= copies <= 10
     /\ upload_files E req w = ran copies)
  \/ (snd (upload_files E req w) = w0
      /\ exists body code,
           fst (upload_files E req w) = (body, code)
           /\ ((code = 503 /\ available = false)
               \/ (code = 413 /\ available = true
                   /\ entity_too_large req = true)
               \/ (code = 400 /\ available = true
                   /\ entity_too_large req = false
                   /\ (named = false
                       \/ exists copies,
                            copies_of req = Some copies
                            /\ (copies < 1 \/ 10 < copies)))
               \/ (code = 500 /\ available = true
                   /\ entity_too_large req = false /\ named = true
                   /\ copies_of req = None))).
Proof.
  intros probe available named w0 ran.
  unfold upload_files, cups_helper.check_cups_available, Subprocess.run.
  cbv zeta. fold probe.
  change (match subprocess E (length (spawned w)) probe with
          | Subprocess.Completed returncode _ _ => returncode =? 0
          | _ => false
          end) with available.
  fold w0.
  destruct available eqn:Hprobe; cbn [negb].
  2:{ right. split; [reflexivity|]. eexists _, _.
      split; [reflexivity|]. left. auto. }
  destruct (entity_too_large req) eqn:Hlarge.
  { right. split; [reflexivity|]. eexists _, _.
    split; [reflexivity|]. right. left. auto. }
  destruct (files req) as [|f fs] eqn:Hfiles.
  { right. split; [reflexivity|]. eexists _, _.
    split; [reflexivity|]. right. right. left.
    repeat split. left. reflexivity. }
  destruct (forallb (fun f => String.eqb (filename f) "") (f :: fs))
    eqn:Hall.
  { right. split; [reflexivity|]. eexists _, _.
    split; [reflexivity|]. right. right. left.
    repeat split. left. subst named.
    apply not_true_iff_false. intros Hex.
    apply existsb_exists in Hex as (x & Hx & Hname).
    rewrite forallb_forall in Hall. rewrite (Hall x Hx) in Hname.
    discriminate. }
  assert (Hnamed : named = true)
    by (apply forallb_false_existsb; exact Hall).
  destruct (copies_of req) as [copies|] eqn:Hcopies.
  2:{ right. split; [reflexivity|]. eexists _, _.
      split; [reflexivity|]. right. right. right. auto. }
  destruct ((copies <? 1) || (10 <? copies)) eqn:Hrange.
  { right. split; [reflexivity|]. eexists _, _.
    split; [reflexivity|]. right. right. left.
    repeat split. right. exists copies. split; [reflexivity|].
    apply orb_true_iff in Hrange. rewrite !Z.ltb_lt in Hrange.
    exact Hrange. }
  left. exists copies. split; [reflexivity|]. split; [reflexivity|].
  split; [exact Hnamed|]. split; [reflexivity|]. split.
  { apply orb_false_elim in Hrange as [H1 H2].
    apply Z.ltb_ge in H1. apply Z.ltb_ge in H2. lia. }
  subst ran. cbv beta.
  destruct (upload_loop E copies (duplex_of req) w0 (f :: fs)) as [w' rs].
  reflexivity.
Qed.

Lemma named_iff (fs : list FileStorage) :
  existsb (fun f => negb (String.eqb (filename f) "")) fs = true <->
  exists f, In f fs /\ filename f <> ""%string.
Proof.
  rewrite existsb_exists. split; intros (f & Hf & Hname); exists f;
    (split; [exact Hf|]).
  - apply negb_true_iff, String.eqb_neq in Hname. exact Hname.
  - apply negb_true_iff, String.eqb_neq. exact Hname.
Qed.

End UploadEffects.

(** X15. The upload handler answers 200, 400, 413, 500 or 503. Unless it
    answers 200 it has done nothing but run the availability probe: the
    disk and the store are as before and no other command was run. It
    answers 503 exactly when the probe fails; 413 exactly when the probe
    succeeds and the body is above the size limit; 200 exactly when the
    probe succeeds, the body is within the limit, some file has a name
    and [int] reads copies as a number from 1 to 10; and 500 exactly when
    all but the last hold and [int] refuses the copies value. *)
Theorem upload_rejected_no_effect (E : app.Env) (req : app.Request)
    (w : app.World) :
  let probe := ["lpstat"; "-r"]%string in
  let available :=
    Wording.exit_ok (app.subprocess E (length (app.spawned w)) probe) in
  let named := exists f, In f (app.files req) /\ app.filename f <> ""%string in
  let code := snd (fst (app.upload_files E req w)) in
  let w' := snd (app.upload_files E req w) in
  (code = 200 \/ code = 400 \/ code = 413 \/ code = 500 \/ code = 503)
  /\ (code <> 200 ->
      app.disk w' = app.disk w /\ app.db w' = app.db w
      /\ app.spawned w' = app.spawned w ++ [probe])
  /\ (code = 503 <-> available = false)
  /\ (code = 413 <-> available = true /\ app.entity_too_large req = true)
  /\ (code = 200 <->
      available = true /\ app.entity_too_large req = false /\ named
      /\ exists copies, app.copies_of req = Some copies /\ 1 <= copies <= 10)
  /\ (code = 500 <->
      available = true /\ app.entity_too_large req = false /\ named
      /\ app.copies_of req = None).
Proof.
  intros probe available named code w'. subst code w' named.
  rewrite <- named_iff.
  pose proof (upload_files_cases E req w) as Hcases. cbv zeta in Hcases.
  fold probe in Hcases. fold available in Hcases.
  destruct Hcases
    as [(copies & Hprobe & Hlarge & Hnamed & Hcopies & Hrange & Hrun)
       |(Hw & body & code & Hresp & Hcode)].
  - rewrite Hrun. cbn [fst snd].
    split; [auto|]. split; [congruence|].
    split; [split; [discriminate|congruence]|].
    split; [split; [discriminate|intros [_ H]; congruence]|].
    split.
    + split; [|reflexivity]. intros _. repeat split; try assumption.
      exists copies. auto.
    + split; [discriminate|]. intros (_ & _ & _ & H). congruence.
  - rewrite Hw, Hresp. cbn [fst snd].
    destruct Hcode
      as [[-> Hav]
         |[(-> & Hav & Hlarge)
          |[(-> & Hav & Hlarge & Hwhy)
           |(-> & Hav & Hlarge & Hnamed & Hnone)]]].
    + split; [tauto|]. split; [intros _; repeat split|].
      split; [tauto|].
      split; [split; [discriminate|intros [H _]; congruence]|].
      split; (split; [discriminate|intros [H _]; congruence]).
    + split; [tauto|]. split; [intros _; repeat split|].
      split; [split; [discriminate|congruence]|].
      split; [tauto|].
      split; (split; [discriminate|intros (_ & H & _); congruence]).
    + split; [tauto|]. split; [intros _; repeat split|].
      split; [split; [discriminate|congruence]|].
      split; [split; [discriminate|intros [_ H]; congruence]|].
      split.
      * split; [discriminate|].
        intros (_ & _ & Hnamed & copies & Hcopies & Hrange). exfalso.
        destruct Hwhy as [Hno|(c & Hc & Hout)]; [congruence|].
        rewrite Hcopies in Hc. injection Hc as <-. lia.
      * split; [discriminate|].
        intros (_ & _ & Hnamed & Hnone). exfalso.
        destruct Hwhy as [Hno|(c & Hc & Hout)]; congruence.
    + split; [tauto|]. split; [intros _; repeat split|].
      split; [split; [discriminate|congruence]|].
      split; [split; [discriminate|intros [_ H]; congruence]|].
      split.
      * split; [discriminate|].
        intros (_ & _ & _ & copies & Hcopies & _). congruence.
      * split; [intros _; auto|reflexivity].
Qed.

(** X16. When the upload handler answers 200, the store has grown by
    exactly one row per file reported as printed, in that order and with
    the job ids reported; the new rows are pending and carry the
    request's copies and duplex. Beyond the probe only [lp] commands with
    these options were run, at most one per reported file. Every file
    with a name is reported once, in the order sent, and the overall
    success flag says whether any was printed; when none was, the store
    has the rows it had. *)
Theorem upload_batch_records (E : app.Env) (req : app.Request)
    (w : app.World) :
  snd (fst (app.upload_files E req w)) = 200 ->
  let w0 := app.set_spawned
              (app.spawned w ++ [["lpstat"; "-r"]%string]) w in
  let w' := snd (app.upload_files E req w) in
  exists copies results,
    app.copies_of req = Some copies
    /\ fst (fst (app.upload_files E req w))
       = app.UploadResults (existsb app.succeeded results) results
    /\ app_views.batch_effect copies (app.duplex_of req) w0 w' results
    /\ map (fun r => match r with
                     | app.Printed n _ _ => n
                     | app.Failed n _ => n
                     end) results
       = List.filter (fun n => negb (String.eqb n ""))
                     (map app.filename (app.files req))
    /\ (existsb app.succeeded results = false ->
        db_helper.rows (app.db w') = db_helper.rows (app.db w)).
Proof.
  intros Hcode w0 w'. subst w'.
  destruct (upload_files_cases E req w)
    as [(copies & Hprobe & Hlarge & Hnamed & Hcopies & Hrange & Hrun)
       |(Hw & body & code & Hresp & Hbad)].
  2:{ rewrite Hresp in Hcode. cbn in Hcode. subst code.
      destruct Hbad as [[H _]|[[H _]|[[H _]|[H _]]]]; discriminate H. }
  fold w0 in Hrun. rewrite Hrun. cbn [fst snd].
  exists copies,
    (snd (app.upload_loop E copies (app.duplex_of req) w0 (app.files req))).
  split; [exact Hcopies|]. split; [reflexivity|].
  pose proof (loop_effect E copies (app.duplex_of req) (app.files req) w0)
    as Heffect.
  split; [exact Heffect|]. split; [apply loop_reports|].
  intros Hnone. destruct Heffect as (new & cmds & Hrows & Hids & _).
  assert (Hempty : app_views.printed_ids
            (snd (app.upload_loop E copies (app.duplex_of req) w0
                    (app.files req))) = []).
  { revert Hnone. generalize (snd (app.upload_loop E copies
                                     (app.duplex_of req) w0 (app.files req))).
    intros rs. induction rs as [|r rs IH]; [reflexivity|].
    cbn. destruct r; cbn; [discriminate|exact IH]. }
  rewrite Hempty in Hids. destruct new; [|discriminate Hids].
  rewrite Hrows, app_nil_r. reflexivity.
Qed.

Section UploadDisk.
Import app.

Lemma except_disk (filepath name e : string) (w : World) :
  disk (fst (upload_except filepath name e w)) !! filepath = None
  /\ (forall p, p <> filepath ->
        disk (fst (upload_except filepath name e w)) !! p = disk w !! p)
  /\ db (fst (upload_except filepath name e w)) = db w
  /\ spawned (fst (upload_except filepath name e w)) = spawned w.
Proof.
  unfold upload_except, os_path_exists.
  destruct (disk w !! filepath) eqn:Hl; cbn.
  - split; [apply lookup_delete_eq|]. split; [|auto].
    intros p Hp. apply lookup_delete_ne. congruence.
  - auto.
Qed.

Lemma allowed_has_mime (name ext : string) :
  file_helper.allowed_file name = true ->
  PyStr.rsplit1_tail "." name = Some ext ->
  exists m, file_helper.mime_map !! PyStr.lower ext = Some m.
Proof.
  unfold file_helper.allowed_file. intros H Hext. rewrite Hext in H.
  apply andb_prop in H as [_ H].
  apply existsb_exists in H as (x & Hx & He).
  apply String.eqb_eq in He. rewrite He.
  destruct Hx as [<-|[<-|[<-|[<-|[<-|[]]]]]];
    eexists; vm_compute; reflexivity.
Qed.

End UploadDisk.

(** X17. One turn of the upload loop touches no path but the one it
    stores its file under. A file without a name or with an extension that
    is not allowed leaves disk, store and command log as they were. For
    any other file the path holds the uploaded bytes after the turn when
    the file was printed and holds nothing when it was not, whatever was
    stored under that path before. *)
Theorem process_file_disk (E : app.Env) (copies : Z) (duplex : bool)
    (w : app.World) (file : app.FileStorage) :
  let filepath :=
    app.os_path_join (app.UPLOAD_FOLDER E)
      (file_helper.get_safe_filename (app.secure_filename E)
         (app.strftime_now E (app.ticks w)) (app.filename file)) in
  let w' := fst (app.process_file E copies duplex w file) in
  let results := snd (app.process_file E copies duplex w file) in
  (forall p, p <> filepath -> app.disk w' !! p = app.disk w !! p)
  /\ (app.filename file = ""%string
      \/ file_helper.allowed_file (app.filename file) = false ->
      app.disk w' = app.disk w /\ app.db w' = app.db w
      /\ app.spawned w' = app.spawned w)
  /\ (app.filename file <> ""%string ->
      file_helper.allowed_file (app.filename file) = true ->
      app.disk w' !! filepath
      = if existsb app.succeeded results then Some (app.stream file)
        else None).
Proof.
  intros filepath w' results. subst w' results.
  rewrite process_file_cases. cbv zeta. fold filepath.
  destruct (String.eqb_spec (app.filename file) "") as [Hname|Hname].
  { cbn. split; [auto|]. split; [auto|]. intros H. contradiction. }
  destruct (file_helper.allowed_file (app.filename file)) eqn:Hallowed;
    cbn [negb].
  2:{ cbn. split; [auto|]. split; [auto|]. discriminate. }
  assert (Hskip : app.filename file = ""%string \/ true = false ->
                  False).
  { intros [H|H]; [contradiction|discriminate]. }
  destruct (app.save_error E _ filepath).
  { destruct (except_disk filepath (app.filename file) s
                (app.tick (app.tick w))) as (Hgone & Hother & _).
    split; [exact Hother|]. split; [intros H; destruct (Hskip H)|].
    intros _ _. exact Hgone. }
  destruct (PyStr.rsplit1_tail "." (app.filename file)) as [ext|].
  2:{ match goal with
      | |- context [app.upload_except ?p ?n ?e ?v] =>
          destruct (except_disk p n e v) as (Hgone & Hother & _)
      end.
      split.
      { intros p Hp. rewrite (Hother p Hp). cbn.
        apply lookup_insert_ne. congruence. }
      split; [intros H; destruct (Hskip H)|]. intros _ _. exact Hgone. }
  destruct (negb (file_helper.validate_file_content _ _ _ _)).
  { cbn. split.
    { intros p Hp. rewrite lookup_delete_ne, lookup_insert_ne by congruence.
      reflexivity. }
    split; [intros H; destruct (Hskip H)|]. intros _ _.
    apply lookup_delete_eq. }
  destruct (fst (cups_helper.submit_result _)); cbn.
  - split; [intros p Hp; apply lookup_insert_ne; congruence|].
    split; [intros H; destruct (Hskip H)|]. intros _ _.
    apply lookup_insert_eq.
  - split.
    { intros p Hp. rewrite lookup_delete_ne, lookup_insert_ne by congruence.
      reflexivity. }
    split; [intros H; destruct (Hskip H)|]. intros _ _.
    apply lookup_delete_eq.
Qed.

(** X18. A named, allowed file that has been written and whose sniffed
    media type is the table's entry for its extension is handed to the
    spooler with one [lp] command. When the spooler accepts, the file
    stays on disk, the result reports the job id, and the store gets one
    new row holding that job id, the stored and the original name, the
    path, the size of the bytes in MB, and the request's copies and
    duplex. When it does not, the file is removed, the store is
    unchanged, and the result carries the spooler's message. *)
Theorem upload_turn_after_validation (E : app.Env) (copies : Z)
    (duplex : bool) (w : app.World) (file : app.FileStorage) (ext : string) :
  app.filename file <> ""%string ->
  file_helper.allowed_file (app.filename file) = true ->
  PyStr.rsplit1_tail "." (app.filename file) = Some ext ->
  let safe_name :=
    file_helper.get_safe_filename (app.secure_filename E)
      (app.strftime_now E (app.ticks w)) (app.filename file) in
  let filepath := app.os_path_join (app.UPLOAD_FOLDER E) safe_name in
  app.save_error E (S (app.ticks w)) filepath = None ->
  app.magic E (app.stream file) = file_helper.mime_map !! PyStr.lower ext ->
  let cmd := cups_helper.lp_command filepath copies duplex in
  let result := app.subprocess E (length (app.spawned w)) cmd in
  let answer := cups_helper.submit_result result in
  let w' := fst (app.process_file E copies duplex w file) in
  let results := snd (app.process_file E copies duplex w file) in
  app.spawned w' = app.spawned w ++ [cmd]
  /\ (Wording.exit_ok result = true ->
      results = [app.Printed (app.filename file) (snd answer)
                   ("Print job submitted (Job ID: " +:+ snd answer +:+ ")")]
      /\ app.disk w' !! filepath = Some (app.stream file)
      /\ app.db w'
         = snd (db_helper.add_print_job
                  (app.CURRENT_TIMESTAMP E (S (S (app.ticks w))))
                  (snd answer) safe_name (app.filename file) filepath
                  (Qmake (Z.of_nat (String.length (app.stream file)))
                         1048576)
                  copies duplex (app.db w)))
  /\ (Wording.exit_ok result = false ->
      results = [app.Failed (app.filename file) (snd answer)]
      /\ app.disk w' !! filepath = None
      /\ app.db w' = app.db w).
Proof.
  intros Hname Hallowed Hext safe_name filepath Hsave Hsniff cmd result
    answer w' results.
  destruct (allowed_has_mime _ _ Hallowed Hext) as [m Hm].
  assert (Hvalid :
    file_helper.validate_file_content (app.magic E)
      (<[filepath := app.stream file]> (app.disk w)) filepath
      (PyStr.lower ext) = true).
  { apply validate_true_iff. exists (app.stream file), m.
    split; [apply lookup_insert_eq|]. rewrite lower_idem. split; congruence. }
  subst w' results. rewrite process_file_cases. cbv zeta.
  fold safe_name. fold filepath. fold cmd. fold result. fold answer.
  apply String.eqb_neq in Hname. rewrite Hname, Hallowed. cbn [negb].
  rewrite Hsave, Hext.
  cbn [app.tick app.set_disk app.disk app.db app.spawned app.ticks
       app.set_spawned].
  rewrite Hvalid. cbn [negb].
  assert (Hans : fst answer = Wording.exit_ok result)
    by apply submit_result_ok.
  rewrite Hans. destruct (Wording.exit_ok result); cbn.
  - split; [reflexivity|]. split; [|discriminate]. intros _.
    split; [reflexivity|]. split; [apply lookup_insert_eq|].
    unfold file_helper.get_file_size_mb. rewrite lookup_insert_eq.
    reflexivity.
  - split; [reflexivity|]. split; [discriminate|]. intros _.
    split; [reflexivity|]. split; [apply lookup_delete_eq|reflexivity].
Qed.

(** ** Reprint, cancel and the store's shape *)

(** X19. The reprint handler answers 200, 400 or 404. It answers 404
    exactly when no row carries the job id or the file of the row found is
    no longer on disk, and then nothing has happened: the world is the
    one it started in, and the spooler was not called. *)
Theorem reprint_not_found (E : app.Env) (job_id : string) (w : app.World) :
  let code := snd (fst (app.reprint_job E job_id w)) in
  (code = 200 \/ code = 400 \/ code = 404)
  /\ (code = 404 <->
      db_helper.get_job_by_id job_id (app.db w) = None
      \/ exists job,
           db_helper.get_job_by_id job_id (app.db w) = Some job
           /\ app.os_path_exists (db_helper.filepath job) w = false)
  /\ (code = 404 -> snd (app.reprint_job E job_id w) = w).
Proof.
  intros code. subst code. unfold app.reprint_job.
  destruct (db_helper.get_job_by_id job_id (app.db w)) as [job|] eqn:Hjob.
  2:{ cbn. split; [auto|]. split; [split; auto|reflexivity]. }
  destruct (app.os_path_exists (db_helper.filepath job) w) eqn:Hfile;
    cbn [negb].
  2:{ cbn. split; [auto|]. split; [|reflexivity].
      split; [|reflexivity]. intros _. right. exists job. auto. }
  unfold cups_helper.submit_print_job, Subprocess.run. cbv zeta.
  destruct (cups_helper.submit_result _) as [ok m].
  destruct ok; cbn.
  - split; [auto|]. split; [|discriminate].
    split; [discriminate|].
    intros [H|(job' & Hj & Hf)]; [discriminate|]. congruence.
  - split; [auto|]. split; [|discriminate].
    split; [discriminate|].
    intros [H|(job' & Hj & Hf)]; [discriminate|]. congruence.
Qed.

Section FlowsShape.
Import app.

Lemma turn_keeps_well_formed (E : Env) (copies : Z) (duplex : bool)
    (w : World) (file : FileStorage) :
  db_queries.well_formed (db w) ->
  db_queries.well_formed (db (fst (process_file E copies duplex w file))).
Proof.
  intros Hwf. rewrite process_file_cases. cbv zeta.
  destruct (String.eqb (filename file) ""); [exact Hwf|].
  destruct (negb (file_helper.allowed_file (filename file))); [exact Hwf|].
  destruct (save_error E _ _).
  { unfold upload_except. destruct (os_path_exists _ _); exact Hwf. }
  destruct (PyStr.rsplit1_tail "." (filename file)) as [ext|].
  2:{ unfold upload_except. destruct (os_path_exists _ _); exact Hwf. }
  destruct (negb (file_helper.validate_file_content _ _ _ _)); [exact Hwf|].
  destruct (fst (cups_helper.submit_result _)); [|exact Hwf].
  cbn [fst tick set_db db]. apply add_keeps_well_formed. exact Hwf.
Qed.

Lemma loop_keeps_well_formed (E : Env) (copies : Z) (duplex : bool)
    (fs : list FileStorage) (w : World) :
  db_queries.well_formed (db w) ->
  db_queries.well_formed (db (fst (upload_loop E copies duplex w fs))).
Proof.
  revert w. induction fs as [|file fs IH]; intros w Hwf; [exact Hwf|].
  rewrite upload_loop_cons. cbn [fst]. apply IH.
  apply turn_keeps_well_formed. exact Hwf.
Qed.

Lemma well_formed_distinct (s : db_helper.Store) :
  db_queries.well_formed s -> List.NoDup (map db_helper.id (db_helper.rows s)).
Proof.
  intros (Hsorted & _). induction Hsorted as [|r rs Hrs IH Hr]; cbn.
  - constructor.
  - constructor; [|exact IH]. intros Hin.
    apply in_map_iff in Hin as (x & Hx & Hin).
    rewrite List.Forall_forall in Hr. specialize (Hr x Hin). lia.
Qed.

End FlowsShape.

(** X20. The three handlers that write to the store keep it in shape:
    starting from a table whose rows are in rowid order below the
    AUTOINCREMENT counter, the table after an upload, a cancel or a
    reprint is again such a table, so its record ids are pairwise
    distinct. *)
Theorem handlers_keep_store_well_formed (E : app.Env) (w : app.World) :
  db_queries.well_formed (app.db w) ->
  (forall req,
     db_queries.well_formed (app.db (snd (app.upload_files E req w)))
     /\ List.NoDup (map db_helper.id
                 (db_helper.rows (app.db (snd (app.upload_files E req w))))))
  /\ (forall job_id,
        db_queries.well_formed (app.db (snd (app.cancel_job E job_id w)))
        /\ List.NoDup (map db_helper.id
                    (db_helper.rows
                       (app.db (snd (app.cancel_job E job_id w))))))
  /\ (forall job_id,
        db_queries.well_formed (app.db (snd (app.reprint_job E job_id w)))
        /\ List.NoDup (map db_helper.id
                    (db_helper.rows
                       (app.db (snd (app.reprint_job E job_id w)))))).
Proof.
  intros Hwf.
  assert (Hup : forall req,
    db_queries.well_formed (app.db (snd (app.upload_files E req w)))).
  { intros req.
    destruct (upload_files_cases E req w)
      as [(copies & _ & _ & _ & _ & _ & Hrun)|(Hw & _)].
    - rewrite Hrun. cbn [snd]. apply loop_keeps_well_formed. exact Hwf.
    - rewrite Hw. exact Hwf. }
  assert (Hcancel : forall job_id,
    db_queries.well_formed (app.db (snd (app.cancel_job E job_id w)))).
  { intros job_id. unfold app.cancel_job, cups_helper.cancel_print_job,
      Subprocess.run. cbv zeta.
    destruct (cups_helper.cancel_result _ _) as [ok m].
    destruct ok; cbn [snd app.tick app.set_db app.db app.set_spawned];
      [|exact Hwf].
    apply update_keeps_well_formed. exact Hwf. }
  assert (Hre : forall job_id,
    db_queries.well_formed (app.db (snd (app.reprint_job E job_id w)))).
  { intros job_id. unfold app.reprint_job.
    destruct (db_helper.get_job_by_id job_id (app.db w)) as [job|];
      [|exact Hwf].
    destruct (negb (app.os_path_exists _ w)); [exact Hwf|].
    unfold cups_helper.submit_print_job, Subprocess.run. cbv zeta.
    destruct (cups_helper.submit_result _) as [ok m].
    destruct ok; [|exact Hwf].
    destruct (db_helper.add_print_job _ _ _ _ _ _ _ _ _) as [rowid db']
      eqn:Hadd.
    cbn [snd app.tick app.set_db app.db app.set_spawned].
    change db' with (snd (rowid, db')). rewrite <- Hadd.
    apply add_keeps_well_formed. exact Hwf. }
  split; [|split]; intros x; (split; [|apply well_formed_distinct]); auto.
Qed.

(** X21. Cancelling a job id that no row carries leaves the store exactly
    as it was, whatever the spooler answers; the handler answers 200 when
    the spooler's cancel succeeds, though nothing was recorded, and 400
    otherwise. *)
Theorem cancel_unknown_job (E : app.Env) (job_id : string) (w : app.World) :
  db_helper.get_job_by_id job_id (app.db w) = None ->
  let result :=
    app.subprocess E (length (app.spawned w)) ["cancel"%string; job_id] in
  let code := snd (fst (app.cancel_job E job_id w)) in
  app.db (snd (app.cancel_job E job_id w)) = app.db w
  /\ (Wording.exit_ok result = true -> code = 200)
  /\ (Wording.exit_ok result = false -> code = 400).
Proof.
  intros Hnone result code. subst code.
  assert (Hno : forall r, In r (db_helper.rows (app.db w)) ->
                          db_helper.job_id r <> job_id).
  { intros r Hr Hj. unfold db_helper.get_job_by_id in Hnone.
    pose proof (find_none _ _ Hnone r Hr) as H. cbn in H.
    apply String.eqb_neq in H. contradiction. }
  assert (Hok : fst (cups_helper.cancel_result job_id result)
                = Wording.exit_ok result).
  { destruct result as [rc out err| | |]; simpl; try reflexivity.
    destruct (rc =? 0); reflexivity. }
  unfold app.cancel_job, cups_helper.cancel_print_job, Subprocess.run.
  cbv zeta. fold result.
  destruct (cups_helper.cancel_result job_id result) as [ok m].
  cbn [fst] in Hok. subst ok.
  destruct (Wording.exit_ok result); cbn.
  - split; [|split; [reflexivity|discriminate]].
    unfold db_helper.update_job_status. cbn.
    apply update_where_no_match. exact Hno.
  - split; [reflexivity|]. split; [discriminate|reflexivity].
Qed.

Section Immutable.
Import db_helper.

Lemma update_keeps_immutable (now : Z) (jid new_status : string)
    (msg : option string) (s : Store) :
  map db_queries.immutable_part
      (rows (update_job_status now jid new_status msg s))
  = map db_queries.immutable_part (rows s).
Proof.
  unfold update_job_status.
  destruct (String.eqb new_status "completed");
    unfold update_where_job_id; cbn [rows];
    rewrite map_map; apply map_ext; intros r;
    destruct (String.eqb (job_id r) jid); reflexivity.
Qed.

End Immutable.

(** X22. No handler removes a row or rewrites what was fixed at insert.
    After an upload, a cancel or a reprint, the rows that were in the
    store are still there, in place, with the same record id, job id,
    names, path, size, copies, duplex and submission time; rows are only
    added at the end, and a cancel adds none. *)
Theorem handlers_never_delete (E : app.Env) (w : app.World) :
  (forall req, exists added,
     map db_queries.immutable_part
         (db_helper.rows (app.db (snd (app.upload_files E req w))))
     = map db_queries.immutable_part (db_helper.rows (app.db w)) ++ added)
  /\ (forall job_id,
        map db_queries.immutable_part
            (db_helper.rows (app.db (snd (app.cancel_job E job_id w))))
        = map db_queries.immutable_part (db_helper.rows (app.db w)))
  /\ (forall job_id, exists added,
        map db_queries.immutable_part
            (db_helper.rows (app.db (snd (app.reprint_job E job_id w))))
        = map db_queries.immutable_part (db_helper.rows (app.db w)) ++ added
        /\ (length added <= 1)%nat).
Proof.
  split; [|split].
  - intros req.
    destruct (upload_files_cases E req w)
      as [(copies & _ & _ & _ & _ & _ & Hrun)|(Hw & _)].
    + rewrite Hrun. cbn [snd].
      destruct (loop_effect E copies (app.duplex_of req) (app.files req)
                  (app.set_spawned
                     (app.spawned w ++ [["lpstat"; "-r"]%string]) w))
        as (new & cmds & Hrows & _).
      exists (map db_queries.immutable_part new).
      rewrite Hrows, map_app. reflexivity.
    + rewrite Hw. exists []. rewrite app_nil_r. reflexivity.
  - intros job_id. unfold app.cancel_job, cups_helper.cancel_print_job,
      Subprocess.run. cbv zeta.
    destruct (cups_helper.cancel_result _ _) as [ok m].
    destruct ok; cbn [snd app.tick app.set_db app.db app.set_spawned];
      [|reflexivity].
    apply update_keeps_immutable.
  - intros job_id. unfold app.reprint_job.
    destruct (db_helper.get_job_by_id job_id (app.db w)) as [job|].
    2:{ exists []. rewrite app_nil_r. split; [reflexivity|simpl; lia]. }
    destruct (negb (app.os_path_exists _ w)).
    { exists []. rewrite app_nil_r. split; [reflexivity|simpl; lia]. }
    unfold cups_helper.submit_print_job, Subprocess.run. cbv zeta.
    destruct (cups_helper.submit_result _) as [ok m].
    destruct ok.
    + eexists [_]. cbn. rewrite map_app. split; [reflexivity|lia].
    + exists []. rewrite app_nil_r. split; [reflexivity|simpl; lia].
Qed.

(** X23. Status updates are not ordered against each other, and each
    writes only its own columns. In a row with the given job id, a
    completion followed by another status leaves the completion time in
    place beside the new status and message; a status with a message
    followed by a completion leaves that message on the completed row.
    Nothing stops a finished job from being set back to "pending". *)
Theorem status_updates_compose (t1 t2 : Z) (jid other_status : string)
    (msg : option string) (s : db_helper.Store) (i : nat)
    (r : db_helper.PrintJob) :
  nth_error (db_helper.rows s) i = Some r ->
  db_helper.job_id r = jid ->
  other_status <> "completed"%string ->
  (exists r',
     nth_error
       (db_helper.rows
          (db_helper.update_job_status t2 jid other_status msg
             (db_helper.update_job_status t1 jid "completed" None s))) i
     = Some r'
     /\ db_helper.status r' = other_status
     /\ db_helper.completed_at r' = Some t1
     /\ db_helper.error_message r' = msg)
  /\ (exists r',
        nth_error
          (db_helper.rows
             (db_helper.update_job_status t2 jid "completed" None
                (db_helper.update_job_status t1 jid other_status msg s))) i
        = Some r'
        /\ db_helper.status r' = "completed"%string
        /\ db_helper.completed_at r' = Some t2
        /\ db_helper.error_message r' = msg).
Proof.
  intros Hr Hj Hother.
  apply String.eqb_neq in Hother. apply String.eqb_eq in Hj.
  unfold db_helper.update_job_status. rewrite Hother.
  change (String.eqb "completed" "completed") with true. cbv iota.
  split; rewrite !update_where_nth, Hr; cbn [option_map]; rewrite Hj;
    cbn [db_helper.job_id db_helper.set_completed
         db_helper.set_status_error]; rewrite Hj;
    eexists; (split; [reflexivity|]); cbn; auto.
Qed.

(** ** The further properties at work on the samples *)

Lemma add_then_lookup_witness :
  (exists r,
     db_helper.get_job_by_id "43"
       (snd (db_helper.add_print_job 0 "43" "stored.pdf" "a.pdf" "/p/a.pdf"
               0%Q 1 false Samples.one_job_store)) = Some r
     /\ db_helper.id r = 2 /\ db_helper.status r = "pending"%string)
  /\ db_helper.get_job_by_id "42"
       (snd (db_helper.add_print_job 0 "42" "stored.pdf" "a.pdf" "/p/a.pdf"
               0%Q 1 false Samples.one_job_store))
     = Some Samples.report_job.
Proof.
  split.
  - destruct (add_then_lookup 0 "43" "stored.pdf" "a.pdf" "/p/a.pdf" 0%Q 1
                false Samples.one_job_store) as (Hnew & _).
    eexists. split; [apply Hnew; reflexivity|]. split; reflexivity.
  - destruct (add_then_lookup 0 "42" "stored.pdf" "a.pdf" "/p/a.pdf" 0%Q 1
                false Samples.one_job_store) as (_ & Hold & _).
    apply Hold. reflexivity.
Defined.

Lemma three_job_store_well_formed :
  db_queries.well_formed Samples.three_job_store.
Proof.
  split; [|split].
  - repeat constructor; cbn; lia.
  - repeat constructor; cbn; lia.
  - cbn. lia.
Qed.

Lemma one_job_store_well_formed :
  db_queries.well_formed Samples.one_job_store.
Proof.
  split; [|split].
  - repeat constructor.
  - repeat constructor; cbn; lia.
  - cbn. lia.
Qed.

Lemma store_stays_well_formed_witness :
  fst (db_helper.add_print_job 0 "44" "stored.pdf" "a.pdf" "/p/a.pdf"
         0%Q 1 false Samples.three_job_store) = 4
  /\ fst (db_helper.add_print_job 0 "44" "stored.pdf" "a.pdf" "/p/a.pdf"
            0%Q 1 false
            (snd (db_helper.delete_old_records (10 * Samples.day) 7
                    Samples.three_job_store)))
     <> db_helper.id (Samples.job_at 1 "41" (3 * Samples.day - 1)).
Proof.
  destruct (store_stays_well_formed Samples.three_job_store
              three_job_store_well_formed) as (Hadd & _ & _ & Hfresh).
  split.
  - destruct (Hadd 0 "44"%string "stored.pdf"%string "a.pdf"%string
                "/p/a.pdf"%string 0%Q 1 false) as [_ Hid].
    rewrite Hid. reflexivity.
  - apply Hfresh. simpl. auto.
Defined.

Lemma sweeps_compose_witness :
  let s := Samples.three_job_store in
  let first := db_helper.delete_old_records (10 * Samples.day) 7 s in
  fst first = Some 1
  /\ fst (db_helper.delete_old_records (10 * Samples.day + 1) 7 (snd first))
     = Some 1
  /\ fst (db_helper.delete_old_records (10 * Samples.day + 1) 7 s) = Some 2
  /\ db_helper.delete_old_records (10 * Samples.day) 7 (snd first)
     = (Some 0, snd first).
Proof.
  intros s first.
  destruct (sweeps_compose (10 * Samples.day) (10 * Samples.day + 1) 7 s
              ltac:(lia)) as (_ & _ & Hsum & Hagain).
  split; [reflexivity|]. split; [reflexivity|].
  split; [apply (Hsum 1 1); reflexivity|].
  apply Hagain. discriminate.
Defined.

Lemma get_recent_jobs_lists_witness :
  exists jobs,
    db_queries.get_recent_jobs db_queries.newest_first
      (10 * Samples.day) 7 Samples.three_job_store = Some jobs
    /\ In (Samples.job_at 3 "42" (3 * Samples.day + 1)) jobs
    /\ ~ In (Samples.job_at 2 "42" (3 * Samples.day)) jobs.
Proof.
  destruct (get_recent_jobs_lists db_queries.newest_first
              (10 * Samples.day) 7 Samples.three_job_store
              newest_first_orders) as (Hlists & _).
  destruct (Hlists (3 * Samples.day) eq_refl)
    as (_ & jobs & Hjobs & _ & Hin & _ & Hedge).
  exists jobs. split; [exact Hjobs|]. split.
  - apply Hin. split; [simpl; auto|reflexivity].
  - apply Hedge. reflexivity.
Defined.

Lemma sweep_keeps_recent_listing_witness :
  db_queries.get_recent_jobs db_queries.newest_first (10 * Samples.day) 1
    (snd (db_helper.delete_old_records (10 * Samples.day) 7
            Samples.three_job_store))
  = db_queries.get_recent_jobs db_queries.newest_first (10 * Samples.day) 1
      Samples.three_job_store.
Proof.
  apply (sweep_keeps_recent_listing db_queries.newest_first
           (10 * Samples.day) 7 1 Samples.three_job_store).
  lia.
Defined.

Lemma update_then_lookup_witness :
  exists r',
    db_helper.get_job_by_id "42"
      (db_helper.update_job_status 0 "42" "cancelled" None
         Samples.one_job_store) = Some r'
    /\ db_helper.id r' = 1
    /\ db_helper.status r' = "cancelled"%string
    /\ db_helper.filepath r' = Samples.report_path.
Proof.
  destruct (update_then_lookup 0 "42" "cancelled" None Samples.one_job_store)
    as (Hfound & _).
  destruct (Hfound Samples.report_job eq_refl)
    as (r' & Hr' & Hid & Hstatus & Hpath & _).
  exists r'. split; [exact Hr'|]. split; [exact Hid|].
  split; [exact Hstatus|exact Hpath].
Defined.


Lemma allowed_file_extension_witness :
  file_helper.allowed_file "README" = false
  /\ file_helper.allowed_file ("report" +:+ "." +:+ "PDF") = true
  /\ file_helper.allowed_file ("" +:+ "." +:+ "png") = true
  /\ file_helper.allowed_file ("archive.pdf" +:+ "." +:+ "exe") <> true.
Proof.
  split; [|split; [|split]].
  - destruct (allowed_file_extension "README" "" "") as (Hno & _).
    apply Hno. reflexivity.
  - destruct (allowed_file_extension "" "report" "PDF") as (_ & Hext & _).
    apply Hext; [reflexivity|]. simpl. auto.
  - destruct (allowed_file_extension "" "" "png") as (_ & Hext & _).
    apply Hext; [reflexivity|]. simpl. auto 10.
  - destruct (allowed_file_extension "" "archive.pdf" "exe")
      as (_ & Hext & _).
    intros H. apply Hext in H; [|reflexivity].
    simpl in H. destruct H as [H|[H|[H|[H|[H|[]]]]]]; discriminate H.
Defined.

Lemma upload_folder_readable : file_sweep.readable MoreSamples.upload_folder.
Proof. repeat constructor; discriminate. Qed.

Lemma cleanup_old_files_sweeps_witness :
  file_sweep.cleanup_old_files (10 * Samples.day)
    (file_sweep.Listing MoreSamples.upload_folder) 7
  = (Some 1, file_sweep.Listing
               [MoreSamples.archive_dir;
                MoreSamples.entry "edge.pdf" (3 * Samples.day);
                MoreSamples.entry "new.pdf" (9 * Samples.day)])
  /\ file_sweep.cleanup_old_files (10 * Samples.day)
       (file_sweep.Listing MoreSamples.upload_folder) 11
     = (None, file_sweep.Listing MoreSamples.upload_folder).
Proof.
  destruct (cleanup_old_files_sweeps (10 * Samples.day) 7
              MoreSamples.upload_folder upload_folder_readable)
    as (Hsweeps & _).
  destruct (Hsweeps (3 * Samples.day) eq_refl) as (_ & Hrun & _).
  split; [rewrite Hrun; reflexivity|].
  destruct (cleanup_old_files_sweeps (10 * Samples.day) 11
              MoreSamples.upload_folder upload_folder_readable)
    as (_ & Hraises).
  apply Hraises. reflexivity.
Defined.

Lemma cleanup_old_files_failures_witness :
  file_sweep.cleanup_old_files (10 * Samples.day)
    (file_sweep.Listing
       ([MoreSamples.entry "old.pdf" (2 * Samples.day)]
        ++ MoreSamples.vanishing
        :: [MoreSamples.entry "older.pdf" Samples.day])) 7
  = (Some 1,
     file_sweep.Listing
       [MoreSamples.vanishing; MoreSamples.entry "older.pdf" Samples.day])
  /\ file_sweep.cleanup_old_files (10 * Samples.day)
       (file_sweep.Listing
          ([MoreSamples.entry "old.pdf" (2 * Samples.day)]
           ++ MoreSamples.locked
           :: [MoreSamples.entry "older.pdf" Samples.day])) 7
     = (Some 2, file_sweep.Listing [MoreSamples.locked])
  /\ file_sweep.cleanup_old_files (10 * Samples.day)
       file_sweep.Unlistable 11
     = (None, file_sweep.Unlistable).
Proof.
  assert (Hpre : file_sweep.readable
                   [MoreSamples.entry "old.pdf" (2 * Samples.day)])
    by (repeat constructor; discriminate).
  split; [|split].
  - destruct (cleanup_old_files_failures (10 * Samples.day) 7
                [MoreSamples.entry "old.pdf" (2 * Samples.day)]
                [MoreSamples.entry "older.pdf" Samples.day]
                MoreSamples.vanishing Hpre eq_refl) as (_ & _ & Hruns).
    destruct (Hruns (3 * Samples.day) eq_refl) as (_ & Hstop & _).
    rewrite (Hstop eq_refl). reflexivity.
  - destruct (cleanup_old_files_failures (10 * Samples.day) 7
                [MoreSamples.entry "old.pdf" (2 * Samples.day)]
                [MoreSamples.entry "older.pdf" Samples.day]
                MoreSamples.locked Hpre eq_refl) as (_ & _ & Hruns).
    destruct (Hruns (3 * Samples.day) eq_refl) as (_ & _ & Hgo).
    rewrite (Hgo Samples.day eq_refl ltac:(reflexivity) eq_refl
               ltac:(repeat constructor; discriminate)).
    reflexivity.
  - destruct (cleanup_old_files_failures (10 * Samples.day) 11
                [] [] MoreSamples.vanishing ltac:(constructor) eq_refl)
      as (_ & Hraises & _).
    apply Hraises. reflexivity.
Defined.

Lemma get_job_status_pending_witness :
  cups_status.get_job_status Samples.spooler_busy "7" []
  = (Some "pending"%string, [["lpstat"; "-o"]%string])
  /\ fst (cups_status.get_job_status Samples.spooler_down "7" [])
     <> Some "pending"%string.
Proof.
  split.
  - destruct (get_job_status_pending Samples.spooler_busy "7" [])
      as (Hiff & Hlog & _).
    assert (Hanswer : fst (cups_status.get_job_status Samples.spooler_busy
                             "7" []) = Some "pending"%string).
    { apply Hiff. eexists. split; [left; reflexivity|].
      vm_compute. reflexivity. }
    specialize (Hlog Hanswer).
    destruct (cups_status.get_job_status Samples.spooler_busy "7" [])
      as [answer l'].
    cbn [fst snd] in Hanswer, Hlog. rewrite Hanswer, Hlog. reflexivity.
  - destruct (get_job_status_pending Samples.spooler_down "7" [])
      as (_ & _ & _ & Hfail).
    apply Hfail. reflexivity.
Defined.

Lemma get_job_status_completed_witness :
  fst (cups_status.get_job_status MoreSamples.spooler_history "12" [])
  = Some "completed"%string
  /\ fst (cups_status.get_job_status MoreSamples.spooler_history "1" [])
     = Some "completed"%string
  /\ fst (cups_status.get_job_status Samples.spooler_down "12" []) = None.
Proof.
  assert (Hidle : forall jid job,
    In job (fst (cups_helper.get_print_queue MoreSamples.spooler_history []))
    -> cups_helper.job_id job <> jid) by (intros jid job []).
  assert (Hdown : forall jid job,
    In job (fst (cups_helper.get_print_queue Samples.spooler_down []))
    -> cups_helper.job_id job <> jid) by (intros jid job []).
  split; [|split].
  - destruct (get_job_status_completed MoreSamples.spooler_history "12" []
                (Hidle "12"%string)) as (_ & Hline & _).
    apply (Hline (MoreSamples.completed_line +:+ String "010" "") ""%string
             MoreSamples.completed_line [] "HP_LaserJet"%string ""%string
             " pi 1024 Wed Nov 12 10:30:00 2025"%string).
    + reflexivity.
    + vm_compute. reflexivity.
    + repeat constructor.
    + reflexivity.
  - destruct (get_job_status_completed MoreSamples.spooler_history "1" []
                (Hidle "1"%string)) as (_ & Hline & _).
    apply (Hline (MoreSamples.completed_line +:+ String "010" "") ""%string
             MoreSamples.completed_line [] "HP_LaserJet"%string "2"%string
             " pi 1024 Wed Nov 12 10:30:00 2025"%string).
    + reflexivity.
    + vm_compute. reflexivity.
    + repeat constructor.
    + reflexivity.
  - destruct (get_job_status_completed Samples.spooler_down "12" []
                (Hdown "12"%string)) as (_ & _ & Hfail).
    apply Hfail. reflexivity.
Defined.

Lemma get_queue_merges_witness :
  let E := Samples.env_with Samples.spooler_busy in
  let view := app_views.get_queue db_queries.newest_first E
                (20 * Samples.day + 1) Samples.one_job_world in
  (exists items,
     fst view = (app_views.Queue items, 200)
     /\ map app_views.job_id items = ["7"%string])
  /\ app.db (snd view) = app.db Samples.one_job_world
  /\ snd (fst (app_views.get_queue db_queries.newest_first E 5
                 Samples.one_job_world)) = 500.
Proof.
  intros E view.
  destruct (get_queue_merges db_queries.newest_first E
              (20 * Samples.day + 1) Samples.one_job_world
              newest_first_orders)
    as (Hdb & _ & _ & Hok & _).
  destruct (Hok eq_refl) as (items & Hview & Hids & _).
  split; [|split; [exact Hdb|]].
  - exists items. split; [exact Hview|]. rewrite Hids. vm_compute.
    reflexivity.
  - destruct (get_queue_merges db_queries.newest_first E 5
                Samples.one_job_world newest_first_orders)
      as (_ & _ & _ & _ & Hraises).
    rewrite (Hraises eq_refl). reflexivity.
Defined.

Lemma upload_rejected_no_effect_witness :
  let E := Samples.env_with Samples.spooler_down in
  let req := Samples.upload_of "report.pdf" "%PDF-1.4" (Some "2"%string) in
  let w := Samples.one_job_world in
  snd (fst (app.upload_files E req w)) = 503
  /\ app.disk (snd (app.upload_files E req w)) = app.disk w
  /\ app.db (snd (app.upload_files E req w)) = app.db w.
Proof.
  intros E req w.
  destruct (upload_rejected_no_effect E req w) as (_ & Hnone & Hdown & _).
  assert (Hcode : snd (fst (app.upload_files E req w)) = 503)
    by (apply Hdown; reflexivity).
  split; [exact Hcode|].
  destruct Hnone as (Hdisk & Hdb & _); [rewrite Hcode; discriminate|].
  split; assumption.
Defined.

Lemma upload_batch_records_witness :
  let E := Samples.env_with Samples.spooler_accepts in
  let req := Samples.upload_of "report.pdf" "%PDF-1.4" (Some "2"%string) in
  let w := Samples.one_job_world in
  snd (fst (app.upload_files E req w)) = 200
  /\ exists results,
       fst (fst (app.upload_files E req w))
       = app.UploadResults (existsb app.succeeded results) results
       /\ map (fun r => match r with
                        | app.Printed n _ _ => n
                        | app.Failed n _ => n
                        end) results = ["report.pdf"%string].
Proof.
  intros E req w.
  assert (Hcode : snd (fst (app.upload_files E req w)) = 200)
    by (vm_compute; reflexivity).
  split; [exact Hcode|].
  destruct (upload_batch_records E req w Hcode)
    as (copies & results & _ & Hbody & _ & Hnames & _).
  exists results. split; [exact Hbody|]. rewrite Hnames. reflexivity.
Defined.

Lemma process_file_disk_witness :
  let E := Samples.env_with Samples.spooler_accepts in
  let w := Samples.one_job_world in
  let file := {| app.filename := "report.pdf";
                 app.stream := "plain words" |} in
  app.disk w !! Samples.report_path = Some "%PDF-1.4"%string
  /\ app.disk (fst (app.process_file E 1 false w file)) !! Samples.report_path
     = None.
Proof.
  intros E w file.
  split; [vm_compute; reflexivity|].
  destruct (process_file_disk E 1 false w file) as (_ & _ & Hpath).
  assert (Hfailed : existsb app.succeeded
                      (snd (app.process_file E 1 false w file)) = false)
    by (vm_compute; reflexivity).
  rewrite Hfailed in Hpath. apply Hpath.
  - discriminate.
  - vm_compute. reflexivity.
Defined.

Lemma upload_turn_after_validation_witness :
  let E := Samples.env_with Samples.spooler_accepts in
  let w := Samples.one_job_world in
  let file := {| app.filename := "report.pdf"; app.stream := "%PDF-1.4" |} in
  snd (app.process_file E 2 true w file)
  = [app.Printed "report.pdf" "43" "Print job submitted (Job ID: 43)"]
  /\ app.disk (fst (app.process_file E 2 true w file)) !! Samples.report_path
     = Some "%PDF-1.4"%string.
Proof.
  intros E w file.
  destruct (upload_turn_after_validation E 2 true w file "pdf")
    as (_ & Hok & _).
  - discriminate.
  - vm_compute. reflexivity.
  - vm_compute. reflexivity.
  - reflexivity.
  - vm_compute. reflexivity.
  - destruct Hok as (Hres & Hdisk & _); [vm_compute; reflexivity|].
    split; [rewrite Hres; vm_compute; reflexivity|exact Hdisk].
Defined.

Lemma reprint_not_found_witness :
  let E := Samples.env_with Samples.spooler_accepts in
  snd (fst (app.reprint_job E "99" Samples.one_job_world)) = 404
  /\ snd (app.reprint_job E "99" Samples.one_job_world)
     = Samples.one_job_world.
Proof.
  intros E.
  destruct (reprint_not_found E "99" Samples.one_job_world)
    as (_ & Hiff & Hsame).
  assert (Hcode : snd (fst (app.reprint_job E "99" Samples.one_job_world))
                  = 404) by (apply Hiff; left; reflexivity).
  split; [exact Hcode|]. apply Hsame. exact Hcode.
Defined.

Lemma handlers_keep_store_well_formed_witness :
  let E := Samples.env_with Samples.spooler_accepts in
  List.NoDup
    (map db_helper.id
       (db_helper.rows
          (app.db (snd (app.reprint_job E "42" Samples.one_job_world)))))
  /\ db_queries.well_formed
       (app.db (snd (app.upload_files E
                       (Samples.upload_of "report.pdf" "%PDF-1.4" None)
                       Samples.one_job_world))).
Proof.
  intros E.
  destruct (handlers_keep_store_well_formed E Samples.one_job_world
              one_job_store_well_formed) as (Hup & _ & Hre).
  split; [apply Hre|apply Hup].
Defined.

Lemma cancel_unknown_job_witness :
  let E := Samples.env_with Samples.spooler_accepts in
  app.db (snd (app.cancel_job E "99" Samples.one_job_world))
  = app.db Samples.one_job_world
  /\ snd (fst (app.cancel_job E "99" Samples.one_job_world)) = 200.
Proof.
  intros E.
  destruct (cancel_unknown_job E "99" Samples.one_job_world eq_refl)
    as (Hdb & Hok & _).
  split; [exact Hdb|]. apply Hok. reflexivity.
Defined.

Lemma status_updates_compose_witness :
  exists r',
    nth_error
      (db_helper.rows
         (db_helper.update_job_status 9 "42" "pending" None
            (db_helper.update_job_status 5 "42" "completed" None
               Samples.one_job_store))) 0 = Some r'
    /\ db_helper.status r' = "pending"%string
    /\ db_helper.completed_at r' = Some 5.
Proof.
  destruct (status_updates_compose 5 9 "42" "pending" None
              Samples.one_job_store 0 Samples.report_job eq_refl eq_refl
              ltac:(discriminate)) as ((r' & Hnth & Hstatus & Hdone & _) & _).
  exists r'. split; [exact Hnth|]. split; [exact Hstatus|exact Hdone].
Defined.

Lemma get_safe_filename_shape_witness :
  let sanitize := fun name : string =>
    if String.eqb name "my report.pdf" then "my_report.pdf"%string
    else name in
  file_helper.get_safe_filename sanitize "20251112_103000" "my report.pdf"
  = file_helper.get_safe_filename sanitize "20251112_103000" "my_report.pdf".
Proof.
  intros sanitize.
  destruct (get_safe_filename_shape sanitize "20251112_103000"
              "my report.pdf" "my_report.pdf") as (_ & _ & Hsame).
  apply Hsame. reflexivity.
Defined.
